(** * Experiment orchestration and checkpoint/resume engine

    A shallow embedding of the orchestration code of the face recognition
    experiment suite (training_utils.py, rerun_experiment.py,
    run_comprehensive_experiment.py, experiment_manager.py) together with
    the properties its design document states about it.

    Python floats are represented by exact rationals extended with the two
    infinities; rounding is not modelled.  Python exceptions are values of
    an error type, and the external collaborators (the training subsystem,
    the disk probe, the clock) are parameters of the functions that call
    them. *)

From Stdlib Require Import ZArith QArith String Ascii List Bool Lia.
From Stdlib Require Import Permutation Sorted Lqa.
From Stdlib Require Decimal DecimalString DecimalZ DecimalPos.
Import ListNotations.

Local Open Scope Z_scope.

Set Warnings "-register-all".

(** ** Exceptions and results *)

Inductive exn : Type :=
| ValueError (msg : string)
| TypeError (msg : string)
| KeyError (msg : string)
| AttributeError (msg : string)
| NameError (msg : string)
| RuntimeError (msg : string).

Inductive result (A : Type) : Type :=
| Ok (a : A)
| Raise (e : exn).

Arguments Ok {A} a.
Arguments Raise {A} e.

Definition bind {A B : Type} (r : result A) (k : A -> result B) : result B :=
  match r with
  | Ok a => k a
  | Raise e => Raise e
  end.

Declare Scope exn_scope.
Delimit Scope exn_scope with exn.
Notation "x <- r ;; k" := (bind r (fun x => k))
  (at level 61, r at next level, right associativity) : exn_scope.

Definition is_ok {A : Type} (r : result A) : bool :=
  match r with Ok _ => true | Raise _ => false end.

(** ** Computations that log

    [logger.warning] and [logger.error] append to the log; what was logged
    before an exception stays logged. *)

Definition logged (A : Type) : Type := (list string * result A)%type.

Definition ret {A : Type} (a : A) : logged A := ([], Ok a).

Definition lift {A : Type} (r : result A) : logged A := ([], r).

Definition warn (msg : string) : logged unit := ([msg], Ok tt).

Definition lbind {A B : Type} (m : logged A) (k : A -> logged B) : logged B :=
  match m with
  | (w, Ok a) => let '(w', r) := k a in (w ++ w', r)
  | (w, Raise e) => (w, Raise e)
  end.

Declare Scope log_scope.
Delimit Scope log_scope with log.
Notation "x <- r ;; k" := (lbind r (fun x => k))
  (at level 61, r at next level, right associativity) : log_scope.

(** ** Python values

    The dynamically typed values that configurations, result summaries and
    serialized documents are made of.  A [dict] keeps its keys in insertion
    order; keys are strings. *)

Module Py.

Inductive value : Type :=
| VNone
| VBool (b : bool)
| VInt (z : Z)
| VFloat (q : Q)
| VStr (s : string)
| VList (l : list value)
| VDict (d : list (string * value)).

(** Truth value of an object, as [if x:] and [x or y] use it. *)
Definition truthy (v : value) : bool :=
  match v with
  | VNone => false
  | VBool b => b
  | VInt z => negb (z =? 0)
  | VFloat q => negb (Qeq_bool q 0)
  | VStr s => negb (String.eqb s "")
  | VList l => match l with [] => false | _ => true end
  | VDict d => match d with [] => false | _ => true end
  end.

Definition type_name (v : value) : string :=
  match v with
  | VNone => "NoneType"
  | VBool _ => "bool"
  | VInt _ => "int"
  | VFloat _ => "float"
  | VStr _ => "str"
  | VList _ => "list"
  | VDict _ => "dict"
  end.

(** [needle in hay] for two strings. *)
Fixpoint contains (needle hay : string) : bool :=
  if String.prefix needle hay then true
  else match hay with
       | EmptyString => false
       | String _ rest => contains needle rest
       end.

Fixpoint dict_get (d : list (string * value)) (k : string) : option value :=
  match d with
  | [] => None
  | (k', v) :: rest => if String.eqb k' k then Some v else dict_get rest k
  end.

Definition dict_has (d : list (string * value)) (k : string) : bool :=
  match dict_get d k with Some _ => true | None => false end.

(** [d[k] = v]: the key keeps its position when it exists, otherwise it is
    added at the end. *)
Fixpoint dict_set (d : list (string * value)) (k : string) (v : value)
  : list (string * value) :=
  match d with
  | [] => [(k, v)]
  | (k', v') :: rest =>
      if String.eqb k' k then (k, v) :: rest else (k', v') :: dict_set rest k v
  end.

(** [d.pop(k, None)] *)
Fixpoint dict_pop (d : list (string * value)) (k : string)
  : list (string * value) :=
  match d with
  | [] => []
  | (k', v') :: rest =>
      if String.eqb k' k then rest else (k', v') :: dict_pop rest k
  end.

Definition is_str (v : value) (k : string) : bool :=
  match v with VStr s => String.eqb s k | _ => false end.

(** [k in c] for a string key [k]. *)
Definition py_in (k : string) (c : value) : result bool :=
  match c with
  | VDict d => Ok (dict_has d k)
  | VList l => Ok (existsb (fun v => is_str v k) l)
  | VStr s => Ok (contains k s)
  | _ => Raise (TypeError ("argument of type '" ++ type_name c ++ "' is not iterable"))
  end.

(** [c[k]] for a string key [k]. *)
Definition getitem (c : value) (k : string) : result value :=
  match c with
  | VDict d =>
      match dict_get d k with
      | Some v => Ok v
      | None => Raise (KeyError k)
      end
  | VList _ => Raise (TypeError "list indices must be integers or slices, not str")
  | VStr _ => Raise (TypeError "string indices must be integers")
  | _ => Raise (TypeError ("'" ++ type_name c ++ "' object is not subscriptable"))
  end.

(** [c[0]] *)
Definition getitem0 (c : value) : result value :=
  match c with
  | VList (v :: _) => Ok v
  | VList [] => Raise (RuntimeError "IndexError: list index out of range")
  | VStr (String a _) => Ok (VStr (String a EmptyString))
  | VStr EmptyString => Raise (RuntimeError "IndexError: string index out of range")
  | VDict _ => Raise (KeyError "0")
  | _ => Raise (TypeError ("'" ++ type_name c ++ "' object is not subscriptable"))
  end.

(** [c.get(k, default)] *)
Definition get (c : value) (k : string) (default : value) : result value :=
  match c with
  | VDict d =>
      match dict_get d k with
      | Some v => Ok v
      | None => Ok default
      end
  | _ => Raise (AttributeError ("'" ++ type_name c ++ "' object has no attribute 'get'"))
  end.

(** A number as [==] and the arithmetic operators read it; [True] is 1. *)
Definition number (v : value) : option Q :=
  match v with
  | VBool b => Some (if b then 1 else 0)%Q
  | VInt z => Some (inject_Z z)
  | VFloat q => Some q
  | _ => None
  end.

(** [a == b]: numbers by value whatever their type, strings and [None]
    with their like, lists item by item, dicts as mappings. *)
Fixpoint eq (a b : value) {struct a} : bool :=
  match a with
  | VNone => match b with VNone => true | _ => false end
  | VStr s => match b with VStr t => String.eqb s t | _ => false end
  | VList l =>
      match b with
      | VList m =>
          (fix eq_list (l m : list value) {struct l} : bool :=
             match l, m with
             | [], [] => true
             | x :: l', y :: m' => eq x y && eq_list l' m'
             | _, _ => false
             end) l m
      | _ => false
      end
  | VDict d =>
      match b with
      | VDict e =>
          Nat.eqb (List.length d) (List.length e) &&
          (fix sub (d : list (string * value)) {struct d} : bool :=
             match d with
             | [] => true
             | kv :: d' =>
                 match dict_get e (fst kv) with
                 | Some w => eq (snd kv) w
                 | None => false
                 end && sub d'
             end) d
      | _ => false
      end
  | _ =>
      match number a, number b with
      | Some x, Some y => Qeq_bool x y
      | _, _ => false
      end
  end.

(** A value whose dicts have each key once. *)
Fixpoint wf (v : value) : Prop :=
  match v with
  | VList l =>
      (fix all (l : list value) : Prop :=
         match l with
         | [] => True
         | x :: l' => wf x /\ all l'
         end) l
  | VDict d =>
      NoDup (map fst d) /\
      (fix all (d : list (string * value)) : Prop :=
         match d with
         | [] => True
         | kv :: d' => wf (snd kv) /\ all d'
         end) d
  | _ => True
  end.

(** Induction on a value, with the hypothesis for the items of a list and
    of a dict. *)
Fixpoint value_induction (P : value -> Prop)
    (HNone : P VNone) (HBool : forall b, P (VBool b)) (HInt : forall z, P (VInt z))
    (HFloat : forall q, P (VFloat q)) (HStr : forall s, P (VStr s))
    (HList : forall l, Forall P l -> P (VList l))
    (HDict : forall d, Forall (fun kv => P (snd kv)) d -> P (VDict d))
    (v : value) : P v :=
  match v with
  | VNone => HNone
  | VBool b => HBool b
  | VInt z => HInt z
  | VFloat q => HFloat q
  | VStr s => HStr s
  | VList l =>
      HList l
        ((fix go (l : list value) : Forall P l :=
            match l with
            | [] => Forall_nil _
            | x :: l' =>
                Forall_cons x
                  (value_induction P HNone HBool HInt HFloat HStr HList HDict x)
                  (go l')
            end) l)
  | VDict d =>
      HDict d
        ((fix go (d : list (string * value)) : Forall (fun kv => P (snd kv)) d :=
            match d with
            | [] => Forall_nil _
            | kv :: d' =>
                Forall_cons kv
                  (value_induction P HNone HBool HInt HFloat HStr HList HDict (snd kv))
                  (go d')
            end) d)
  end.

End Py.

(** ** Early-stopping monitor (training_utils.py, class EarlyStopping) *)

Module EarlyStopping.

(** A float that may be infinite: [best_score] starts at [float('inf')]
    or [float('-inf')]. *)
Inductive xfloat : Type :=
| NegInf
| Fin (q : Q)
| PosInf.

Definition Qltb (x y : Q) : bool := negb (Qle_bool y x).

Definition xlt (a b : xfloat) : bool :=
  match a, b with
  | NegInf, NegInf => false
  | NegInf, _ => true
  | Fin _, NegInf => false
  | Fin x, Fin y => Qltb x y
  | Fin _, PosInf => true
  | PosInf, _ => false
  end.

Definition xadd (a : xfloat) (d : Q) : xfloat :=
  match a with
  | Fin x => Fin (x + d)
  | NegInf => NegInf
  | PosInf => PosInf
  end.

Definition xsub (a : xfloat) (d : Q) : xfloat :=
  match a with
  | Fin x => Fin (x - d)
  | NegInf => NegInf
  | PosInf => PosInf
  end.

Inductive mode_t : Type := Min | Max.

Record t : Type := mk {
  patience : Z;
  min_delta : Q;
  counter : Z;
  mode : mode_t;
  early_stop : bool;
  trace : list Q;
  best_score : xfloat
}.

(** [self.val_comp], the lambda chosen by [__init__]; it reads
    [best_score] and [min_delta] of the object at the time of the call. *)
Definition val_comp (self : t) (score : Q) : bool :=
  match mode self with
  | Min => xlt (Fin score) (xsub (best_score self) (min_delta self))
  | Max => xlt (xadd (best_score self) (min_delta self)) (Fin score)
  end.

(** [__init__(patience, min_delta, mode)] with the mode given as the
    string the caller passes. *)
Definition init (patience : Z) (min_delta : Q) (mode : string) : result t :=
  if String.eqb mode "min" then
    Ok (mk patience min_delta 0 Min false [] PosInf)
  else if String.eqb mode "max" then
    Ok (mk patience min_delta 0 Max false [] NegInf)
  else
    Raise (ValueError ("Mode " ++ mode ++ " is not supported. Use 'min' or 'max'")%string).

Definition init_mode (patience : Z) (min_delta : Q) (m : mode_t) : t :=
  match m with
  | Min => mk patience min_delta 0 Min false [] PosInf
  | Max => mk patience min_delta 0 Max false [] NegInf
  end.

(** [__call__(val_score)]: the new state of the object and the value
    returned. *)
Definition call (self : t) (val_score : Q) : t * bool :=
  let self1 := mk (patience self) (min_delta self) (counter self) (mode self)
                  (early_stop self) (trace self ++ [val_score]) (best_score self) in
  if val_comp self1 val_score then
    (mk (patience self1) (min_delta self1) 0 (mode self1)
        (early_stop self1) (trace self1) (Fin val_score), true)
  else
    let c := counter self1 + 1 in
    (mk (patience self1) (min_delta self1) c (mode self1)
        (if patience self1 <=? c then true else early_stop self1)
        (trace self1) (best_score self1), false).

(** Feeding a sequence of scores, one call per score; the returned list
    holds the value each call returned. *)
Fixpoint observe (self : t) (scores : list Q) : t * list bool :=
  match scores with
  | [] => (self, [])
  | x :: rest =>
      let '(self', r) := call self x in
      let '(final, rs) := observe self' rest in
      (final, r :: rs)
  end.

(** [n] consecutive non-improving observations occur in a sequence of
    returned values. *)
Definition has_run (n : nat) (flags : list bool) : Prop :=
  exists pre post, flags = pre ++ repeat false n ++ post.

(** Length of the run of non-improving observations at the start of a
    list; used on the reversed list of returned values. *)
Fixpoint leading (flags : list bool) : nat :=
  match flags with
  | false :: rest => S (leading rest)
  | _ => 0%nat
  end.

Definition trailing (flags : list bool) : nat := leading (rev flags).

(** The order on extended floats as a proposition. *)
Definition xLt (a b : xfloat) : Prop :=
  match a, b with
  | NegInf, NegInf => False
  | NegInf, _ => True
  | Fin _, NegInf => False
  | Fin x, Fin y => (x < y)%Q
  | Fin _, PosInf => True
  | PosInf, _ => False
  end.

(** The improvement test as the design document words it. *)
Definition improved (self : t) (score : Q) : Prop :=
  match mode self with
  | Min => xLt (Fin score) (xsub (best_score self) (min_delta self))
  | Max => xLt (xadd (best_score self) (min_delta self)) (Fin score)
  end.

(** The stopping criterion as the design document words it: the flag is
    set exactly when [patience] consecutive non-improving observations
    occurred. *)
Definition stops_iff_run (patience : Z) (min_delta : Q) (m : mode_t)
    (scores : list Q) : Prop :=
  let r := observe (init_mode patience min_delta m) scores in
  early_stop (fst r) = true <-> has_run (Z.to_nat patience) (snd r).

(** How [best_score] relates to the scores seen so far: it is the initial
    infinity before the first score, afterwards one of the scores, and no
    score beats it by more than [delta]. *)
Definition tracks (m : mode_t) (delta : Q) (seen : list Q) (best : xfloat) : Prop :=
  match seen with
  | [] => best = match m with Min => PosInf | Max => NegInf end
  | _ =>
      exists b, best = Fin b /\ In b seen /\
        forall x, In x seen ->
          match m with
          | Min => (b <= x + delta)%Q
          | Max => (x - delta <= b)%Q
          end
  end.

End EarlyStopping.

(** ** Resource gate and sweep matrix (run_comprehensive_experiment.py)

    [check_disk_space] and the two architecture loops of
    [run_comprehensive_face_recognition_experiment].  The disk probe and
    the training subsystem are the two collaborators: the [k]-th probe of
    the run reads [free_bytes k], and training the unit
    (preprocessing, dataset, architecture) either returns a result summary
    or raises. *)

Module Sweep.

Record world : Type := mkWorld {
  free_bytes : nat -> Z;
  train : string -> string -> string -> result Py.value;
  data_ready : bool
}.

Record state : Type := mkState {
  probes : nat;
  invoked : list (string * string * string);
  failed_architectures : list string;
  architecture_results : list (string * list (string * Py.value));
  experiment_ids : list string
}.

Definition initial : state := mkState 0 [] [] [] [].

Definition Qltb (x y : Q) : bool := negb (Qle_bool y x).

(** [check_disk_space(min_gb)]: [gb_free = disk.free / (1024*1024*1024)],
    false when [gb_free < min_gb]. *)
Definition check_disk_space (w : world) (min_gb : Z) (s : state) : bool * state :=
  let free := free_bytes w (probes s) in
  let gb_free := (inject_Z free / inject_Z (1024 * 1024 * 1024))%Q in
  let s' := mkState (S (probes s)) (invoked s) (failed_architectures s)
                    (architecture_results s) (experiment_ids s) in
  if Qltb gb_free (inject_Z min_gb) then (false, s') else (true, s').

(** [f"{prep}_{dataset_name}_{arch}"], the identity recorded for a unit. *)
Definition unit_label (prep dataset arch : string) : string :=
  (prep ++ "_" ++ dataset ++ "_" ++ arch)%string.

(** [architecture_results[key]["results"][arch] = results], creating the
    entry for [key] when it is missing. *)
Fixpoint store_result (res : list (string * list (string * Py.value)))
    (key arch : string) (r : Py.value) : list (string * list (string * Py.value)) :=
  match res with
  | [] => [(key, [(arch, r)])]
  | (k, inner) :: rest =>
      if String.eqb k key then (k, Py.dict_set inner arch r) :: rest
      else (k, inner) :: store_result rest key arch r
  end.

(** One iteration of the inner [for arch in all_architectures] loop: the
    body of the [try], its [except] handler, and the [continue]s.  [prep]
    is "enhanced" or "minimal", [exp_id] the identifier prefix of the
    phase. *)
Definition run_unit (w : world) (prep exp_id : string) (min_gb : Z)
    (dataset arch : string) (s : state) : state :=
  let '(ok, s1) := check_disk_space w min_gb s in
  if negb ok then
    mkState (probes s1) (invoked s1)
            (failed_architectures s1 ++ [unit_label prep dataset arch])
            (architecture_results s1) (experiment_ids s1)
  else
    let called := invoked s1 ++ [(prep, dataset, arch)] in
    match train w prep dataset arch with
    | Raise _ =>
        mkState (probes s1) called
                (failed_architectures s1 ++ [unit_label prep dataset arch])
                (architecture_results s1) (experiment_ids s1)
    | Ok results =>
        if String.eqb arch "siamese" then
          (* the [continue] in the visualisation block leaves the iteration
             before the results are stored *)
          mkState (probes s1) called (failed_architectures s1)
                  (architecture_results s1) (experiment_ids s1)
        else
          mkState (probes s1) called (failed_architectures s1)
                  (store_result (architecture_results s1)
                                (prep ++ "_" ++ dataset)%string arch results)
                  (experiment_ids s1 ++
                     [(exp_id ++ "_" ++ dataset ++ "_" ++ arch)%string])
    end.

Definition for_archs (w : world) (prep exp_id : string) (min_gb : Z)
    (dataset : string) (archs : list string) (s : state) : state :=
  fold_left (fun acc arch => run_unit w prep exp_id min_gb dataset arch acc) archs s.

Definition for_datasets (w : world) (prep exp_id : string) (min_gb : Z)
    (datasets archs : list string) (s : state) : state :=
  fold_left (fun acc dataset => for_archs w prep exp_id min_gb dataset archs acc)
            datasets s.

(** The iterations of the two nested loops, in the order they run. *)
Definition units (datasets archs : list string) : list (string * string) :=
  flat_map (fun d => map (fun a => (d, a)) archs) datasets.

Definition run_units (w : world) (prep exp_id : string) (min_gb : Z)
    (us : list (string * string)) (s : state) : state :=
  fold_left (fun acc u => run_unit w prep exp_id min_gb (fst u) (snd u) acc) us s.

Definition bytes_per_gb : Z := 1024 * 1024 * 1024.

Definition dataset_names : list string := ["dataset1"; "dataset2"]%string.

Inductive outcome : Type :=
| InsufficientDiskSpace
| DataMissing (e : exn)
| MatrixDone (s : state).

(** The function up to the end of the second architecture loop. *)
Definition run_matrix (w : world) (comprehensive_exp_id : string)
    (all_architectures : list string) : outcome :=
  let '(ok, s0) := check_disk_space w 5 initial in
  if negb ok then InsufficientDiskSpace
  else if negb (data_ready w) then
    DataMissing (ValueError "Processed data not found. Please run prepare_datasets() first.")
  else
    let s1 := for_datasets w "enhanced"
                (comprehensive_exp_id ++ "_enhanced_preprocessing")%string 2
                dataset_names all_architectures s0 in
    let '(ok2, s2) := check_disk_space w 2 s1 in
    if negb ok2 then MatrixDone s2
    else
      MatrixDone (for_datasets w "minimal"
                    (comprehensive_exp_id ++ "_minimal_preprocessing")%string 1
                    dataset_names all_architectures s2).

(** The iterations of a loop with the number of the probe each one makes,
    when the first of them makes probe number [k]. *)
Definition numbered (k : nat) (us : list (string * string))
  : list (nat * (string * string)) :=
  combine (seq k (List.length us)) us.

(** The probe of an iteration reports less than the threshold. *)
Definition probe_low (w : world) (min_gb : Z) (ku : nat * (string * string))
  : bool :=
  free_bytes w (fst ku) <? min_gb * bytes_per_gb.

(** An iteration fails: its probe is low or its training raises. *)
Definition unit_fails (w : world) (prep : string) (min_gb : Z)
    (ku : nat * (string * string)) : bool :=
  probe_low w min_gb ku ||
  negb (is_ok (train w prep (fst (snd ku)) (snd (snd ku)))).

(** No result of the Siamese architecture is stored. *)
Definition no_siamese (res : list (string * list (string * Py.value))) : Prop :=
  forall key inner, In (key, inner) res -> Py.dict_get inner "siamese" = None.

(** A world whose disk runs low for the third unit and whose training
    raises for the architecture "vit". *)
Definition example_world : world :=
  mkWorld (fun k => if (k =? 3)%nat then 1 * bytes_per_gb else 10 * bytes_per_gb)
          (fun _ _ arch =>
             if String.eqb arch "vit" then Raise (RuntimeError "CUDA out of memory")
             else Ok (Py.VDict []))
          true.

End Sweep.

(** ** Checkpoint store (training_utils.py)

    [save_checkpoint], [load_checkpoint] and [prune_checkpoints] over a
    disk whose files carry their bytes and a modification time.
    [torch.save] and [torch.load] are the serializer of the tensor library:
    [dumps] gives the bytes [torch.save] writes for a record and [loads]
    what [torch.load] makes of the bytes of a file.  [torch.save(obj, path)]
    opens [path] itself for writing and streams the bytes into it; the
    primitive steps below are at the granularity of one byte so that an
    interruption can be placed anywhere. *)

Module Checkpoint.

Record file : Type := mkFile {
  content : string;
  mtime : nat
}.

(** A file is addressed by its directory and its name. *)
Definition path : Type := (string * string)%type.

Definition path_eqb (p q : path) : bool :=
  String.eqb (fst p) (fst q) && String.eqb (snd p) (snd q).

Record disk : Type := mkDisk {
  dirs : list string;
  files : list (path * file);
  clock : nat
}.

Fixpoint lookup (fs : list (path * file)) (p : path) : option file :=
  match fs with
  | [] => None
  | (q, f) :: rest => if path_eqb q p then Some f else lookup rest p
  end.

Fixpoint update (fs : list (path * file)) (p : path) (f : file)
  : list (path * file) :=
  match fs with
  | [] => [(p, f)]
  | (q, g) :: rest =>
      if path_eqb q p then (q, f) :: rest else (q, g) :: update rest p f
  end.

Definition read (d : disk) (p : path) : option string :=
  option_map content (lookup (files d) p).

Inductive step : Type :=
| Mkdir (dir : string)
| OpenWrite (p : path)
| WriteByte (p : path) (b : ascii)
| Remove (p : path).

Definition exec1 (st : step) (d : disk) : disk :=
  match st with
  | Mkdir dir =>
      if existsb (String.eqb dir) (dirs d) then d
      else mkDisk (dirs d ++ [dir]) (files d) (clock d)
  | OpenWrite p =>
      mkDisk (dirs d) (update (files d) p (mkFile "" (clock d))) (S (clock d))
  | WriteByte p b =>
      match lookup (files d) p with
      | Some f =>
          mkDisk (dirs d)
                 (update (files d) p
                    (mkFile (content f ++ String b EmptyString) (clock d)))
                 (S (clock d))
      | None => d
      end
  | Remove p =>
      mkDisk (dirs d)
             (filter (fun e => negb (path_eqb (fst e) p)) (files d))
             (clock d)
  end.

Definition exec (sts : list step) (d : disk) : disk :=
  fold_left (fun acc st => exec1 st acc) sts d.

(** The steps of [torch.save(obj, path)] for the bytes [data]. *)
Definition torch_save (data : string) (p : path) : list step :=
  OpenWrite p :: map (WriteByte p) (list_ascii_of_string data).

Definition ends_with (suffix s : string) : bool :=
  let n := String.length s in
  let k := String.length suffix in
  (k <=? n)%nat && String.eqb (substring (n - k) k s) suffix.

(** [fnmatch] against the default pattern "checkpoint_*.pth". *)
Definition matches_checkpoint_pattern (name : string) : bool :=
  String.prefix "checkpoint_" name && ends_with ".pth" name &&
  (15 <=? String.length name)%nat.

(** Stable sort by modification time, newest first
    ([sort(key=os.path.getmtime, reverse=True)]). *)
Fixpoint insert_newest (e : path * file) (sorted : list (path * file))
  : list (path * file) :=
  match sorted with
  | [] => [e]
  | x :: rest =>
      if (mtime (snd e) <? mtime (snd x))%nat then x :: insert_newest e rest
      else e :: x :: rest
  end.

Definition sort_newest_first (l : list (path * file)) : list (path * file) :=
  fold_right insert_newest [] l.

(** [prune_checkpoints(checkpoint_dir, keep)] with the default pattern. *)
Definition prune_checkpoints (checkpoint_dir : string) (keep : nat) (d : disk)
  : disk :=
  let checkpoint_files :=
    filter (fun e => String.eqb (fst (fst e)) checkpoint_dir &&
                     matches_checkpoint_pattern (snd (fst e))) (files d) in
  let sorted := sort_newest_first checkpoint_files in
  exec (map (fun e => Remove (fst e)) (skipn keep sorted)) d.

(** The files [glob.glob(str(checkpoint_dir / "checkpoint_*.pth"))] lists. *)
Definition is_checkpoint (checkpoint_dir : string) (e : path * file) : bool :=
  String.eqb (fst (fst e)) checkpoint_dir &&
  matches_checkpoint_pattern (snd (fst e)).

Definition checkpoints (checkpoint_dir : string) (d : disk) : list (path * file) :=
  filter (is_checkpoint checkpoint_dir) (files d).

(** Two facts of a real disk: a path names one file, and the clock is
    ahead of every modification time. *)
Definition unique_paths (d : disk) : Prop := NoDup (map fst (files d)).

Definition clock_ahead (d : disk) : Prop :=
  forall e, In e (files d) -> (mtime (snd e) < clock d)%nat.

(** [a] was modified no earlier than [b]. *)
Definition newer_eq (a b : path * file) : Prop :=
  (mtime (snd b) <= mtime (snd a))%nat.

(** A checkpoint directory after three epochs, with the best model beside
    the per-epoch files. *)
Definition example_disk : disk :=
  mkDisk ["ckpt"%string]
    [(("ckpt", "checkpoint_epoch_1.pth")%string, mkFile "a" 1);
     (("ckpt", "best_model.pth")%string, mkFile "b" 2);
     (("ckpt", "checkpoint_epoch_2.pth")%string, mkFile "c" 3);
     (("ckpt", "checkpoint_epoch_3.pth")%string, mkFile "d" 4)] 5.

Section Serializer.

Variable dumps : Py.value -> string.
Variable loads : string -> result Py.value.

(** The record [save_checkpoint] builds.  Model, optimizer and scheduler
    are given by their [state_dict()]; [scheduler] is [None] or a
    scheduler, of which [hasattr(scheduler, 'state_dict')] may fail. *)
Definition checkpoint_record (model_state optimizer_state : Py.value)
    (scheduler : option (option Py.value)) (epoch : Z)
    (validation_metrics : Py.value) (now : string)
    (metadata : Py.value) : Py.value :=
  let base :=
    [("epoch", Py.VInt epoch);
     ("model_state_dict", model_state);
     ("optimizer_state_dict", optimizer_state);
     ("validation_metrics", validation_metrics);
     ("date_saved", Py.VStr now)]%string in
  let with_sched :=
    match scheduler with
    | Some (Some st) => base ++ [("scheduler_state_dict", st)]%string
    | _ => base
    end in
  let with_meta :=
    if Py.truthy metadata then with_sched ++ [("metadata", metadata)]%string
    else with_sched in
  Py.VDict with_meta.

(** The steps of [save_checkpoint] up to and including [torch.save]. *)
Definition save_steps (record : Py.value) (checkpoint_dir filename : string)
  : list step :=
  Mkdir checkpoint_dir :: torch_save (dumps record) (checkpoint_dir, filename).

(** [save_checkpoint]; returns the checkpoint path. *)
Definition save_checkpoint (record : Py.value)
    (checkpoint_dir filename : string) (keep_best_only : bool) (d : disk)
  : disk * path :=
  let d1 := exec (save_steps record checkpoint_dir filename) d in
  let d2 := if keep_best_only then prune_checkpoints checkpoint_dir 1 d1 else d1 in
  (d2, (checkpoint_dir, filename)).

(** [save_checkpoint] stopped by the end of the process after [k] of its
    primitive steps. *)
Definition save_interrupted (k : nat) (record : Py.value)
    (checkpoint_dir filename : string) (d : disk) : disk :=
  exec (firstn k (save_steps record checkpoint_dir filename)) d.

(** [torch.load(checkpoint_path)], the first action of [load_checkpoint]. *)
Definition load_checkpoint (p : path) (d : disk) : result Py.value :=
  match read d p with
  | Some bytes => loads bytes
  | None => Raise (RuntimeError "FileNotFoundError")
  end.

(** Atomicity of a save, as the design document requires it: whenever the
    process stops, the checkpoint path holds nothing, or what it held
    before, or the complete new record. *)
Definition atomic_save (record : Py.value) (checkpoint_dir filename : string)
    (d : disk) : Prop :=
  forall k : nat,
    let p := (checkpoint_dir, filename) in
    let d' := save_interrupted k record checkpoint_dir filename d in
    read d' p = None \/ read d' p = read d p \/ read d' p = Some (dumps record).

End Serializer.

(** [load_checkpoint] as a whole.  The model, the optimizer and the
    scheduler belong to the tensor library: [load_state_dict target state]
    is the call [target.load_state_dict(state)], which may raise.  The
    function is given the model and, optionally, an optimizer and a
    scheduler; what it returns here is the list of the states it handed to
    [load_state_dict], in the order of the calls, and the checkpoint or the
    exception. *)
Inductive target : Type := Model | Optimizer | Scheduler.

Section Restore.

Variable loads : string -> result Py.value.
Variable load_state_dict : target -> Py.value -> result unit.

(** [if obj is not None and key in checkpoint: obj.load_state_dict(checkpoint[key])] *)
Definition restore_optional (given : bool) (t : target) (key : string)
    (checkpoint : Py.value) (done : list (target * Py.value))
  : list (target * Py.value) * result unit :=
  if negb given then (done, Ok tt)
  else
    match Py.py_in key checkpoint with
    | Raise e => (done, Raise e)
    | Ok false => (done, Ok tt)
    | Ok true =>
        match Py.getitem checkpoint key with
        | Raise e => (done, Raise e)
        | Ok st =>
            match load_state_dict t st with
            | Raise e => (done, Raise e)
            | Ok _ => (done ++ [(t, st)], Ok tt)
            end
        end
    end.

Definition restore (p : path) (optimizer scheduler : bool) (d : disk)
  : list (target * Py.value) * result Py.value :=
  match load_checkpoint loads p d with
  | Raise e => ([], Raise e)
  | Ok checkpoint =>
      match Py.getitem checkpoint "model_state_dict" with
      | Raise e => ([], Raise e)
      | Ok ms =>
          match load_state_dict Model ms with
          | Raise e => ([], Raise e)
          | Ok _ =>
              match restore_optional optimizer Optimizer "optimizer_state_dict"
                      checkpoint [(Model, ms)] with
              | (done, Raise e) => (done, Raise e)
              | (done, Ok _) =>
                  match restore_optional scheduler Scheduler
                          "scheduler_state_dict" checkpoint done with
                  | (done', Raise e) => (done', Raise e)
                  | (done', Ok _) => (done', Ok checkpoint)
                  end
              end
          end
      end
  end.

End Restore.

End Checkpoint.

(** ** Rerun planner (rerun_experiment.py, [main], the cleanup section)

    The prior sweep is a directory tree; a directory lists its entries in
    the order [os.scandir] reports them.  A [Path] below the experiment
    directory is the list of its segments, and [str] of it is the
    experiment directory followed by the segments joined with "/".  The
    [glob.glob(..., recursive=True)] calls are modelled for architecture
    names that are plain file names (not empty, without "/" and without the
    metacharacters of [fnmatch]). *)

Module Rerun.

Inductive node : Type :=
| File
| Dir (children : list (string * node)).

Definition segs : Type := list string.

Definition isdir_node (n : node) : bool :=
  match n with Dir _ => true | File => false end.

Fixpoint child (cs : list (string * node)) (name : string) : option node :=
  match cs with
  | [] => None
  | (x, c) :: rest => if String.eqb x name then Some c else child rest name
  end.

Fixpoint walk (n : node) (p : segs) : option node :=
  match p with
  | [] => Some n
  | x :: rest =>
      match n with
      | Dir cs =>
          match child cs x with
          | Some c => walk c rest
          | None => None
          end
      | File => None
      end
  end.

(** [Path.exists()], [Path.is_dir()] *)
Definition exists_ (root : node) (p : segs) : bool :=
  match walk root p with Some _ => true | None => false end.

Definition is_dir (root : node) (p : segs) : bool :=
  match walk root p with Some (Dir _) => true | _ => false end.

(** [str(path)] and [str(path.relative_to(experiment_dir))] *)
Definition rel (p : segs) : string := String.concat "/" p.

Definition str (experiment_dir : string) (p : segs) : string :=
  (experiment_dir ++ "/" ++ rel p)%string.

(** [glob._ishidden] *)
Definition ishidden (name : string) : bool :=
  match name with
  | String "."%char _ => true
  | _ => false
  end.

(** [glob._rlistdir]: every entry below a directory, parents before their
    contents, hidden names skipped together with what they contain. *)
Fixpoint rlistdir (dironly : bool) (n : node) : list segs :=
  match n with
  | File => []
  | Dir cs =>
      flat_map
        (fun e =>
           if ishidden (fst e) then []
           else if dironly && negb (isdir_node (snd e)) then []
           else [fst e] :: map (cons (fst e)) (rlistdir dironly (snd e)))
        cs
  end.

(** The directories a leading [base/**] expands to. *)
Definition recursive_dirs (root : node) (base : segs) : list segs :=
  match walk root base with
  | Some (Dir cs) => base :: map (app base) (rlistdir true (Dir cs))
  | _ => []
  end.

Definition listdir (root : node) (d : segs) (dironly : bool) : list string :=
  match walk root d with
  | Some (Dir cs) =>
      map fst (filter (fun e => negb dironly || isdir_node (snd e)) cs)
  | _ => []
  end.

(** [glob._glob1] for a pattern that does not start with a dot. *)
Definition glob1 (root : node) (d : segs) (pat : string -> bool)
    (dironly : bool) : list segs :=
  map (fun name => d ++ [name])
      (filter pat (filter (fun x => negb (ishidden x)) (listdir root d dironly))).

(** [glob._glob0] for a literal last segment. *)
Definition glob0 (root : node) (d : segs) (name : string) : list segs :=
  if exists_ root (d ++ [name]) then [d ++ [name]] else [].

Definition ends_with (suffix s : string) : bool :=
  let n := String.length s in
  let k := String.length suffix in
  (k <=? n)%nat && String.eqb (substring (n - k) k s) suffix.

(** [fnmatch] against [*{model}*.json] and [*{model}*]. *)
Definition match_model_json (model name : string) : bool :=
  ends_with ".json" name &&
  Py.contains model (substring 0 (String.length name - 5) name).

Definition match_model (model name : string) : bool := Py.contains model name.

(** [glob.glob(f"{experiment_dir}/**/*/siamese", recursive=True)] *)
Definition glob_model_dirs (root : node) : list segs :=
  flat_map (fun d => glob0 root d "siamese")
    (flat_map (fun d => glob1 root d (fun _ => true) true)
       (recursive_dirs root [])).

(** [glob.glob(f"{base}/**/*{model}*.json", recursive=True)] *)
Definition glob_json (root : node) (base : segs) (model : string) : list segs :=
  flat_map (fun d => glob1 root d (match_model_json model) false)
    (recursive_dirs root base).

(** [glob.glob(f"{cv_dir}/**/{model}", recursive=True)] *)
Definition glob_named (root : node) (base : segs) (model : string) : list segs :=
  flat_map (fun d => glob0 root d model) (recursive_dirs root base).

(** [glob.glob(f"{hyperopt_dir}/**/*{model}*", recursive=True)] *)
Definition glob_containing (root : node) (base : segs) (model : string)
  : list segs :=
  flat_map (fun d => glob1 root d (match_model model) false)
    (recursive_dirs root base).

Definition entry : Type := (segs * string)%type.

Definition mk_entry (p : segs) : entry := (p, rel p).

(** [any(str(p).startswith(str(dir_path)) for dir_path, _ in to_remove
        if dir_path.is_dir())] *)
Definition covered (experiment_dir : string) (root : node)
    (to_remove : list entry) (p : segs) : bool :=
  existsb (fun e => is_dir root (fst e) &&
                    String.prefix (str experiment_dir (fst e))
                                  (str experiment_dir p))
          to_remove.

Definition add_all (ps : list segs) (to_remove : list entry) : list entry :=
  fold_left (fun acc p => acc ++ [mk_entry p]) ps to_remove.

Definition add_unless_covered (experiment_dir : string) (root : node)
    (ps : list segs) (to_remove : list entry) : list entry :=
  fold_left (fun acc p => if covered experiment_dir root acc p then acc
                          else acc ++ [mk_entry p]) ps to_remove.

Definition nonempty {A : Type} (l : list A) : bool :=
  match l with [] => false | _ => true end.

(** [for model in args.rerun_models:] of the model section. *)
Definition model_section (experiment_dir : string) (root : node)
    (rerun_models : list string) (to_remove : list entry) : list entry :=
  fold_left
    (fun acc model =>
       let acc1 := add_all (glob_model_dirs root) acc in
       add_unless_covered experiment_dir root (glob_json root [] model) acc1)
    rerun_models to_remove.

Definition cv_dir : segs := ["cross_validation"%string].
Definition cv_report_path : segs := ["cross_validation_report.json"%string].
Definition hyperopt_dir : segs := ["hyperparameter_optimization"%string].

(** [if args.rerun_cv:] *)
Definition cv_section (experiment_dir : string) (root : node)
    (rerun_models : list string) (to_remove : list entry) : list entry :=
  let t1 :=
    if exists_ root cv_dir then
      if nonempty rerun_models then
        fold_left
          (fun acc model =>
             let acc1 := add_unless_covered experiment_dir root
                           (glob_named root cv_dir model) acc in
             add_unless_covered experiment_dir root
               (glob_json root cv_dir model) acc1)
          rerun_models to_remove
      else to_remove ++ [(cv_dir, "cross_validation"%string)]
    else to_remove in
  if exists_ root cv_report_path then
    t1 ++ [(cv_report_path, "cross_validation_report.json"%string)]
  else t1.

(** [if args.rerun_hyperopt:] *)
Definition hyperopt_section (experiment_dir : string) (root : node)
    (rerun_models : list string) (to_remove : list entry) : list entry :=
  if exists_ root hyperopt_dir then
    if nonempty rerun_models then
      fold_left
        (fun acc model =>
           add_unless_covered experiment_dir root
             (glob_containing root hyperopt_dir model) acc)
        rerun_models to_remove
    else to_remove ++ [(hyperopt_dir, "hyperparameter_optimization"%string)]
  else to_remove.

(** The list [to_remove] as it stands when it is displayed. *)
Definition plan (experiment_dir : string) (root : node)
    (rerun_models : list string) (rerun_cv rerun_hyperopt : bool)
  : list entry :=
  let t1 := model_section experiment_dir root rerun_models [] in
  let t2 := if rerun_cv then cv_section experiment_dir root rerun_models t1
            else t1 in
  if rerun_hyperopt then hyperopt_section experiment_dir root rerun_models t2
  else t2.

(** [q] lies below [p] in the tree. *)
Definition descendant (q p : segs) : Prop :=
  exists rest, rest <> [] /\ q = p ++ rest.

(** The invariant of a plan as the design document states it. *)
Definition no_overlap (pl : list entry) : Prop :=
  NoDup (map fst pl) /\
  forall pre e post, pl = pre ++ e :: post ->
    forall e', In e' pre -> ~ descendant (fst e) (fst e').

(** The entries that are appended without the check against the
    directories already selected. *)
Definition unchecked (root : node) (p : segs) : Prop :=
  In p (glob_model_dirs root) \/ p = cv_dir \/ p = cv_report_path \/
  p = hyperopt_dir.

(** What the check maintains of the list: every entry that follows a
    selected directory whose path string is a prefix of its own was
    appended without the check. *)
Definition checked_inv (experiment_dir : string) (root : node)
    (acc : list entry) : Prop :=
  forall pre e post,
    acc = pre ++ e :: post ->
    covered experiment_dir root pre (fst e) = true ->
    unchecked root (fst e).

(** *** The deletion loop

    [for dir_path, _ in to_remove:] of [main]: a path that still exists is
    removed, a file with [unlink] and a directory with [shutil.rmtree]; a
    path that does not exist any more is passed over.  Both calls are
    taken to succeed (an exception they raise is printed and the loop goes
    on).  The experiment directory itself, the empty path, is not an entry
    of the tree. *)

Fixpoint remove (n : node) (p : segs) {struct p} : node :=
  match p with
  | [] => n
  | name :: rest =>
      match n with
      | File => n
      | Dir cs =>
          match rest with
          | [] => Dir (filter (fun e => negb (String.eqb (fst e) name)) cs)
          | _ =>
              Dir (map (fun e => if String.eqb (fst e) name
                                 then (fst e, remove (snd e) rest)
                                 else e) cs)
          end
      end
  end.

Definition delete_all (to_remove : list entry) (root : node) : node :=
  fold_left (fun t e => if exists_ t (fst e) then remove t (fst e) else t)
            to_remove root.

(** A directory lists a name once. *)
Fixpoint wf (n : node) : Prop :=
  match n with
  | File => True
  | Dir cs =>
      NoDup (map fst cs) /\
      (fix all (l : list (string * node)) : Prop :=
         match l with
         | [] => True
         | e :: l' => wf (snd e) /\ all l'
         end) cs
  end.

(** Induction on a tree, with the hypothesis for every entry of a
    directory. *)
Fixpoint node_induction (P : node -> Prop) (HF : P File)
    (HD : forall cs, Forall (fun e => P (snd e)) cs -> P (Dir cs)) (n : node)
  : P n :=
  match n with
  | File => HF
  | Dir cs =>
      HD cs
         ((fix go (l : list (string * node)) : Forall (fun e => P (snd e)) l :=
             match l with
             | [] => Forall_nil _
             | e :: l' => Forall_cons e (node_induction P HF HD (snd e)) (go l')
             end) cs)
  end.

(** [p] is [q] or an ancestor of [q]. *)
Definition is_prefix (p q : segs) : Prop := exists rest, q = p ++ rest.

(** An entry names an existing path below the experiment directory by its
    relative path. *)
Definition sound_entry (root : node) (e : entry) : Prop :=
  exists_ root (fst e) = true /\ fst e <> [] /\ snd e = rel (fst e).

(** The kind of a path: absent, a file or a directory. *)
Definition kind (n : node) (q : segs) : option bool :=
  option_map isdir_node (walk n q).

(** Sweep trees to evaluate the planner on. *)
Definition sweep_tree_cnn_and_siamese : node :=
  Dir
    [("enhanced_preprocessing",
      Dir
        [("dataset1",
          Dir
            [("cnn", Dir [("results.json", File)]);
             ("siamese", Dir [("results.json", File)]);
             ("siamese_summary.json", File)])])]%string.

Definition sweep_tree_comparison_file : node :=
  Dir
    [("enhanced_preprocessing",
      Dir
        [("dataset1",
          Dir [("cnn_vs_baseline.json", File)])])]%string.

Definition sweep_tree_nested : node :=
  Dir
    [("enhanced_preprocessing",
      Dir
        [("siamese",
          Dir [("dataset1", Dir [("siamese", Dir [])])])])]%string.

End Rerun.

(** ** Cross-validation runner (run_comprehensive_experiment.py,
       [run_cross_validation_for_model])

    The body of the [try] of one fold is the training subsystem: [train
    fold seed resumable] returns the fold's result summary or raises.  The
    keyword argument [resumable_training=not fresh_start] reads the name
    [fresh_start], which is not a parameter of this function; [fresh_start]
    below is its binding in the module's globals, [None] when there is none
    (as in the module as it is written), in which case evaluating the
    argument raises [NameError] inside the [try].

    [np.std] is the square root of the population variance; rationals have
    no square roots, so the aggregate keeps the variance. *)

Module CrossValidation.

Definition metrics : list string := ["accuracy"; "precision"; "recall"; "f1"]%string.

Record aggregate : Type := mkAggregate {
  (** [aggregate["test_metrics"][0]]: per metric its mean and the square of
      its [_std] entry *)
  test_metrics : list (string * (Q * Q));
  (** [aggregate["cross_validation"]["folds"]] *)
  folds : list Py.value
}.

(** One iteration of [for fold, (train_idx, val_idx) in enumerate(...)]. *)
Definition run_fold (model_type : string) (fresh_start : option bool)
    (train : nat -> Z -> bool -> result Py.value) (random_seed : Z)
    (fold_results : list Py.value) (fold : nat) : list Py.value :=
  let fold_random_seed := random_seed + Z.of_nat fold in
  let attempt :=
    (fs <- match fresh_start with
           | Some b => Ok b
           | None => Raise (NameError "name 'fresh_start' is not defined")
           end ;;
     train fold fold_random_seed (negb fs))%exn in
  match attempt with
  | Raise _ => fold_results                     (* except Exception: continue *)
  | Ok result =>
      if String.eqb model_type "siamese" then fold_results   (* continue *)
      else fold_results ++ [result]
  end.

(** A number as [sum] and [np.std] read it. *)
Definition as_number (v : Py.value) : result Q :=
  match v with
  | Py.VInt z => Ok (inject_Z z)
  | Py.VFloat q => Ok q
  | Py.VBool b => Ok (if b then 1 else 0)%Q
  | _ => Raise (TypeError "unsupported operand type(s) for +")
  end.

(** [[fold["test_metrics"][0].get(metric, 0) for fold in fold_results
       if "test_metrics" in fold and fold["test_metrics"]]] *)
Fixpoint collect (metric : string) (fold_results : list Py.value)
  : result (list Py.value) :=
  match fold_results with
  | [] => Ok []
  | fold :: rest =>
      (has <- Py.py_in "test_metrics" fold ;;
       keep <- (if has
                then tm <- Py.getitem fold "test_metrics" ;; Ok (Py.truthy tm)
                else Ok false) ;;
       if keep then
         tm <- Py.getitem fold "test_metrics" ;;
         first <- Py.getitem0 tm ;;
         v <- Py.get first metric (Py.VInt 0) ;;
         vs <- collect metric rest ;;
         Ok (v :: vs)
       else collect metric rest)%exn
  end.

Fixpoint numbers (vs : list Py.value) : result (list Q) :=
  match vs with
  | [] => Ok []
  | v :: rest =>
      (q <- as_number v ;; qs <- numbers rest ;; Ok (q :: qs))%exn
  end.

Definition Qsum (l : list Q) : Q := fold_left Qplus l 0%Q.

Definition len (l : list Q) : Q := inject_Z (Z.of_nat (List.length l)).

(** [sum(values) / len(values)] *)
Definition mean (l : list Q) : Q := (Qsum l / len l)%Q.

(** The square of [np.std(values)]: the mean of the squared deviations
    from the mean, over all [len(values)] values. *)
Definition std_squared (l : list Q) : Q :=
  mean (map (fun x => (x - mean l) * (x - mean l))%Q l).

(** [for metric in metrics:] of the aggregation. *)
Fixpoint aggregate_metrics (ms : list string) (fold_results : list Py.value)
  : result (list (string * (Q * Q))) :=
  match ms with
  | [] => Ok []
  | metric :: rest =>
      (vs <- collect metric fold_results ;;
       match vs with
       | [] => aggregate_metrics rest fold_results
       | _ =>
           qs <- numbers vs ;;
           more <- aggregate_metrics rest fold_results ;;
           Ok ((metric, (mean qs, std_squared qs)) :: more)
       end)%exn
  end.

(** The function from the loop over the folds to its return value:
    [None] when the data set is missing or no fold produced a result. *)
Definition run_cross_validation_for_model (model_type : string)
    (data_dir_exists : bool) (fresh_start : option bool)
    (train : nat -> Z -> bool -> result Py.value)
    (n_folds : nat) (random_seed : Z) : result (option aggregate) :=
  if negb data_dir_exists then Ok None
  else
    let fold_results :=
      fold_left (run_fold model_type fresh_start train random_seed)
                (seq 0 n_folds) [] in
    match fold_results with
    | [] => Ok None
    | _ =>
        (tm <- aggregate_metrics metrics fold_results ;;
         Ok (Some (mkAggregate tm fold_results)))%exn
    end.

(** The results of the folds that did not raise, in fold order. *)
Fixpoint successes (outcomes : list (result Py.value)) : list Py.value :=
  match outcomes with
  | [] => []
  | Ok r :: rest => r :: successes rest
  | Raise _ :: rest => successes rest
  end.

(** A result summary as the training subsystem documents it: a dict whose
    "test_metrics" is a non-empty list starting with a dict of numbers. *)
Definition numeric (v : Py.value) : bool :=
  match v with
  | Py.VInt _ | Py.VFloat _ | Py.VBool _ => true
  | _ => false
  end.

Definition summary_metrics (r : Py.value) : option (list (string * Py.value)) :=
  match r with
  | Py.VDict d =>
      match Py.dict_get d "test_metrics" with
      | Some (Py.VList (Py.VDict ms :: _)) =>
          if forallb (fun e => numeric (snd e)) ms then Some ms else None
      | _ => None
      end
  | _ => None
  end.

Definition well_formed (r : Py.value) : Prop := summary_metrics r <> None.

(** The value a fold contributes to a metric: its entry, or 0 when the
    fold's summary has no entry for the metric. *)
Definition contribution (metric : string) (r : Py.value) : Q :=
  match summary_metrics r with
  | Some ms =>
      match Py.dict_get ms metric with
      | Some (Py.VInt z) => inject_Z z
      | Some (Py.VFloat q) => q
      | Some (Py.VBool true) => 1
      | _ => 0
      end
  | None => 0
  end.

(** A result summary whose only metric is an accuracy. *)
Definition summary_with_accuracy (a : Q) : Py.value :=
  Py.VDict [("test_metrics", Py.VList [Py.VDict [("accuracy", Py.VFloat a)]])]%string.

(** The aggregate reports a metric only when every fold that produced a
    result has it, as the design document states. *)
Definition only_common_metrics (fold_results : list Py.value) (a : aggregate)
  : Prop :=
  forall metric, In metric (map fst (test_metrics a)) ->
    forall r ms, In r fold_results -> summary_metrics r = Some ms ->
                 Py.dict_has ms metric = true.

End CrossValidation.

(** ** Housekeeping (run_comprehensive_experiment.py, [cleanup_old_experiments])

    The output directory is the list of its entries; an entry is a
    directory or something else (a regular file, say), and has a
    modification time.  [shutil.rmtree] removes a directory and raises for
    an entry that is not one; the function prints the exception and goes
    on.  Removing a directory is taken to succeed. *)

Module Housekeeping.

Record dirent : Type := mkDirent {
  name : string;
  is_dir : bool;
  st_mtime : nat
}.

(** The filter of the list comprehension:
    [d.is_dir() and d.name.startswith("experiment_") or
     d.name.startswith("comprehensive_experiment_")];
    [and] binds tighter than [or]. *)
Definition selected (d : dirent) : bool :=
  (is_dir d && String.prefix "experiment_" (name d)) ||
  String.prefix "comprehensive_experiment_" (name d).

(** [exp_dirs.sort(key=lambda x: x.stat().st_mtime, reverse=True)]: a
    stable sort, newest first. *)
Fixpoint insert_newest (e : dirent) (sorted : list dirent) : list dirent :=
  match sorted with
  | [] => [e]
  | x :: rest =>
      if (st_mtime e <? st_mtime x)%nat then x :: insert_newest e rest
      else e :: x :: rest
  end.

Definition sort_newest_first (l : list dirent) : list dirent :=
  fold_right insert_newest [] l.

(** [try: shutil.rmtree(old_dir) except Exception: print(...)] *)
Definition rmtree (entries : list dirent) (old_dir : dirent) : list dirent :=
  if is_dir old_dir then
    filter (fun e => negb (String.eqb (name e) (name old_dir))) entries
  else entries.

(** [cleanup_old_experiments(keep_newest)]: the entries of the output
    directory afterwards; [None] stands for an output directory that does
    not exist. *)
Definition cleanup_old_experiments (out_dir : option (list dirent))
    (keep_newest : nat) : option (list dirent) :=
  match out_dir with
  | None => None
  | Some entries =>
      let exp_dirs := sort_newest_first (filter selected entries) in
      if (keep_newest <? List.length exp_dirs)%nat then
        Some (fold_left rmtree (skipn keep_newest exp_dirs) entries)
      else Some entries
  end.

Definition newer_eq (a b : dirent) : Prop := (st_mtime b <= st_mtime a)%nat.

(** An output directory with three experiment directories, a report file
    whose name starts like that of an experiment, and a data directory. *)
Definition example_out_dir : list dirent :=
  [mkDirent "experiment_a" true 1;
   mkDirent "comprehensive_experiment_b" true 2;
   mkDirent "comprehensive_experiment_report.json" false 5;
   mkDirent "comprehensive_experiment_c" true 3;
   mkDirent "processed_data" true 4]%string.

End Housekeeping.

(** ** Ranking and the cross-validation phase (run_comprehensive_experiment.py)

    [identify_top_architectures] and the loop of
    [run_comprehensive_face_recognition_experiment] that runs
    cross-validation for the architectures it returns.  The call of
    [run_cross_validation_for_model] for an architecture and a data set is
    a parameter of the loop. *)

Module Phases.

(** [d.items()] *)
Definition items (v : Py.value) : result (list (string * Py.value)) :=
  match v with
  | Py.VDict d => Ok d
  | _ => Raise (AttributeError ("'" ++ Py.type_name v
                                ++ "' object has no attribute 'items'"))
  end.

(** A [for] loop whose body may raise. *)
Fixpoint for_each {A B : Type} (body : A -> B -> result A) (l : list B) (a : A)
  : result A :=
  match l with
  | [] => Ok a
  | b :: rest => (a' <- body a b ;; for_each body rest a')%exn
  end.

(** [if arch not in arch_scores: arch_scores[arch] = []] followed by
    [arch_scores[arch].append(accuracy)] *)
Fixpoint add_score (arch_scores : list (string * list Py.value)) (arch : string)
    (accuracy : Py.value) : list (string * list Py.value) :=
  match arch_scores with
  | [] => [(arch, [accuracy])]
  | (a, scores) :: rest =>
      if String.eqb a arch then (a, scores ++ [accuracy]) :: rest
      else (a, scores) :: add_score rest arch accuracy
  end.

(** The body of [for arch, arch_result in results["results"].items()]. *)
Definition score_arch (arch_scores : list (string * list Py.value))
    (item : string * Py.value) : result (list (string * list Py.value)) :=
  let '(arch, arch_result) := item in
  (has <- Py.py_in "test_metrics" arch_result ;;
   keep <- (if has : bool
            then tm <- Py.getitem arch_result "test_metrics" ;; Ok (Py.truthy tm)
            else Ok false) ;;
   if keep : bool then
     tm <- Py.getitem arch_result "test_metrics" ;;
     first <- Py.getitem0 tm ;;
     accuracy <- Py.get first "accuracy" (Py.VInt 0) ;;
     Ok (add_score arch_scores arch accuracy)
   else Ok arch_scores)%exn.

(** The body of [for exp_type, results in architecture_results.items()]. *)
Definition score_type (arch_scores : list (string * list Py.value))
    (item : string * Py.value) : result (list (string * list Py.value)) :=
  let '(exp_type, results) := item in
  (has <- Py.py_in "results" results ;;
   if has : bool then
     inner <- Py.getitem results "results" ;;
     its <- items inner ;;
     for_each score_arch its arch_scores
   else Ok arch_scores)%exn.

Definition collect_scores (architecture_results : Py.value)
  : result (list (string * list Py.value)) :=
  (its <- items architecture_results ;; for_each score_type its [])%exn.

(** [avg_scores[arch] = sum(scores) / len(scores)] for the architectures
    with scores. *)
Fixpoint average_scores (arch_scores : list (string * list Py.value))
  : result (list (string * Q)) :=
  match arch_scores with
  | [] => Ok []
  | (arch, scores) :: rest =>
      match scores with
      | [] => average_scores rest
      | _ =>
          (qs <- CrossValidation.numbers scores ;;
           more <- average_scores rest ;;
           Ok ((arch, CrossValidation.mean qs) :: more))%exn
      end
  end.

(** [sorted(avg_scores.items(), key=lambda x: x[1], reverse=True)]: a
    stable sort, highest average first. *)
Fixpoint insert_best (e : string * Q) (sorted : list (string * Q))
  : list (string * Q) :=
  match sorted with
  | [] => [e]
  | x :: rest =>
      if EarlyStopping.Qltb (snd e) (snd x) then x :: insert_best e rest
      else e :: x :: rest
  end.

Definition sort_best_first (l : list (string * Q)) : list (string * Q) :=
  fold_right insert_best [] l.

(** [identify_top_architectures(architecture_results, n_top)] for
    [n_top >= 0]. *)
Definition identify_top_architectures (architecture_results : Py.value)
    (n_top : nat) : result (list string) :=
  (arch_scores <- collect_scores architecture_results ;;
   avg_scores <- average_scores arch_scores ;;
   Ok (map fst (firstn n_top (sort_best_first avg_scores))))%exn.

(** The average scores [identify_top_architectures] ranks by. *)
Definition averages (architecture_results : Py.value) : result (list (string * Q)) :=
  (arch_scores <- collect_scores architecture_results ;;
   average_scores arch_scores)%exn.

(** [architecture_results] as the architecture loops leave it:
    [{key: {"results": {arch: results}}}]. *)
Definition architecture_results_dict
    (res : list (string * list (string * Py.value))) : Py.value :=
  Py.VDict (map (fun e => (fst e, Py.VDict [("results"%string, Py.VDict (snd e))])) res).

(** *** The cross-validation loop *)

Record cv_state : Type := mkCv {
  sweep : Sweep.state;
  cv_results : list (string * list (string * CrossValidation.aggregate));
  cv_failed : list string
}.

(** [if arch not in cv_results: cv_results[arch] = {}] followed by
    [cv_results[arch][dataset_name] = cv_result] *)
Fixpoint set_inner (inner : list (string * CrossValidation.aggregate))
    (dataset_name : string) (r : CrossValidation.aggregate)
  : list (string * CrossValidation.aggregate) :=
  match inner with
  | [] => [(dataset_name, r)]
  | (k, v) :: rest =>
      if String.eqb k dataset_name then (k, r) :: rest
      else (k, v) :: set_inner rest dataset_name r
  end.

Fixpoint store_cv (res : list (string * list (string * CrossValidation.aggregate)))
    (arch dataset_name : string) (r : CrossValidation.aggregate)
  : list (string * list (string * CrossValidation.aggregate)) :=
  match res with
  | [] => [(arch, [(dataset_name, r)])]
  | (k, inner) :: rest =>
      if String.eqb k arch then (k, set_inner inner dataset_name r) :: rest
      else (k, inner) :: store_cv rest arch dataset_name r
  end.

(** The body of [for dataset_name in dataset_names], with its [try] and
    [except].  A result of [run_cross_validation_for_model] is [None] or
    a non-empty dict, which is true. *)
Definition cv_unit (w : Sweep.world)
    (cv : string -> string -> result (option CrossValidation.aggregate))
    (arch dataset_name : string) (st : cv_state) : cv_state :=
  let '(ok, s1) := Sweep.check_disk_space w 2 (sweep st) in
  let label := (arch ++ "_" ++ dataset_name)%string in
  if negb ok then mkCv s1 (cv_results st) (cv_failed st ++ [label])
  else
    match cv arch dataset_name with
    | Ok (Some cv_result) =>
        mkCv s1 (store_cv (cv_results st) arch dataset_name cv_result) (cv_failed st)
    | Ok None => mkCv s1 (cv_results st) (cv_failed st ++ [label])
    | Raise _ => mkCv s1 (cv_results st) (cv_failed st ++ [label])
    end.

(** [models_to_rerun and arch not in models_to_rerun], for
    [models_to_rerun] that is [None] or a list of names. *)
Definition not_to_rerun (models_to_rerun : option (list string)) (arch : string)
  : bool :=
  match models_to_rerun with
  | None | Some [] => false
  | Some l => negb (existsb (String.eqb arch) l)
  end.

(** [for arch in top_architectures: ... for dataset_name in dataset_names] *)
Definition cv_loop (w : Sweep.world)
    (cv : string -> string -> result (option CrossValidation.aggregate))
    (models_to_rerun : option (list string))
    (top_architectures dataset_names : list string) (st : cv_state) : cv_state :=
  fold_left
    (fun acc arch =>
       if not_to_rerun models_to_rerun arch then acc
       else fold_left (fun acc' dataset_name => cv_unit w cv arch dataset_name acc')
                      dataset_names acc)
    top_architectures st.

(** The iterations that are not skipped, in the order they run. *)
Definition cv_units (models_to_rerun : option (list string))
    (top_architectures dataset_names : list string) : list (string * string) :=
  flat_map (fun arch => map (fun d => (arch, d)) dataset_names)
           (filter (fun arch => negb (not_to_rerun models_to_rerun arch))
                   top_architectures).

(** The call the loop makes, with the module as it is written: the name
    [fresh_start] is not bound in [run_cross_validation_for_model]. *)
Definition cv_as_written (data_dir_exists : string -> string -> bool)
    (train : string -> string -> nat -> Z -> bool -> result Py.value)
    (n_folds : string -> nat) (random_seed : string -> Z)
    (arch dataset_name : string) : result (option CrossValidation.aggregate) :=
  CrossValidation.run_cross_validation_for_model arch
    (data_dir_exists arch dataset_name) None (train arch dataset_name)
    (n_folds arch) (random_seed arch).

(** A unit yields no result: its probe is low, or the call returns [None]
    or raises. *)
Definition cv_fails (w : Sweep.world)
    (cv : string -> string -> result (option CrossValidation.aggregate))
    (ku : nat * (string * string)) : bool :=
  Sweep.probe_low w 2 ku ||
  match cv (fst (snd ku)) (snd (snd ku)) with
  | Ok (Some _) => false
  | _ => true
  end.

Fixpoint assoc {A : Type} (l : list (string * A)) (k : string) : option A :=
  match l with
  | [] => None
  | (k', v) :: rest => if String.eqb k' k then Some v else assoc rest k
  end.

(** [cv_results[arch][dataset_name]], if there is one. *)
Definition lookup_cv (res : list (string * list (string * CrossValidation.aggregate)))
    (arch dataset_name : string) : option CrossValidation.aggregate :=
  match assoc res arch with
  | Some inner => assoc inner dataset_name
  | None => None
  end.

(** A world with enough disk space in which every training reaches an
    accuracy of 0.9. *)
Definition roomy_world : Sweep.world :=
  Sweep.mkWorld
    (fun _ => 100 * Sweep.bytes_per_gb)
    (fun _ _ _ =>
       Ok (Py.VDict [("test_metrics",
                      Py.VList [Py.VDict [("accuracy", Py.VFloat (9 # 10))]])]%string))
    true.

(** Highest average first. *)
Definition better_eq (a b : string * Q) : Prop := (snd b <= snd a)%Q.

(** Two experiment types with three architectures. *)
Definition example_results : Py.value :=
  let r := fun a : Q =>
             Py.VDict [("test_metrics",
                        Py.VList [Py.VDict [("accuracy", Py.VFloat a)]])]%string in
  Py.VDict
    [("enhanced_dataset1",
      Py.VDict [("results",
                 Py.VDict [("baseline", r (7 # 10)); ("cnn", r (9 # 10));
                           ("attention", r (8 # 10))])]);
     ("minimal_dataset1",
      Py.VDict [("results",
                 Py.VDict [("baseline", r (5 # 10)); ("cnn", r (8 # 10))])])]%string.

End Phases.

(** ** Configuration store (experiment_manager.py, class ExperimentConfig)

    An [ExperimentConfig] object is the record of its attributes.  Python
    does not check the annotations of [__init__]: an attribute holds
    whatever value was passed, so the plain attributes are Python values;
    the enum-valued attributes hold a member of their enum or, when
    something that is neither a member nor a string was passed, that value
    as it is.

    [PreprocessingConfig] (data_prep.py) is outside this development: its
    objects are represented by their attributes, and its [to_dict],
    [from_dict] and truth value are taken from the environment, as are the
    clock, the UUID generator, [pathlib]'s normalisation of a path string
    and the YAML serializer. *)

Module Config.

Inductive Dataset : Type := DATASET1 | DATASET2 | BOTH.

Inductive ModelArchitecture : Type :=
| BASELINE | CNN | SIAMESE | ATTENTION | ARCFACE | HYBRID.

Inductive LRSchedulerType : Type :=
| SCHED_NONE | STEP | EXPONENTIAL | COSINE | REDUCE_ON_PLATEAU | ONE_CYCLE.

Inductive EvaluationMode : Type := STANDARD | ENHANCED.

Inductive TrackerType : Type := TRACK_NONE | MLFLOW | WANDB.

Definition Dataset_value (e : Dataset) : string :=
  match e with
  | DATASET1 => "dataset1" | DATASET2 => "dataset2" | BOTH => "both"
  end.

Definition ModelArchitecture_value (e : ModelArchitecture) : string :=
  match e with
  | BASELINE => "baseline" | CNN => "cnn" | SIAMESE => "siamese"
  | ATTENTION => "attention" | ARCFACE => "arcface" | HYBRID => "hybrid"
  end.

Definition LRSchedulerType_value (e : LRSchedulerType) : string :=
  match e with
  | SCHED_NONE => "none" | STEP => "step" | EXPONENTIAL => "exponential"
  | COSINE => "cosine" | REDUCE_ON_PLATEAU => "reduce_on_plateau"
  | ONE_CYCLE => "one_cycle"
  end.

Definition EvaluationMode_value (e : EvaluationMode) : string :=
  match e with STANDARD => "standard" | ENHANCED => "enhanced" end.

Definition TrackerType_value (e : TrackerType) : string :=
  match e with TRACK_NONE => "none" | MLFLOW => "mlflow" | WANDB => "wandb" end.

(** [Enum(value)]: the member with that value, if any. *)
Definition by_value {E : Type} (members : list E) (value_of : E -> string)
    (s : string) : option E :=
  find (fun e => String.eqb (value_of e) s) members.

Definition Dataset_of (s : string) : option Dataset :=
  by_value [DATASET1; DATASET2; BOTH] Dataset_value s.

Definition ModelArchitecture_of (s : string) : option ModelArchitecture :=
  by_value [BASELINE; CNN; SIAMESE; ATTENTION; ARCFACE; HYBRID]
           ModelArchitecture_value s.

Definition LRSchedulerType_of (s : string) : option LRSchedulerType :=
  by_value [SCHED_NONE; STEP; EXPONENTIAL; COSINE; REDUCE_ON_PLATEAU; ONE_CYCLE]
           LRSchedulerType_value s.

Definition EvaluationMode_of (s : string) : option EvaluationMode :=
  by_value [STANDARD; ENHANCED] EvaluationMode_value s.

Definition TrackerType_of (s : string) : option TrackerType :=
  by_value [TRACK_NONE; MLFLOW; WANDB] TrackerType_value s.

(** What an enum-valued parameter or attribute holds. *)
Inductive efield (E : Type) : Type :=
| Enum (e : E)
| Raw (v : Py.value).

Arguments Enum {E} e.
Arguments Raw {E} v.

Record Path : Type := mkPath { path_str : string }.

Record PreprocessingConfig : Type := mkPreprocessingConfig {
  pc_attrs : list (string * Py.value)
}.

Record env : Type := mkEnv {
  (** [str(uuid.uuid4())[:8]] *)
  uuid8 : string;
  (** [datetime.datetime.now().isoformat()] *)
  now_iso : string;
  (** [OUT_DIR / f"experiment_{experiment_id}_{timestamp}"] *)
  auto_results_dir : Py.value -> Path;
  (** the string form [pathlib] gives a path string *)
  normpath : string -> string;
  pc_truthy : PreprocessingConfig -> bool;
  pc_to_dict : PreprocessingConfig -> Py.value;
  pc_from_dict : Py.value -> result PreprocessingConfig;
  (** [yaml.dump(d, default_flow_style=False, sort_keys=False)] and
      [yaml.safe_load] *)
  yaml_dump : Py.value -> string;
  yaml_safe_load : string -> result Py.value
}.

Record args : Type := mkArgs {
  arg_experiment_name : Py.value;
  arg_dataset : efield Dataset;
  arg_model_architecture : efield ModelArchitecture;
  arg_preprocessing_config : option PreprocessingConfig;
  arg_epochs : Py.value;
  arg_batch_size : Py.value;
  arg_learning_rate : Py.value;
  arg_cross_dataset_testing : Py.value;
  arg_results_dir : Py.value;
  arg_experiment_id : Py.value;
  arg_config_version : Py.value;
  arg_config_history : Py.value;
  arg_random_seed : Py.value;
  arg_use_early_stopping : Py.value;
  arg_early_stopping_patience : Py.value;
  arg_early_stopping_min_delta : Py.value;
  arg_early_stopping_metric : Py.value;
  arg_early_stopping_mode : Py.value;
  arg_use_gradient_clipping : Py.value;
  arg_gradient_clipping_max_norm : Py.value;
  arg_gradient_clipping_adaptive : Py.value;
  arg_lr_scheduler_type : efield LRSchedulerType;
  arg_lr_scheduler_params : Py.value;
  arg_save_best_checkpoint : Py.value;
  arg_checkpoint_frequency : Py.value;
  arg_keep_last_n_checkpoints : Py.value;
  arg_keep_best_n_checkpoints : Py.value;
  arg_save_checkpoint_metadata : Py.value;
  arg_resumable_training : Py.value;
  arg_evaluation_mode : efield EvaluationMode;
  arg_per_class_analysis : Py.value;
  arg_calibration_analysis : Py.value;
  arg_resource_monitoring : Py.value;
  arg_calibration_n_bins : Py.value;
  arg_use_temperature_scaling : Py.value;
  arg_confidence_threshold : Py.value;
  arg_save_raw_predictions : Py.value;
  arg_max_misclassified_examples : Py.value;
  arg_model_complexity_analysis : Py.value;
  arg_class_difficulty_metric : Py.value;
  arg_tracker_type : efield TrackerType;
  arg_tracking_uri : Py.value;
  arg_wandb_project : Py.value;
  arg_wandb_entity : Py.value;
  arg_track_metrics : Py.value;
  arg_track_params : Py.value;
  arg_track_artifacts : Py.value;
  arg_track_models : Py.value;
  arg_register_best_model : Py.value;
  arg_tracking_tags : Py.value
}.

(** The defaults of the keyword parameters of [__init__]. *)
Definition default_args : args :=
  mkArgs
    (Py.VStr "Unnamed Experiment")
    (Enum BOTH)
    (Enum CNN)
    (None)
    (Py.VInt 30)
    (Py.VInt 32)
    (Py.VFloat (1 # 1000))
    (Py.VBool true)
    (Py.VNone)
    (Py.VNone)
    (Py.VStr "1.0.0")
    (Py.VNone)
    (Py.VInt 42)
    (Py.VBool false)
    (Py.VInt 10)
    (Py.VFloat 0)
    (Py.VStr "loss")
    (Py.VStr "min")
    (Py.VBool false)
    (Py.VFloat 1)
    (Py.VBool false)
    (Enum SCHED_NONE)
    (Py.VNone)
    (Py.VBool true)
    (Py.VInt 1)
    (Py.VInt 5)
    (Py.VInt 3)
    (Py.VBool true)
    (Py.VBool true)
    (Enum STANDARD)
    (Py.VBool true)
    (Py.VBool true)
    (Py.VBool true)
    (Py.VInt 10)
    (Py.VBool false)
    (Py.VFloat (1 # 2))
    (Py.VBool true)
    (Py.VInt 10)
    (Py.VBool true)
    (Py.VStr "f1")
    (Enum TRACK_NONE)
    (Py.VNone)
    (Py.VStr "face-recognition")
    (Py.VNone)
    (Py.VBool true)
    (Py.VBool true)
    (Py.VBool true)
    (Py.VBool true)
    (Py.VBool false)
    (Py.VNone).

Record t : Type := mk {
  experiment_name : Py.value;
  experiment_id : Py.value;
  created_at : Py.value;
  dataset : efield Dataset;
  model_architecture : efield ModelArchitecture;
  preprocessing_config : option PreprocessingConfig;
  epochs : Py.value;
  batch_size : Py.value;
  learning_rate : Py.value;
  cross_dataset_testing : Py.value;
  results_dir : Path;
  config_version : Py.value;
  config_history : Py.value;
  random_seed : Py.value;
  use_early_stopping : Py.value;
  early_stopping_patience : Py.value;
  early_stopping_min_delta : Py.value;
  early_stopping_metric : Py.value;
  early_stopping_mode : Py.value;
  use_gradient_clipping : Py.value;
  gradient_clipping_max_norm : Py.value;
  gradient_clipping_adaptive : Py.value;
  lr_scheduler_type : efield LRSchedulerType;
  lr_scheduler_params : Py.value;
  save_best_checkpoint : Py.value;
  checkpoint_frequency : Py.value;
  keep_last_n_checkpoints : Py.value;
  keep_best_n_checkpoints : Py.value;
  save_checkpoint_metadata : Py.value;
  resumable_training : Py.value;
  evaluation_mode : efield EvaluationMode;
  per_class_analysis : Py.value;
  calibration_analysis : Py.value;
  resource_monitoring : Py.value;
  calibration_n_bins : Py.value;
  use_temperature_scaling : Py.value;
  confidence_threshold : Py.value;
  save_raw_predictions : Py.value;
  max_misclassified_examples : Py.value;
  model_complexity_analysis : Py.value;
  class_difficulty_metric : Py.value;
  tracker_type : efield TrackerType;
  tracking_uri : Py.value;
  wandb_project : Py.value;
  wandb_entity : Py.value;
  track_metrics : Py.value;
  track_params : Py.value;
  track_artifacts : Py.value;
  track_models : Py.value;
  register_best_model : Py.value;
  tracking_tags : Py.value
}.

(** [x or y] *)
Definition or_else (x y : Py.value) : Py.value :=
  if Py.truthy x then x else y.

Definition init_dataset (a : efield Dataset) : result (efield Dataset) :=
  match a with
  | Raw (Py.VStr s) =>
      match Dataset_of s with
      | Some e => Ok (Enum e)
      | None => Raise (ValueError ("Invalid dataset: " ++ s))
      end
  | _ => Ok a
  end.

Definition init_model_architecture (a : efield ModelArchitecture)
  : result (efield ModelArchitecture) :=
  match a with
  | Raw (Py.VList l) => Ok (Raw (Py.VList l))
  | Raw (Py.VStr s) =>
      match ModelArchitecture_of s with
      | Some e => Ok (Enum e)
      | None => Raise (ValueError ("Invalid model architecture: " ++ s))
      end
  | _ => Ok a
  end.

Definition init_results_dir (E : env) (experiment_id results_dir : Py.value)
  : result Path :=
  if Py.truthy results_dir then
    match results_dir with
    | Py.VStr s => Ok (mkPath (normpath E s))
    | _ => Raise (TypeError ("expected str, bytes or os.PathLike object, not "
                             ++ Py.type_name results_dir))
    end
  else Ok (auto_results_dir E experiment_id).

Definition init_lr_scheduler_type (a : efield LRSchedulerType)
  : logged (efield LRSchedulerType) :=
  match a with
  | Raw (Py.VStr s) =>
      match LRSchedulerType_of s with
      | Some e => ret (Enum e)
      | None =>
          (_ <- warn ("Invalid scheduler type: " ++ s ++ ". Using NONE.") ;;
           ret (Enum SCHED_NONE))%log
      end
  | _ => ret a
  end.

Definition init_evaluation_mode (a : efield EvaluationMode)
  : result (efield EvaluationMode) :=
  match a with
  | Raw (Py.VStr s) =>
      match EvaluationMode_of s with
      | Some e => Ok (Enum e)
      | None => Raise (ValueError ("Invalid evaluation mode: " ++ s))
      end
  | _ => Ok a
  end.

Definition init_tracker_type (a : efield TrackerType)
  : logged (efield TrackerType) :=
  match a with
  | Raw (Py.VStr s) =>
      match TrackerType_of s with
      | Some e => ret (Enum e)
      | None =>
          (_ <- warn ("Invalid tracker type: " ++ s ++ ". Using NONE.") ;;
           ret (Enum TRACK_NONE))%log
      end
  | _ => ret a
  end.

(** The object [__init__] leaves once its conversions have produced the
    enum-valued attributes and the results directory. *)
Definition build (E : env) (a : args)
    (the_experiment_id : Py.value)
    (the_dataset : efield Dataset)
    (the_model_architecture : efield ModelArchitecture)
    (the_results_dir : Path)
    (the_lr_scheduler_type : efield LRSchedulerType)
    (the_evaluation_mode : efield EvaluationMode)
    (the_tracker_type : efield TrackerType) : t :=
  mk
    (arg_experiment_name a)
    the_experiment_id
    (Py.VStr (now_iso E))
    the_dataset
    the_model_architecture
    (arg_preprocessing_config a)
    (arg_epochs a)
    (arg_batch_size a)
    (arg_learning_rate a)
    (arg_cross_dataset_testing a)
    the_results_dir
    (arg_config_version a)
    (or_else (arg_config_history a) (Py.VList []))
    (arg_random_seed a)
    (arg_use_early_stopping a)
    (arg_early_stopping_patience a)
    (arg_early_stopping_min_delta a)
    (arg_early_stopping_metric a)
    (arg_early_stopping_mode a)
    (arg_use_gradient_clipping a)
    (arg_gradient_clipping_max_norm a)
    (arg_gradient_clipping_adaptive a)
    the_lr_scheduler_type
    (or_else (arg_lr_scheduler_params a) (Py.VDict []))
    (arg_save_best_checkpoint a)
    (arg_checkpoint_frequency a)
    (arg_keep_last_n_checkpoints a)
    (arg_keep_best_n_checkpoints a)
    (arg_save_checkpoint_metadata a)
    (arg_resumable_training a)
    the_evaluation_mode
    (arg_per_class_analysis a)
    (arg_calibration_analysis a)
    (arg_resource_monitoring a)
    (arg_calibration_n_bins a)
    (arg_use_temperature_scaling a)
    (arg_confidence_threshold a)
    (arg_save_raw_predictions a)
    (arg_max_misclassified_examples a)
    (arg_model_complexity_analysis a)
    (arg_class_difficulty_metric a)
    the_tracker_type
    (arg_tracking_uri a)
    (arg_wandb_project a)
    (arg_wandb_entity a)
    (arg_track_metrics a)
    (arg_track_params a)
    (arg_track_artifacts a)
    (arg_track_models a)
    (arg_register_best_model a)
    (or_else (arg_tracking_tags a) (Py.VDict [])).

(** [__init__] *)
Definition init (E : env) (a : args) : logged t :=
  let the_experiment_id := or_else (arg_experiment_id a) (Py.VStr (uuid8 E)) in
  (the_dataset <- lift (init_dataset (arg_dataset a)) ;;
   the_model_architecture <- lift (init_model_architecture (arg_model_architecture a)) ;;
   the_results_dir <- lift (init_results_dir E the_experiment_id (arg_results_dir a)) ;;
   the_lr_scheduler_type <- init_lr_scheduler_type (arg_lr_scheduler_type a) ;;
   the_evaluation_mode <- lift (init_evaluation_mode (arg_evaluation_mode a)) ;;
   the_tracker_type <- init_tracker_type (arg_tracker_type a) ;;
   ret (build E a the_experiment_id the_dataset the_model_architecture
              the_results_dir the_lr_scheduler_type the_evaluation_mode
              the_tracker_type))%log.

(** [self.dataset.value] *)
Definition enum_value {E : Type} (value_of : E -> string) (x : efield E)
  : result Py.value :=
  match x with
  | Enum e => Ok (Py.VStr (value_of e))
  | Raw v => Raise (AttributeError ("'" ++ Py.type_name v
                                    ++ "' object has no attribute 'value'"))
  end.

(** [self.model_architecture.value if not isinstance(self.model_architecture,
    list) else self.model_architecture] *)
Definition model_architecture_to_value (x : efield ModelArchitecture)
  : result Py.value :=
  match x with
  | Raw (Py.VList l) => Ok (Py.VList l)
  | _ => enum_value ModelArchitecture_value x
  end.

(** [x.value if isinstance(x, Enum) else x] *)
Definition value_or_raw {E : Type} (value_of : E -> string) (x : efield E)
  : Py.value :=
  match x with
  | Enum e => Py.VStr (value_of e)
  | Raw v => v
  end.

(** [to_dict]: the items of the dictionary, in order. *)
Definition to_dict_pairs (E : env) (self : t) : result (list (string * Py.value)) :=
  (dataset_value <- enum_value Dataset_value (dataset self) ;;
   model_architecture_value <- model_architecture_to_value (model_architecture self) ;;
   let config_dict :=
     [("experiment_id", experiment_id self);
      ("experiment_name", experiment_name self);
      ("dataset", dataset_value);
      ("model_architecture", model_architecture_value);
      ("epochs", epochs self);
      ("batch_size", batch_size self);
      ("learning_rate", learning_rate self);
      ("cross_dataset_testing", cross_dataset_testing self);
      ("results_dir", Py.VStr (path_str (results_dir self)));
      ("created_at", created_at self);
      ("random_seed", random_seed self);
      ("config_version", config_version self);
      ("config_history", config_history self);
      ("use_early_stopping", use_early_stopping self);
      ("early_stopping_patience", early_stopping_patience self);
      ("early_stopping_min_delta", early_stopping_min_delta self);
      ("early_stopping_metric", early_stopping_metric self);
      ("early_stopping_mode", early_stopping_mode self);
      ("use_gradient_clipping", use_gradient_clipping self);
      ("gradient_clipping_max_norm", gradient_clipping_max_norm self);
      ("gradient_clipping_adaptive", gradient_clipping_adaptive self);
      ("lr_scheduler_type", value_or_raw LRSchedulerType_value (lr_scheduler_type self));
      ("lr_scheduler_params", lr_scheduler_params self);
      ("save_best_checkpoint", save_best_checkpoint self);
      ("checkpoint_frequency", checkpoint_frequency self);
      ("keep_last_n_checkpoints", keep_last_n_checkpoints self);
      ("keep_best_n_checkpoints", keep_best_n_checkpoints self);
      ("save_checkpoint_metadata", save_checkpoint_metadata self);
      ("resumable_training", resumable_training self);
      ("evaluation_mode", value_or_raw EvaluationMode_value (evaluation_mode self));
      ("per_class_analysis", per_class_analysis self);
      ("calibration_analysis", calibration_analysis self);
      ("resource_monitoring", resource_monitoring self);
      ("calibration_n_bins", calibration_n_bins self);
      ("use_temperature_scaling", use_temperature_scaling self);
      ("confidence_threshold", confidence_threshold self);
      ("save_raw_predictions", save_raw_predictions self);
      ("max_misclassified_examples", max_misclassified_examples self);
      ("model_complexity_analysis", model_complexity_analysis self);
      ("class_difficulty_metric", class_difficulty_metric self);
      ("tracker_type", value_or_raw TrackerType_value (tracker_type self));
      ("tracking_uri", tracking_uri self);
      ("wandb_project", wandb_project self);
      ("wandb_entity", wandb_entity self);
      ("track_metrics", track_metrics self);
      ("track_params", track_params self);
      ("track_artifacts", track_artifacts self);
      ("track_models", track_models self);
      ("register_best_model", register_best_model self);
      ("tracking_tags", tracking_tags self)]%string in
   match preprocessing_config self with
   | Some pc =>
       if pc_truthy E pc then
         Ok (config_dict ++ [("preprocessing_config"%string, pc_to_dict E pc)])
       else Ok config_dict
   | None => Ok config_dict
   end)%exn.

Definition to_dict (E : env) (self : t) : result Py.value :=
  (d <- to_dict_pairs E self ;; Ok (Py.VDict d))%exn.

(** [config_dict.get(key, default)] on a dict *)
Definition dget (d : list (string * Py.value)) (k : string) (default : Py.value)
  : Py.value :=
  match Py.dict_get d k with
  | Some v => v
  | None => default
  end.

(** The keyword arguments [from_dict] passes to the class. *)
Definition from_dict_args (d : list (string * Py.value)) (pc : option PreprocessingConfig) : args :=
  mkArgs
    (dget d "experiment_name" (Py.VStr "Unnamed Experiment"))
    (Raw (dget d "dataset" (Py.VStr "both")))
    (Raw (dget d "model_architecture" (Py.VStr "cnn")))
    pc
    (dget d "epochs" (Py.VInt 30))
    (dget d "batch_size" (Py.VInt 32))
    (dget d "learning_rate" (Py.VFloat (1 # 1000)))
    (dget d "cross_dataset_testing" (Py.VBool true))
    (dget d "results_dir" (Py.VNone))
    (dget d "experiment_id" (Py.VNone))
    (dget d "config_version" (Py.VStr "1.0.0"))
    Py.VNone
    (dget d "random_seed" (Py.VInt 42))
    (dget d "use_early_stopping" (Py.VBool false))
    (dget d "early_stopping_patience" (Py.VInt 10))
    (dget d "early_stopping_min_delta" (Py.VFloat 0))
    (dget d "early_stopping_metric" (Py.VStr "loss"))
    (dget d "early_stopping_mode" (Py.VStr "min"))
    (dget d "use_gradient_clipping" (Py.VBool false))
    (dget d "gradient_clipping_max_norm" (Py.VFloat 1))
    (dget d "gradient_clipping_adaptive" (Py.VBool false))
    (Raw (dget d "lr_scheduler_type" (Py.VStr "none")))
    (dget d "lr_scheduler_params" (Py.VDict []))
    (dget d "save_best_checkpoint" (Py.VBool true))
    (dget d "checkpoint_frequency" (Py.VInt 1))
    (dget d "keep_last_n_checkpoints" (Py.VInt 5))
    (dget d "keep_best_n_checkpoints" (Py.VInt 3))
    (dget d "save_checkpoint_metadata" (Py.VBool true))
    (dget d "resumable_training" (Py.VBool true))
    (Raw (dget d "evaluation_mode" (Py.VStr "standard")))
    (dget d "per_class_analysis" (Py.VBool true))
    (dget d "calibration_analysis" (Py.VBool true))
    (dget d "resource_monitoring" (Py.VBool true))
    (dget d "calibration_n_bins" (Py.VInt 10))
    (dget d "use_temperature_scaling" (Py.VBool false))
    (dget d "confidence_threshold" (Py.VFloat (1 # 2)))
    (dget d "save_raw_predictions" (Py.VBool true))
    (dget d "max_misclassified_examples" (Py.VInt 10))
    (dget d "model_complexity_analysis" (Py.VBool true))
    (dget d "class_difficulty_metric" (Py.VStr "f1"))
    (Raw (dget d "tracker_type" (Py.VStr "none")))
    (dget d "tracking_uri" (Py.VNone))
    (dget d "wandb_project" (Py.VStr "face-recognition"))
    (dget d "wandb_entity" (Py.VNone))
    (dget d "track_metrics" (Py.VBool true))
    (dget d "track_params" (Py.VBool true))
    (dget d "track_artifacts" (Py.VBool true))
    (dget d "track_models" (Py.VBool true))
    (dget d "register_best_model" (Py.VBool false))
    (dget d "tracking_tags" (Py.VDict [])).

Definition set_created_at (self : t) (v : Py.value) : t :=
  mk (experiment_name self) (experiment_id self) v (dataset self) (model_architecture self) (preprocessing_config self) (epochs self) (batch_size self) (learning_rate self) (cross_dataset_testing self) (results_dir self) (config_version self) (config_history self) (random_seed self) (use_early_stopping self) (early_stopping_patience self) (early_stopping_min_delta self) (early_stopping_metric self) (early_stopping_mode self) (use_gradient_clipping self) (gradient_clipping_max_norm self) (gradient_clipping_adaptive self) (lr_scheduler_type self) (lr_scheduler_params self) (save_best_checkpoint self) (checkpoint_frequency self) (keep_last_n_checkpoints self) (keep_best_n_checkpoints self) (save_checkpoint_metadata self) (resumable_training self) (evaluation_mode self) (per_class_analysis self) (calibration_analysis self) (resource_monitoring self) (calibration_n_bins self) (use_temperature_scaling self) (confidence_threshold self) (save_raw_predictions self) (max_misclassified_examples self) (model_complexity_analysis self) (class_difficulty_metric self) (tracker_type self) (tracking_uri self) (wandb_project self) (wandb_entity self) (track_metrics self) (track_params self) (track_artifacts self) (track_models self) (register_best_model self) (tracking_tags self).

Definition set_config_history (self : t) (v : Py.value) : t :=
  mk (experiment_name self) (experiment_id self) (created_at self) (dataset self) (model_architecture self) (preprocessing_config self) (epochs self) (batch_size self) (learning_rate self) (cross_dataset_testing self) (results_dir self) (config_version self) v (random_seed self) (use_early_stopping self) (early_stopping_patience self) (early_stopping_min_delta self) (early_stopping_metric self) (early_stopping_mode self) (use_gradient_clipping self) (gradient_clipping_max_norm self) (gradient_clipping_adaptive self) (lr_scheduler_type self) (lr_scheduler_params self) (save_best_checkpoint self) (checkpoint_frequency self) (keep_last_n_checkpoints self) (keep_best_n_checkpoints self) (save_checkpoint_metadata self) (resumable_training self) (evaluation_mode self) (per_class_analysis self) (calibration_analysis self) (resource_monitoring self) (calibration_n_bins self) (use_temperature_scaling self) (confidence_threshold self) (save_raw_predictions self) (max_misclassified_examples self) (model_complexity_analysis self) (class_difficulty_metric self) (tracker_type self) (tracking_uri self) (wandb_project self) (wandb_entity self) (track_metrics self) (track_params self) (track_artifacts self) (track_models self) (register_best_model self) (tracking_tags self).

Definition set_config_version (self : t) (v : Py.value) : t :=
  mk (experiment_name self) (experiment_id self) (created_at self) (dataset self) (model_architecture self) (preprocessing_config self) (epochs self) (batch_size self) (learning_rate self) (cross_dataset_testing self) (results_dir self) v (config_history self) (random_seed self) (use_early_stopping self) (early_stopping_patience self) (early_stopping_min_delta self) (early_stopping_metric self) (early_stopping_mode self) (use_gradient_clipping self) (gradient_clipping_max_norm self) (gradient_clipping_adaptive self) (lr_scheduler_type self) (lr_scheduler_params self) (save_best_checkpoint self) (checkpoint_frequency self) (keep_last_n_checkpoints self) (keep_best_n_checkpoints self) (save_checkpoint_metadata self) (resumable_training self) (evaluation_mode self) (per_class_analysis self) (calibration_analysis self) (resource_monitoring self) (calibration_n_bins self) (use_temperature_scaling self) (confidence_threshold self) (save_raw_predictions self) (max_misclassified_examples self) (model_complexity_analysis self) (class_difficulty_metric self) (tracker_type self) (tracking_uri self) (wandb_project self) (wandb_entity self) (track_metrics self) (track_params self) (track_artifacts self) (track_models self) (register_best_model self) (tracking_tags self).

(** [from_dict] *)
Definition from_dict (E : env) (config_dict : Py.value) : logged t :=
  (has_pc <- lift (Py.py_in "preprocessing_config" config_dict) ;;
   preprocessing_config <-
     lift (if has_pc : bool then
             (v <- Py.getitem config_dict "preprocessing_config" ;;
              pc <- pc_from_dict E v ;;
              Ok (Some pc))%exn
           else Ok None) ;;
   match config_dict with
   | Py.VDict d =>
       config <- init E (from_dict_args d preprocessing_config) ;;
       let config1 :=
         if Py.dict_has d "created_at"
         then set_created_at config (dget d "created_at" Py.VNone)
         else config in
       let config2 :=
         if Py.dict_has d "config_history"
         then set_config_history config1 (dget d "config_history" Py.VNone)
         else config1 in
       ret config2
   | _ =>
       lift (Raise (AttributeError ("'" ++ Py.type_name config_dict
                                    ++ "' object has no attribute 'get'")))
   end)%log.

(** [to_yaml], [from_yaml] *)
Definition to_yaml (E : env) (self : t) : result string :=
  (d <- to_dict E self ;; Ok (yaml_dump E d))%exn.

Definition from_yaml (E : env) (yaml_str : string) : logged t :=
  (config_dict <- lift (yaml_safe_load E yaml_str) ;;
   from_dict E config_dict)%log.

(** *** Version strings *)

(** [str.split('.')] *)
Fixpoint split (sep : ascii) (s : string) : list string :=
  match s with
  | EmptyString => [EmptyString]
  | String c rest =>
      if Ascii.eqb c sep then EmptyString :: split sep rest
      else match split sep rest with
           | p :: ps => String c p :: ps
           | [] => [String c EmptyString]
           end
  end.

Fixpoint all_chars (P : ascii -> bool) (s : string) : bool :=
  match s with
  | EmptyString => true
  | String c rest => P c && all_chars P rest
  end.

(** The characters of a printed integer. *)
Definition is_num_char (c : ascii) : bool :=
  match DecimalString.uint_of_char c (Some Decimal.Nil) with
  | Some _ => true
  | None => Ascii.eqb c "-"
  end.

(** White space as [int()] strips it (the ASCII part). *)
Definition is_space (c : ascii) : bool :=
  let n := nat_of_ascii c in
  ((9 <=? n) && (n <=? 13) || (28 <=? n) && (n <=? 32))%nat.

Fixpoint lstrip (s : string) : string :=
  match s with
  | String c rest => if is_space c then lstrip rest else s
  | EmptyString => EmptyString
  end.

Fixpoint rstrip (s : string) : string :=
  match s with
  | String c rest =>
      match rstrip rest with
      | EmptyString => if is_space c then EmptyString else String c EmptyString
      | r => String c r
      end
  | EmptyString => EmptyString
  end.

(** Decimal digits with single underscores between them. *)
Fixpoint py_digits (after_digit : bool) (s : string) : option Decimal.uint :=
  match s with
  | EmptyString => if after_digit then Some Decimal.Nil else None
  | String c rest =>
      if Ascii.eqb c "_" then
        if after_digit then py_digits false rest else None
      else DecimalString.uint_of_char c (py_digits true rest)
  end.

(** [int(s)] for a string of ASCII characters. *)
Definition py_int (s : string) : result Z :=
  let invalid := Raise (ValueError ("invalid literal for int() with base 10: '"
                                    ++ s ++ "'")) in
  match lstrip (rstrip s) with
  | EmptyString => invalid
  | String c rest =>
      if Ascii.eqb c "-" then
        match py_digits false rest with
        | Some u => Ok (- Z.of_uint u)
        | None => invalid
        end
      else if Ascii.eqb c "+" then
        match py_digits false rest with
        | Some u => Ok (Z.of_uint u)
        | None => invalid
        end
      else
        match py_digits false (String c rest) with
        | Some u => Ok (Z.of_uint u)
        | None => invalid
        end
  end.

(** [f"{n}"] for an integer *)
Definition str_of_Z (z : Z) : string :=
  DecimalString.NilEmpty.string_of_int (Z.to_int z).

Fixpoint ints (parts : list string) : result (list Z) :=
  match parts with
  | [] => Ok []
  | p :: rest => (z <- py_int p ;; zs <- ints rest ;; Ok (z :: zs))%exn
  end.

(** [major, minor, patch = map(int, self.config_version.split('.'))]:
    the unpacking draws three items and then looks for a fourth. *)
Definition parse_version (config_version : Py.value) : result (Z * Z * Z) :=
  match config_version with
  | Py.VStr s =>
      (zs <- ints (firstn 4 (split "." s)) ;;
       match zs with
       | [major; minor; patch] => Ok (major, minor, patch)
       | _ :: _ :: _ :: _ :: _ =>
           Raise (ValueError "too many values to unpack (expected 3)")
       | _ => Raise (ValueError "not enough values to unpack (expected 3)")
       end)%exn
  | _ => Raise (AttributeError ("'" ++ Py.type_name config_version
                                ++ "' object has no attribute 'split'"))
  end.

Definition format_version (major minor patch : Z) : string :=
  (str_of_Z major ++ "." ++ str_of_Z minor ++ "." ++ str_of_Z patch)%string.

(** The entry [add_to_history] appends for a serialized state. *)
Definition history_entry (E : env) (state : list (string * Py.value)) : Py.value :=
  Py.VDict [("timestamp", Py.VStr (now_iso E));
            ("config", Py.VDict (Py.dict_pop state "config_history"))]%string.

(** [add_to_history] *)
Definition add_to_history (E : env) (self : t) : result t :=
  (current_state <- to_dict_pairs E self ;;
   match config_history self with
   | Py.VList h =>
       Ok (set_config_history self (Py.VList (h ++ [history_entry E current_state])))
   | other =>
       Raise (AttributeError ("'" ++ Py.type_name other
                              ++ "' object has no attribute 'append'"))
   end)%exn.

Definition bump (level : string) (v : Z * Z * Z) : Z * Z * Z :=
  let '(major, minor, patch) := v in
  if String.eqb level "major" then (major + 1, 0, 0)
  else if String.eqb level "minor" then (major, minor + 1, 0)
  else (major, minor, patch + 1).

(** [increment_version(level)]: the object afterwards and the outcome of
    the call (the new version string, or the exception raised). *)
Definition increment_version (E : env) (self : t) (level : string)
  : t * result string :=
  match add_to_history E self with
  | Raise e => (self, Raise e)
  | Ok self1 =>
      match parse_version (config_version self1) with
      | Raise e => (self1, Raise e)
      | Ok v =>
          let '(major, minor, patch) := bump level v in
          let version := format_version major minor patch in
          (set_config_version self1 (Py.VStr version), Ok version)
      end
  end.

(** *** Configurations as the constructor leaves them *)

Definition not_str {E : Type} (x : efield E) : Prop :=
  match x with
  | Raw (Py.VStr _) => False
  | _ => True
  end.

Definition truthy_or_empty_dict (v : Py.value) : Prop :=
  Py.truthy v = true \/ v = Py.VDict [].

(** What [__init__] guarantees of the attributes it computes, for
    arguments of the annotated types, together with what is required of
    the collaborators for the configuration at hand: the identifier is not
    empty, the data set is a member of its enum, the architecture a member
    or a list, no other enum-valued attribute is left a string, the results
    directory is a path in [pathlib]'s string form, the scheduler
    parameters and the tags are non-empty or the empty dict, and a
    preprocessing configuration is true and is read back from its own
    [to_dict]. *)
Definition valid (E : env) (c : t) : Prop :=
  Py.truthy (experiment_id c) = true /\
  (exists e, dataset c = Enum e) /\
  match model_architecture c with
  | Enum _ => True
  | Raw (Py.VList _) => True
  | Raw _ => False
  end /\
  not_str (lr_scheduler_type c) /\
  not_str (evaluation_mode c) /\
  not_str (tracker_type c) /\
  path_str (results_dir c) <> EmptyString /\
  normpath E (path_str (results_dir c)) = path_str (results_dir c) /\
  truthy_or_empty_dict (lr_scheduler_params c) /\
  truthy_or_empty_dict (tracking_tags c) /\
  match preprocessing_config c with
  | None => True
  | Some pc =>
      pc_truthy E pc = true /\ pc_from_dict E (pc_to_dict E pc) = Ok pc
  end.

(** The environment behaves like the libraries behind it: a UUID prefix is
    not empty, and the string form of a path is not empty and is its own
    string form. *)
Definition env_ok (E : env) : Prop :=
  uuid8 E <> EmptyString /\
  (forall s, normpath E s <> EmptyString /\
             normpath E (normpath E s) = normpath E s) /\
  (forall id, path_str (auto_results_dir E id) <> EmptyString /\
              normpath E (path_str (auto_results_dir E id)) =
                path_str (auto_results_dir E id)).

(** Arguments of the types [__init__] is annotated with, for the
    parameters whose type matters to serialization. *)
Definition annotated (E : env) (a : args) : Prop :=
  match arg_dataset a with
  | Enum _ | Raw (Py.VStr _) => True
  | Raw _ => False
  end /\
  match arg_model_architecture a with
  | Enum _ | Raw (Py.VStr _) | Raw (Py.VList _) => True
  | Raw _ => False
  end /\
  match arg_preprocessing_config a with
  | None => True
  | Some pc =>
      pc_truthy E pc = true /\ pc_from_dict E (pc_to_dict E pc) = Ok pc
  end.

(** An environment and a configuration to evaluate the functions on. *)
Definition example_base_env : env :=
  mkEnv "1a2b3c4d" "2025-05-01T10:00:00"
        (fun _ => mkPath "outputs/experiment_1a2b3c4d_20250501_100000")
        (fun s => s)
        (fun _ => true)
        (fun pc => Py.VDict (pc_attrs pc))
        (fun v => match v with
                  | Py.VDict d => Ok (mkPreprocessingConfig d)
                  | _ => Raise (TypeError "PreprocessingConfig.from_dict")
                  end)
        (fun _ => EmptyString)
        (fun _ => Raise (RuntimeError "yaml.safe_load")).

Definition example_args : args :=
  mkArgs
    (arg_experiment_name default_args)
    (Raw (Py.VStr "dataset1"))
    (Raw (Py.VStr "arcface"))
    (Some (mkPreprocessingConfig
             [("name", Py.VStr "enhanced"); ("use_mtcnn", Py.VBool true);
              ("face_margin", Py.VFloat (4 # 10))]%string))
    (Py.VInt 20)
    (arg_batch_size default_args)
    (arg_learning_rate default_args)
    (Py.VBool false)
    (Py.VStr "outputs/yaml_file_test")
    (Py.VStr "exp_1")
    (Py.VStr "1.4.2")
    (arg_config_history default_args)
    (arg_random_seed default_args)
    (arg_use_early_stopping default_args)
    (arg_early_stopping_patience default_args)
    (arg_early_stopping_min_delta default_args)
    (arg_early_stopping_metric default_args)
    (arg_early_stopping_mode default_args)
    (arg_use_gradient_clipping default_args)
    (arg_gradient_clipping_max_norm default_args)
    (arg_gradient_clipping_adaptive default_args)
    (Raw (Py.VStr "cosine"))
    (arg_lr_scheduler_params default_args)
    (arg_save_best_checkpoint default_args)
    (arg_checkpoint_frequency default_args)
    (arg_keep_last_n_checkpoints default_args)
    (arg_keep_best_n_checkpoints default_args)
    (arg_save_checkpoint_metadata default_args)
    (arg_resumable_training default_args)
    (Raw (Py.VStr "enhanced"))
    (arg_per_class_analysis default_args)
    (arg_calibration_analysis default_args)
    (arg_resource_monitoring default_args)
    (arg_calibration_n_bins default_args)
    (arg_use_temperature_scaling default_args)
    (arg_confidence_threshold default_args)
    (arg_save_raw_predictions default_args)
    (arg_max_misclassified_examples default_args)
    (arg_model_complexity_analysis default_args)
    (arg_class_difficulty_metric default_args)
    (Raw (Py.VStr "mlflow"))
    (arg_tracking_uri default_args)
    (arg_wandb_project default_args)
    (arg_wandb_entity default_args)
    (arg_track_metrics default_args)
    (arg_track_params default_args)
    (arg_track_artifacts default_args)
    (arg_track_models default_args)
    (arg_register_best_model default_args)
    (arg_tracking_tags default_args).

Definition example_config : option t :=
  match snd (init example_base_env example_args) with
  | Ok c => Some c
  | Raise _ => None
  end.

(** The same environment with a YAML serializer that knows one document,
    the serialized example configuration. *)
Definition example_env : env :=
  mkEnv (uuid8 example_base_env) (now_iso example_base_env)
        (auto_results_dir example_base_env) (normpath example_base_env)
        (pc_truthy example_base_env) (pc_to_dict example_base_env)
        (pc_from_dict example_base_env)
        (fun _ => "experiment_id: exp_1"%string)
        (fun s =>
           if String.eqb s "experiment_id: exp_1" then
             match example_config with
             | Some c => to_dict example_base_env c
             | None => Raise (RuntimeError "yaml.safe_load")
             end
           else Raise (RuntimeError "yaml.safe_load")).

(** The YAML serializer reads back the document it writes for the
    configuration. *)
Definition yaml_reads_back (E : env) (c : t) : Prop :=
  forall d, to_dict E c = Ok d -> yaml_safe_load E (yaml_dump E d) = Ok d.

(** The preprocessing item of a serialized configuration, if there is
    one, is accepted by [PreprocessingConfig.from_dict]. *)
Definition pc_loads (E : env) (d : list (string * Py.value)) : Prop :=
  match Py.dict_get d "preprocessing_config" with
  | Some v => exists p, pc_from_dict E v = Ok p
  | None => True
  end.

(** Deserialization succeeds and logs a warning, as the design document
    states for an unknown value of an enum-valued field. *)
Definition loads_with_warning (E : env) (config_dict : Py.value) : Prop :=
  exists c, snd (from_dict E config_dict) = Ok c /\
            fst (from_dict E config_dict) <> [].

(** *** Comparing two configurations

    [compare_with].  The keys are visited in the iteration order of a
    Python set, which is not specified: [set_order] gives the order in
    which the elements of a set built from a list are visited. *)

Definition added (v : Py.value) : Py.value :=
  Py.VDict [("status", Py.VStr "added"); ("value", v)]%string.

Definition removed (v : Py.value) : Py.value :=
  Py.VDict [("status", Py.VStr "removed"); ("value", v)]%string.

Definition modified (old_value new_value : Py.value) : Py.value :=
  Py.VDict [("status", Py.VStr "modified"); ("old_value", old_value);
            ("new_value", new_value)]%string.

(** The body of [for key in all_keys:]. *)
Definition compare_key (this_dict other_dict : list (string * Py.value))
    (differences : list (string * Py.value)) (key : string)
  : result (list (string * Py.value)) :=
  if negb (Py.dict_has this_dict key) then
    (v <- Py.getitem (Py.VDict other_dict) key ;;
     Ok (Py.dict_set differences key (added v)))%exn
  else if negb (Py.dict_has other_dict key) then
    (v <- Py.getitem (Py.VDict this_dict) key ;;
     Ok (Py.dict_set differences key (removed v)))%exn
  else
    (a <- Py.getitem (Py.VDict this_dict) key ;;
     b <- Py.getitem (Py.VDict other_dict) key ;;
     if negb (Py.eq a b) then Ok (Py.dict_set differences key (modified a b))
     else Ok differences)%exn.

(** [d.pop('config_history', None); d.pop('created_at', None)] *)
Definition functional (d : list (string * Py.value)) : list (string * Py.value) :=
  Py.dict_pop (Py.dict_pop d "config_history") "created_at".

Definition compare_with (E : env) (set_order : list string -> list string)
    (self other : t) : result (list (string * Py.value)) :=
  (this_dict <- to_dict_pairs E self ;;
   other_dict <- to_dict_pairs E other ;;
   let this_dict := functional this_dict in
   let other_dict := functional other_dict in
   let all_keys := set_order (map fst this_dict ++ map fst other_dict) in
   Phases.for_each (compare_key this_dict other_dict) all_keys [])%exn.

(** What [compare_with] reports for a key, from the two items. *)
Definition difference (this other : option Py.value) : option Py.value :=
  match this, other with
  | None, None => None
  | None, Some v => Some (added v)
  | Some v, None => Some (removed v)
  | Some a, Some b => if Py.eq a b then None else Some (modified a b)
  end.

(** An iteration order of sets: the elements of the list, in some order. *)
Definition enumerates (set_order : list string -> list string) : Prop :=
  forall l k, In k (set_order l) <-> In k l.

Fixpoint nodupb (l : list string) : bool :=
  match l with
  | [] => true
  | x :: rest => negb (existsb (String.eqb x) rest) && nodupb rest
  end.

(** *** Sequences of version bumps, and the keys [from_dict] reads *)

(** One call of [increment_version] per level, up to the first exception. *)
Fixpoint increment_versions (E : env) (self : t) (levels : list string)
  : t * result (list string) :=
  match levels with
  | [] => (self, Ok [])
  | level :: rest =>
      match increment_version E self level with
      | (self1, Raise e) => (self1, Raise e)
      | (self1, Ok version) =>
          match increment_versions E self1 rest with
          | (self2, Raise e) => (self2, Raise e)
          | (self2, Ok versions) => (self2, Ok (version :: versions))
          end
      end
  end.

(** The order of versions: by major, then minor, then patch. *)
Definition version_lt (a b : Z * Z * Z) : Prop :=
  let '(major, minor, patch) := a in
  let '(major', minor', patch') := b in
  major < major' \/
  (major = major' /\ (minor < minor' \/ (minor = minor' /\ patch < patch'))).

(** The version an entry of the history was taken at. *)
Definition recorded_version (entry : Py.value) : option Py.value :=
  match entry with
  | Py.VDict e =>
      match Py.dict_get e "config" with
      | Some (Py.VDict config) => Py.dict_get config "config_version"
      | _ => None
      end
  | _ => None
  end.

(** The keys [from_dict] looks up in a document. *)
Definition known_keys : list string :=
  ["experiment_name"; "dataset"; "model_architecture"; "epochs";
   "batch_size"; "learning_rate"; "cross_dataset_testing"; "results_dir";
   "experiment_id"; "config_version"; "random_seed"; "use_early_stopping";
   "early_stopping_patience"; "early_stopping_min_delta";
   "early_stopping_metric"; "early_stopping_mode";
   "use_gradient_clipping"; "gradient_clipping_max_norm";
   "gradient_clipping_adaptive"; "lr_scheduler_type";
   "lr_scheduler_params"; "save_best_checkpoint"; "checkpoint_frequency";
   "keep_last_n_checkpoints"; "keep_best_n_checkpoints";
   "save_checkpoint_metadata"; "resumable_training"; "evaluation_mode";
   "per_class_analysis"; "calibration_analysis"; "resource_monitoring";
   "calibration_n_bins"; "use_temperature_scaling";
   "confidence_threshold"; "save_raw_predictions";
   "max_misclassified_examples"; "model_complexity_analysis";
   "class_difficulty_metric"; "tracker_type"; "tracking_uri";
   "wandb_project"; "wandb_entity"; "track_metrics"; "track_params";
   "track_artifacts"; "track_models"; "register_best_model";
   "tracking_tags"; "preprocessing_config"; "created_at";
   "config_history"]%string.

Definition known_key (k : string) : bool := existsb (String.eqb k) known_keys.

(** The example environment with [pathlib]'s treatment of the empty path. *)
Definition example_path_env : env :=
  mkEnv (uuid8 example_base_env) (now_iso example_base_env)
        (auto_results_dir example_base_env)
        (fun s => if String.eqb s "" then "."%string else s)
        (pc_truthy example_base_env) (pc_to_dict example_base_env)
        (pc_from_dict example_base_env)
        (yaml_dump example_base_env) (yaml_safe_load example_base_env).

End Config.

(** ** Model registry (experiment_manager.py, class ModelRegistry)

    [self.models] maps a model name to its metadata.  [save] writes the
    registry file with [json.dump], which is outside this development and
    may raise; it is a parameter.  The [while] loop that looks for a free
    name runs on fuel; the properties show that the size of the registry is
    always enough. *)

Module ModelRegistry.

(** [f"{base_name}_v{version}"] *)
Definition versioned_name (base_name : string) (version : Z) : string :=
  (base_name ++ "_v" ++ Config.str_of_Z version)%string.

(** [while model_name in self.models: model_name = f"{base_name}_v{version}";
    version += 1], from the point where the condition is tested. *)
Fixpoint free_name (models : list (string * Py.value)) (base_name model_name : string)
    (version : Z) (fuel : nat) : option string :=
  if negb (Py.dict_has models model_name) then Some model_name
  else
    match fuel with
    | O => None
    | S fuel' =>
        free_name models base_name (versioned_name base_name version)
                  (version + 1) fuel'
    end.

(** The metadata [register_model] stores.  [checkpoint_path] is a [Path]
    or [None]; a [Path] is true. *)
Definition model_metadata (model_name : string)
    (architecture dataset_name experiment_id parameters metrics : Py.value)
    (checkpoint_path : option string) (timestamp : string) : Py.value :=
  Py.VDict
    [("model_name", Py.VStr model_name);
     ("architecture", architecture);
     ("dataset", dataset_name);
     ("experiment_id", experiment_id);
     ("parameters", parameters);
     ("created_at", Py.VStr timestamp);
     ("metrics", Config.or_else metrics (Py.VDict []));
     ("checkpoint_path",
      match checkpoint_path with
      | Some p => Py.VStr p
      | None => Py.VNone
      end)]%string.

(** [register_model]: the registry afterwards and the name returned, or
    the exception of [save]; [None] when the fuel does not suffice. *)
Definition register_model (save : list (string * Py.value) -> result unit)
    (fuel : nat) (models : list (string * Py.value)) (model_name : string)
    (architecture dataset_name experiment_id parameters metrics : Py.value)
    (checkpoint_path : option string) (timestamp : string)
  : option (list (string * Py.value) * result string) :=
  match free_name models model_name model_name 1 fuel with
  | None => None
  | Some name =>
      let models' :=
        Py.dict_set models name
          (model_metadata name architecture dataset_name experiment_id
             parameters metrics checkpoint_path timestamp) in
      Some (models',
            match save models' with
            | Ok _ => Ok name
            | Raise e => Raise e
            end)
  end.

(** [get_model] *)
Definition get_model (models : list (string * Py.value)) (model_name : string)
  : result Py.value :=
  if negb (Py.dict_has models model_name) then
    Raise (ValueError ("Model not found: " ++ model_name))
  else Py.getitem (Py.VDict models) model_name.

(** [d.update(other)] for two dicts. *)
Definition dict_update (d other : list (string * Py.value))
  : list (string * Py.value) :=
  fold_left (fun acc kv => Py.dict_set acc (fst kv) (snd kv)) other d.

(** [m.update(other)] on an object. *)
Definition py_update (m : Py.value) (other : list (string * Py.value))
  : result Py.value :=
  match m with
  | Py.VDict d => Ok (Py.VDict (dict_update d other))
  | _ => Raise (AttributeError ("'" ++ Py.type_name m
                                ++ "' object has no attribute 'update'"))
  end.

(** [c[k] = v] on an object, for a string key. *)
Definition setitem (c : Py.value) (k : string) (v : Py.value) : result Py.value :=
  match c with
  | Py.VDict d => Ok (Py.VDict (Py.dict_set d k v))
  | _ => Raise (TypeError ("'" ++ Py.type_name c
                           ++ "' object does not support item assignment"))
  end.

(** What [update_metrics] makes of the metadata of a model; the metadata
    and its metrics are changed in place. *)
Definition updated_metadata (metadata : Py.value)
    (metrics : list (string * Py.value)) (timestamp : string) : result Py.value :=
  (m <- Py.getitem metadata "metrics" ;;
   m' <- py_update m metrics ;;
   md <- setitem metadata "metrics" m' ;;
   setitem md "updated_at" (Py.VStr timestamp))%exn.

(** [update_metrics]: the registry afterwards and the outcome; [metrics]
    is a dict. *)
Definition update_metrics (save : list (string * Py.value) -> result unit)
    (models : list (string * Py.value)) (model_name : string)
    (metrics : list (string * Py.value)) (timestamp : string)
  : list (string * Py.value) * result unit :=
  if negb (Py.dict_has models model_name) then
    (models, Raise (ValueError ("Model not found: " ++ model_name)))
  else
    match (metadata <- Py.getitem (Py.VDict models) model_name ;;
           updated_metadata metadata metrics timestamp)%exn with
    | Raise e => (models, Raise e)
    | Ok metadata' =>
        let models' := Py.dict_set models model_name metadata' in
        (models', save models')
    end.

(** The names the loop tries after [base_name], from version [v] on. *)
Definition candidates (base_name : string) (v : Z) (n : nat) : list string :=
  map (fun i => versioned_name base_name (v + Z.of_nat i)) (seq 0 n).

End ModelRegistry.

(** ** Experiment runner (experiment_manager.py, class ExperimentManager)

    The choice [run_experiment] makes between its three runners, and the
    choice [_run_single_model_experiment] makes of the checkpoint to resume
    from.  The checkpoint files are named by
    [ResultsManager.save_model_checkpoint]. *)

Module Trainer.

Inductive runner : Type :=
| CrossDataset
| ArchitectureComparison
| SingleModel.

(** The [if]/[elif] chain at the end of [run_experiment]. *)
Definition dispatch (config : Config.t) : result runner :=
  let both :=
    match Config.dataset config with
    | Config.Enum Config.BOTH => true
    | _ => false
    end in
  if both && Py.truthy (Config.cross_dataset_testing config) then Ok CrossDataset
  else
    match Config.model_architecture config with
    | Config.Raw (Py.VList _) => Ok ArchitectureComparison
    | Config.Enum e =>
        if (String.length (Config.ModelArchitecture_value e) =? 1)%nat
        then Ok SingleModel
        else Ok ArchitectureComparison
    | Config.Raw v =>
        Raise (AttributeError ("'" ++ Py.type_name v
                               ++ "' object has no attribute 'value'"))
    end.

(** [f"checkpoint_epoch_{epoch}.pth"] in the checkpoint directory, as a
    path string. *)
Definition checkpoint_path (checkpoints_dir : string) (epoch : Z) : string :=
  (checkpoints_dir ++ "/" ++ "checkpoint_epoch_" ++ Config.str_of_Z epoch ++ ".pth")%string.

(** [int(str(x).split('_')[-1].split('.')[0])] *)
Definition epoch_key (x : string) : result Z :=
  Config.py_int
    (hd EmptyString
        (Config.split "." (last (Config.split "_" x) EmptyString))).

(** The keys of a list, computed in order. *)
Fixpoint keys (paths : list string) : result (list (Z * string)) :=
  match paths with
  | [] => Ok []
  | x :: rest =>
      (k <- epoch_key x ;; ks <- keys rest ;; Ok ((k, x) :: ks))%exn
  end.

(** A stable sort, lowest key first. *)
Fixpoint insert_epoch (e : Z * string) (sorted : list (Z * string))
  : list (Z * string) :=
  match sorted with
  | [] => [e]
  | x :: rest =>
      if fst x <=? fst e then x :: insert_epoch e rest else e :: x :: rest
  end.

Definition sort_by_epoch (l : list (Z * string)) : list (Z * string) :=
  fold_left (fun sorted e => insert_epoch e sorted) l [].

(** [checkpoint_files.sort(key=...); latest_checkpoint = checkpoint_files[-1]]
    when there are checkpoint files. *)
Definition latest_checkpoint (checkpoint_files : list string)
  : result (option string) :=
  match checkpoint_files with
  | [] => Ok None
  | _ =>
      (ks <- keys checkpoint_files ;;
       Ok (option_map snd (last (map Some (sort_by_epoch ks)) None)))%exn
  end.

Definition by_epoch (a b : Z * string) : Prop := fst a <= fst b.

End Trainer.

(** ** Hyperparameter search adapter (experiment_manager.py,
       [HyperparameterExperiment._objective])

    The values the trial suggests and [ExperimentManager.run_experiment]
    are the collaborators. *)

Module Hyperopt.

Record HyperparameterExperiment : Type := mkExperiment {
  model_architecture : string;
  dataset : string;
  preprocessing_config : option Config.PreprocessingConfig
}.

Record trial : Type := mkTrial {
  number : Z;
  suggested_epochs : Py.value;
  suggested_batch_size : Py.value;
  suggested_learning_rate : Py.value
}.

(** The keyword arguments of the configuration of a trial. *)
Definition trial_args (E : Config.env) (self : HyperparameterExperiment)
    (tr : trial) (results_dir : string) : Config.args :=
  let experiment_id := Py.VStr ("trial_" ++ Config.str_of_Z (number tr)) in
  let experiment_name := Py.VStr ("Hyperopt Trial " ++ Config.str_of_Z (number tr)) in
  let dataset := dataset self in
  let model_architecture := model_architecture self in
  let preprocessing_config := preprocessing_config self in
  let epochs := suggested_epochs tr in
  let batch_size := suggested_batch_size tr in
  let learning_rate := suggested_learning_rate tr in
  let results_dir :=
    Py.VStr (Config.normpath E (results_dir ++ "/trial_" ++ Config.str_of_Z (number tr))) in
  Config.mkArgs
    experiment_name
    (Config.Raw (Py.VStr dataset))
    (Config.Raw (Py.VStr model_architecture))
    preprocessing_config
    epochs
    batch_size
    learning_rate
    (Py.VBool false)
    results_dir
    experiment_id
    (Py.VStr "1.0.0")
    (Py.VNone)
    (Py.VInt 42)
    (Py.VBool false)
    (Py.VInt 10)
    (Py.VFloat 0)
    (Py.VStr "loss")
    (Py.VStr "min")
    (Py.VBool false)
    (Py.VFloat 1)
    (Py.VBool false)
    (Config.Enum Config.SCHED_NONE)
    (Py.VNone)
    (Py.VBool true)
    (Py.VInt 1)
    (Py.VInt 5)
    (Py.VInt 3)
    (Py.VBool true)
    (Py.VBool true)
    (Config.Enum Config.STANDARD)
    (Py.VBool true)
    (Py.VBool true)
    (Py.VBool true)
    (Py.VInt 10)
    (Py.VBool false)
    (Py.VFloat (1 # 2))
    (Py.VBool true)
    (Py.VInt 10)
    (Py.VBool true)
    (Py.VStr "f1")
    (Config.Enum Config.TRACK_NONE)
    (Py.VNone)
    (Py.VStr "face-recognition")
    (Py.VNone)
    (Py.VBool true)
    (Py.VBool true)
    (Py.VBool true)
    (Py.VBool true)
    (Py.VBool false)
    (Py.VNone).

(** The extraction of the score from the result summary. *)
Definition extract_score (results : Py.value) : result Py.value :=
  (has_best <- Py.py_in "best_validation_metrics" results ;;
   has_acc <- (if has_best : bool then
                 best <- Py.getitem results "best_validation_metrics" ;;
                 Py.py_in "accuracy" best
               else Ok false) ;;
   if has_acc : bool then
     best <- Py.getitem results "best_validation_metrics" ;;
     Py.getitem best "accuracy"
   else
     has_test <- Py.py_in "test_metrics" results ;;
     nonempty <- (if has_test : bool then
                    tm <- Py.getitem results "test_metrics" ;; Ok (Py.truthy tm)
                  else Ok false) ;;
     has_test_acc <- (if nonempty : bool then
                        tm <- Py.getitem results "test_metrics" ;;
                        first <- Py.getitem0 tm ;;
                        Py.py_in "accuracy" first
                      else Ok false) ;;
     if has_test_acc : bool then
       tm <- Py.getitem results "test_metrics" ;;
       first <- Py.getitem0 tm ;;
       Py.getitem first "accuracy"
     else Ok (Py.VFloat 0))%exn.

(** [_objective(trial, results_dir)] *)
Definition _objective (E : Config.env)
    (run_experiment : Config.t -> result Py.value)
    (self : HyperparameterExperiment) (tr : trial) (results_dir : string)
  : logged Py.value :=
  (config <- Config.init E (trial_args E self tr results_dir) ;;
   (* try: *)
   match (results <- run_experiment config ;; extract_score results)%exn with
   | Ok score => ret score
   | Raise e =>
       (* except Exception as e: *)
       _ <- warn ("Error in hyperopt trial " ++ Config.str_of_Z (number tr)) ;;
       ret (Py.VFloat 0)
   end)%log.

(** A result summary without a best validation accuracy, and one without
    a test accuracy. *)
Definition no_best_accuracy (r : list (string * Py.value)) : Prop :=
  Py.dict_get r "best_validation_metrics" = None \/
  exists b, Py.dict_get r "best_validation_metrics" = Some (Py.VDict b) /\
            Py.dict_get b "accuracy" = None.

Definition no_test_accuracy (r : list (string * Py.value)) : Prop :=
  Py.dict_get r "test_metrics" = None \/
  Py.dict_get r "test_metrics" = Some (Py.VList []) \/
  exists t rest,
    Py.dict_get r "test_metrics" = Some (Py.VList (Py.VDict t :: rest)) /\
    Py.dict_get t "accuracy" = None.

(** The objective never lets an exception out of a trial, as the design
    document states. *)
Definition never_raises (E : Config.env)
    (run_experiment : Config.t -> result Py.value)
    (self : HyperparameterExperiment) (tr : trial) (results_dir : string)
  : Prop :=
  is_ok (snd (_objective E run_experiment self tr results_dir)) = true.

End Hyperopt.

(** * Properties *)

(** ** Strings *)

Lemma append_nil_r (s : string) : (s ++ "")%string = s.
Proof. induction s as [|a s IH]; simpl; [reflexivity | now rewrite IH]. Qed.

Lemma append_assoc (a b c : string) :
  ((a ++ b) ++ c)%string = (a ++ (b ++ c))%string.
Proof. induction a as [|x a IH]; simpl; [reflexivity | now rewrite IH]. Qed.

Lemma length_append (a b : string) :
  String.length (a ++ b) = (String.length a + String.length b)%nat.
Proof. induction a as [|x a IH]; simpl; [reflexivity | now rewrite IH]. Qed.

(** ** Early-stopping monitor *)

Section EarlyStoppingFacts.
Import EarlyStopping.

Lemma Qltb_lt (x y : Q) : Qltb x y = true <-> (x < y)%Q.
Proof.
  unfold Qltb. rewrite negb_true_iff. split.
  - intros H. apply Qnot_le_lt. intros Hle.
    apply Qle_bool_iff in Hle. congruence.
  - intros H. destruct (Qle_bool y x) eqn:E; [|reflexivity].
    apply Qle_bool_iff in E. exfalso. exact (Qlt_not_le _ _ H E).
Qed.

Lemma call_trace (s : t) (x : Q) : trace (fst (call s x)) = trace s ++ [x].
Proof. unfold call. destruct (val_comp _ x); reflexivity. Qed.

Lemma call_patience (s : t) (x : Q) : patience (fst (call s x)) = patience s.
Proof. unfold call. destruct (val_comp _ x); reflexivity. Qed.

Lemma observe_length_flags (scores : list Q) :
  forall s, length (snd (observe s scores)) = length scores.
Proof.
  induction scores as [|x rest IH]; intros s; simpl; [reflexivity|].
  destruct (call s x) as [s' r] eqn:Ec.
  specialize (IH s'). destruct (observe s' rest) as [f rs]. simpl in *. lia.
Qed.

Lemma observe_trace (scores : list Q) :
  forall s, trace (fst (observe s scores)) = trace s ++ scores.
Proof.
  induction scores as [|x rest IH]; intros s; simpl.
  - now rewrite app_nil_r.
  - destruct (call s x) as [s' r] eqn:Ec.
    specialize (IH s'). destruct (observe s' rest) as [f rs]. simpl in *.
    rewrite IH. replace s' with (fst (call s x)) by now rewrite Ec.
    rewrite call_trace, <- app_assoc. reflexivity.
Qed.

Lemma observe_app (xs ys : list Q) :
  forall s,
    observe s (xs ++ ys) =
    (fst (observe (fst (observe s xs)) ys),
     snd (observe s xs) ++ snd (observe (fst (observe s xs)) ys)).
Proof.
  induction xs as [|x xs IH]; intros s; simpl.
  - destruct (observe s ys); reflexivity.
  - destruct (call s x) as [s' r]. rewrite IH.
    destruct (observe s' xs) as [s'' rs]. simpl.
    destruct (observe s'' ys) as [s3 rs']. reflexivity.
Qed.


Lemma observe_snoc (xs : list Q) (x : Q) (s : t) :
  observe s (xs ++ [x]) =
  (fst (call (fst (observe s xs)) x),
   snd (observe s xs) ++ [snd (call (fst (observe s xs)) x)]).
Proof.
  rewrite observe_app. simpl.
  destruct (call (fst (observe s xs)) x) as [s' r]. reflexivity.
Qed.

Lemma leading_repeat_app (k : nat) (r : list bool) :
  leading (repeat false k ++ r) = (k + leading r)%nat.
Proof. induction k as [|k IH]; simpl; [reflexivity | now rewrite IH]. Qed.

Lemma leading_split (l : list bool) :
  exists rest, l = repeat false (leading l) ++ rest.
Proof.
  induction l as [|b l [rest IH]]; simpl.
  - exists []. reflexivity.
  - destruct b.
    + exists (true :: l). reflexivity.
    + exists rest. simpl. now rewrite <- IH.
Qed.

Lemma rev_repeat_false (k : nat) : rev (repeat false k) = repeat false k.
Proof.
  induction k as [|k IH]; simpl; [reflexivity|].
  rewrite IH. clear IH. induction k as [|k IH]; simpl; [reflexivity|].
  now rewrite IH.
Qed.

Lemma repeat_false_snoc (k : nat) :
  repeat false (S k) = repeat false k ++ [false].
Proof. induction k as [|k IH]; simpl in *; [reflexivity | now rewrite <- IH]. Qed.

Lemma trailing_snoc_true (l : list bool) : trailing (l ++ [true]) = 0%nat.
Proof. unfold trailing. now rewrite rev_app_distr. Qed.

Lemma trailing_snoc_false (l : list bool) :
  trailing (l ++ [false]) = S (trailing l).
Proof. unfold trailing. now rewrite rev_app_distr. Qed.

Lemma has_run_nil (n : nat) : (1 <= n)%nat -> ~ has_run n [].
Proof.
  intros Hn (pre & post & E). apply (f_equal (@List.length bool)) in E.
  rewrite !length_app, repeat_length in E. simpl in E. lia.
Qed.

Lemma has_run_trailing (n : nat) (l : list bool) :
  (n <= trailing l)%nat -> has_run n l.
Proof.
  unfold trailing. intros Hn.
  destruct (leading_split (rev l)) as [rest E].
  apply (f_equal (@rev bool)) in E.
  rewrite rev_involutive, rev_app_distr, rev_repeat_false in E.
  replace (leading (rev l)) with ((leading (rev l) - n) + n)%nat in E at 1 by lia.
  rewrite repeat_app in E.
  exists (rev rest ++ repeat false (leading (rev l) - n)), [].
  rewrite app_nil_r, <- app_assoc. exact E.
Qed.

Lemma has_run_snoc (n : nat) (l : list bool) (b : bool) :
  (1 <= n)%nat ->
  has_run n (l ++ [b]) <-> has_run n l \/ (n <= trailing (l ++ [b]))%nat.
Proof.
  intros Hn. split.
  - intros (pre & post & E).
    destruct post as [|p post'] using rev_ind.
    + right. rewrite E, app_nil_r. unfold trailing.
      rewrite rev_app_distr, rev_repeat_false, leading_repeat_app. lia.
    + left. clear IHpost'. rewrite !app_assoc in E.
      apply app_inj_tail in E. destruct E as [E _].
      exists pre, post'. now rewrite app_assoc.
  - intros [(pre & post & E) | H].
    + exists pre, (post ++ [b]). rewrite E, <- !app_assoc. reflexivity.
    + now apply has_run_trailing.
Qed.

Lemma xlt_xLt (a b : xfloat) : xlt a b = true <-> xLt a b.
Proof.
  destruct a, b; simpl; try (split; [discriminate | contradiction]);
    try (split; [intros _; exact I | reflexivity]).
  apply Qltb_lt.
Qed.

Lemma val_comp_improved (s : t) (x : Q) : val_comp s x = true <-> improved s x.
Proof. unfold val_comp, improved. destruct (mode s); apply xlt_xLt. Qed.

(** What one call does to the object, by the outcome of the comparison. *)
Lemma call_cases (s : t) (x : Q) :
  (improved s x /\
   call s x = (mk (patience s) (min_delta s) 0 (mode s) (early_stop s)
                  (trace s ++ [x]) (Fin x), true)) \/
  (~ improved s x /\
   call s x = (mk (patience s) (min_delta s) (counter s + 1) (mode s)
                  (early_stop s || (patience s <=? counter s + 1))
                  (trace s ++ [x]) (best_score s), false)).
Proof.
  unfold call.
  replace (val_comp _ x) with (val_comp s x) by (destruct s; reflexivity).
  destruct (val_comp s x) eqn:E; simpl.
  - left. split; [now apply val_comp_improved | reflexivity].
  - right. split.
    + intros H. apply val_comp_improved in H. congruence.
    + destruct (patience s <=? counter s + 1), (early_stop s); reflexivity.
Qed.

Lemma observe_invariant (p : Z) (d : Q) (m : mode_t) (scores : list Q) :
  1 <= p ->
  let r := observe (init_mode p d m) scores in
  patience (fst r) = p /\
  counter (fst r) = Z.of_nat (trailing (snd r)) /\
  (early_stop (fst r) = true <-> has_run (Z.to_nat p) (snd r)).
Proof.
  intros Hp. induction scores as [|x xs IH] using rev_ind.
  - simpl. repeat split; try (destruct m; reflexivity).
    + destruct m; discriminate.
    + intros H. exfalso. revert H. apply has_run_nil. lia.
  - cbv zeta in *. rewrite observe_snoc. cbn [fst snd].
    destruct IH as (IHp & IHc & IHe).
    set (s := fst (observe (init_mode p d m) xs)) in *.
    set (fl := snd (observe (init_mode p d m) xs)) in *.
    destruct (call_cases s x) as [[_ E] | [_ E]]; rewrite E; cbn [fst snd patience counter early_stop].
    + rewrite trailing_snoc_true. repeat split; try assumption; try reflexivity.
      * intros H. apply has_run_snoc; [lia|]. left. now apply IHe.
      * intros H. apply has_run_snoc in H; [|lia].
        rewrite trailing_snoc_true in H. destruct H as [H | H]; [now apply IHe | lia].
    + rewrite trailing_snoc_false. repeat split; try assumption.
      * rewrite IHc. lia.
      * intros H. apply has_run_snoc; [lia|]. rewrite trailing_snoc_false.
        apply orb_true_iff in H. destruct H as [H | H].
        -- left. now apply IHe.
        -- right. apply Z.leb_le in H. lia.
      * intros H. apply has_run_snoc in H; [|lia].
        rewrite trailing_snoc_false in H. apply orb_true_iff.
        destruct H as [H | H]; [left; now apply IHe | right].
        apply Z.leb_le. lia.
Qed.

(** C2 (as stated, at patience 0).  With [patience = 0] an improving
    observation leaves [early_stop] false although a run of zero
    non-improving observations trivially occurs: the flag is only ever set
    in the non-improving branch. *)
Lemma early_stop_zero_patience_counterexample :
  ~ stops_iff_run 0 0 Min [1%Q].
Proof.
  unfold stops_iff_run. intros [_ H].
  assert (E : early_stop (fst (observe (init_mode 0 0 Min) [1%Q])) = true).
  { apply H. exists [], [true]. reflexivity. }
  vm_compute in E. discriminate.
Qed.

(** C2 (amended).  For every [patience >= 1], every [min_delta], both modes
    and every finite sequence of scores: each call tests improvement as
    [score < best_score - min_delta] (min) or [score > best_score + min_delta]
    (max); on improvement it stores the score as [best_score], resets
    [counter] to 0 and returns true, otherwise it increments [counter] and
    returns false; [early_stop] is true after the sequence exactly when
    [patience] consecutive non-improving observations occurred in it; and
    [trace] has one entry per call. *)
Theorem early_stopping_monitor (p : Z) (d : Q) (m : mode_t) (scores : list Q) :
  1 <= p ->
  let s0 := init_mode p d m in
  init p d (match m with Min => "min" | Max => "max" end) = Ok s0 /\
  (forall (s : t) (x : Q),
      (improved s x ->
       snd (call s x) = true /\
       best_score (fst (call s x)) = Fin x /\
       counter (fst (call s x)) = 0 /\
       early_stop (fst (call s x)) = early_stop s) /\
      (~ improved s x ->
       snd (call s x) = false /\
       best_score (fst (call s x)) = best_score s /\
       counter (fst (call s x)) = counter s + 1 /\
       early_stop (fst (call s x)) =
         (early_stop s || (patience s <=? counter s + 1)))) /\
  (early_stop (fst (observe s0 scores)) = true <->
   has_run (Z.to_nat p) (snd (observe s0 scores))) /\
  List.length (trace (fst (observe s0 scores))) = List.length scores /\
  trace (fst (observe s0 scores)) = scores.
Proof.
  intros Hp s0. split; [destruct m; reflexivity|]. split.
  - intros s x. split; intros Hi;
      destruct (call_cases s x) as [[Hi' E] | [Hi' E]];
      try contradiction; rewrite E; simpl; repeat split; reflexivity.
  - split.
    + apply (observe_invariant p d m scores Hp).
    + rewrite observe_trace. subst s0. destruct m; simpl; auto.
Qed.

Lemma early_stopping_monitor_witness :
  let s0 := init_mode 2 (1 # 100) Max in
  let scores := [(1 # 2)%Q; (1 # 2)%Q; (2 # 5)%Q] in
  early_stop (fst (observe s0 scores)) = true /\
  has_run 2 (snd (observe s0 scores)) /\
  trace (fst (observe s0 scores)) = scores.
Proof.
  pose proof (early_stopping_monitor 2 (1 # 100) Max
                [(1 # 2)%Q; (1 # 2)%Q; (2 # 5)%Q] ltac:(lia)) as H.
  cbv zeta in H. destruct H as (_ & _ & Hiff & _ & Htr).
  split; [reflexivity|]. split; [|exact Htr].
  apply Hiff. reflexivity.
Defined.

End EarlyStoppingFacts.

(** ** Resource gate *)

Section SweepFacts.
Import Sweep.

Lemma check_disk_space_probes (w : world) (g : Z) (s : state) :
  snd (check_disk_space w g s) =
  mkState (S (probes s)) (invoked s) (failed_architectures s)
          (architecture_results s) (experiment_ids s).
Proof. unfold check_disk_space. destruct (Qltb _ _); reflexivity. Qed.

Lemma check_disk_space_bytes (w : world) (g : Z) (s : state) :
  fst (check_disk_space w g s) = false <->
  free_bytes w (probes s) < g * bytes_per_gb.
Proof.
  unfold check_disk_space, bytes_per_gb.
  set (f := free_bytes w (probes s)). set (K := 1024 * 1024 * 1024).
  assert (HK : (0 < inject_Z K)%Q) by reflexivity.
  destruct (Qltb (inject_Z f / inject_Z K) (inject_Z g)) eqn:E; simpl.
  - split; [intros _ | reflexivity].
    apply Qltb_lt in E. rewrite Zlt_Qlt, inject_Z_mult.
    destruct (Qlt_le_dec (inject_Z f) (inject_Z g * inject_Z K)) as [H | H];
      [exact H | exfalso].
    apply (Qle_shift_div_l _ _ _ HK) in H.
    exact (Qlt_not_le _ _ E H).
  - split; [discriminate | intros H; exfalso].
    rewrite Zlt_Qlt, inject_Z_mult in H.
    apply (Qlt_shift_div_r _ _ _ HK) in H.
    apply Qltb_lt in H. unfold EarlyStopping.Qltb, Qltb in *. congruence.
Qed.

Lemma for_datasets_units (w : world) (prep exp_id : string) (g : Z)
    (datasets archs : list string) :
  forall s,
    for_datasets w prep exp_id g datasets archs s =
    run_units w prep exp_id g (units datasets archs) s.
Proof.
  unfold for_datasets, run_units, units.
  induction datasets as [|d ds IH]; intros s; simpl; [reflexivity|].
  rewrite fold_left_app, IH. f_equal.
  unfold for_archs. generalize s. clear.
  induction archs as [|a archs IH]; intros s; simpl; [reflexivity | apply IH].
Qed.

Lemma run_units_app (w : world) (prep exp_id : string) (g : Z)
    (us vs : list (string * string)) (s : state) :
  run_units w prep exp_id g (us ++ vs) s =
  run_units w prep exp_id g vs (run_units w prep exp_id g us s).
Proof. unfold run_units. apply fold_left_app. Qed.

(** The iteration of a unit, by the outcome of its disk probe. *)
Lemma run_unit_low (w : world) (prep exp_id : string) (g : Z)
    (d a : string) (s : state) :
  free_bytes w (probes s) < g * bytes_per_gb ->
  run_unit w prep exp_id g d a s =
  mkState (S (probes s)) (invoked s)
          (failed_architectures s ++ [unit_label prep d a])
          (architecture_results s) (experiment_ids s).
Proof.
  intros H. apply check_disk_space_bytes in H. unfold run_unit.
  pose proof (check_disk_space_probes w g s) as Hs.
  destruct (check_disk_space w g s) as [ok s1]. simpl in *. subst ok s1.
  reflexivity.
Qed.

Lemma run_unit_enough (w : world) (prep exp_id : string) (g : Z)
    (d a : string) (s : state) :
  g * bytes_per_gb <= free_bytes w (probes s) ->
  probes (run_unit w prep exp_id g d a s) = S (probes s) /\
  invoked (run_unit w prep exp_id g d a s) = invoked s ++ [(prep, d, a)].
Proof.
  intros H. unfold run_unit.
  pose proof (check_disk_space_probes w g s) as Hs.
  pose proof (check_disk_space_bytes w g s) as Hb.
  destruct (check_disk_space w g s) as [ok s1]. simpl in *. subst s1.
  destruct ok; [|destruct Hb as [Hb _]; specialize (Hb eq_refl); unfold bytes_per_gb in *; lia].
  simpl. destruct (train w prep d a); [destruct (String.eqb a "siamese")|];
    split; reflexivity.
Qed.

(** The whole matrix: a first probe against 5 GB, the enhanced loop with
    2 GB per unit, one probe against 2 GB, and the minimal loop with 1 GB
    per unit.  Every run yields an outcome. *)
Lemma run_matrix_phases (w : world) (id : string) (archs : list string) :
  run_matrix w id archs =
  if free_bytes w 0 <? 5 * bytes_per_gb then InsufficientDiskSpace
  else if negb (data_ready w) then
    DataMissing (ValueError "Processed data not found. Please run prepare_datasets() first.")
  else
    let s1 := run_units w "enhanced" (id ++ "_enhanced_preprocessing")%string 2
                (units dataset_names archs)
                (mkState 1 [] [] [] []) in
    let s2 := mkState (S (probes s1)) (invoked s1) (failed_architectures s1)
                (architecture_results s1) (experiment_ids s1) in
    if free_bytes w (probes s1) <? 2 * bytes_per_gb then MatrixDone s2
    else MatrixDone
           (run_units w "minimal" (id ++ "_minimal_preprocessing")%string 1
              (units dataset_names archs) s2).
Proof.
  unfold run_matrix.
  pose proof (check_disk_space_probes w 5 initial) as Hs.
  pose proof (check_disk_space_bytes w 5 initial) as Hb.
  destruct (check_disk_space w 5 initial) as [ok s0]. simpl in Hs, Hb. subst s0.
  destruct (Z.ltb_spec (free_bytes w 0) (5 * bytes_per_gb)) as [H | H].
  - apply Hb in H. subst ok. reflexivity.
  - destruct ok; [|destruct Hb as [Hb _]; specialize (Hb eq_refl); unfold bytes_per_gb in *; lia].
    cbn [negb]. destruct (data_ready w); cbn [negb]; [|reflexivity].
    rewrite for_datasets_units.
    set (s1 := run_units _ "enhanced" _ 2 _ _).
    pose proof (check_disk_space_probes w 2 s1) as Hs2.
    pose proof (check_disk_space_bytes w 2 s1) as Hb2.
    destruct (check_disk_space w 2 s1) as [ok2 s2]. simpl in Hs2, Hb2. subst s2.
    destruct (Z.ltb_spec (free_bytes w (probes s1)) (2 * bytes_per_gb)) as [H2 | H2].
    + apply Hb2 in H2. subst ok2. reflexivity.
    + destruct ok2; [|destruct Hb2 as [Hb2 _]; specialize (Hb2 eq_refl); unfold bytes_per_gb in *; lia].
      cbn [negb]. rewrite for_datasets_units. reflexivity.
Qed.



End SweepFacts.

(** ** Checkpoint store *)

Section CheckpointFacts.
Import Checkpoint.

Lemma path_eqb_refl (p : path) : path_eqb p p = true.
Proof. unfold path_eqb. now rewrite !String.eqb_refl. Qed.

Lemma lookup_update_same (fs : list (path * file)) (p : path) (f : file) :
  lookup (update fs p f) p = Some f.
Proof.
  induction fs as [|[q g] rest IH]; simpl.
  - now rewrite path_eqb_refl.
  - destruct (path_eqb q p) eqn:E; simpl; rewrite E; [reflexivity | exact IH].
Qed.

Lemma exec_app (xs ys : list step) (d : disk) :
  exec (xs ++ ys) d = exec ys (exec xs d).
Proof. unfold exec. apply fold_left_app. Qed.

Lemma string_of_snoc (l : list ascii) (b : ascii) :
  string_of_list_ascii (l ++ [b]) =
  (string_of_list_ascii l ++ String b EmptyString)%string.
Proof. induction l as [|a l IH]; simpl; [reflexivity | now rewrite IH]. Qed.

(** Writing bytes one by one into an open file appends them. *)
Lemma exec_write_bytes (p : path) (bs : list ascii) :
  forall (d : disk) (f : file),
    lookup (files d) p = Some f ->
    read (exec (map (WriteByte p) bs) d) p =
    Some (content f ++ string_of_list_ascii bs)%string.
Proof.
  induction bs as [|b bs IH] using rev_ind; intros d f Hf.
  - simpl. unfold read. rewrite Hf. simpl. now rewrite append_nil_r.
  - rewrite map_app, exec_app. simpl map. unfold exec at 1. simpl fold_left.
    specialize (IH d f Hf). unfold read in IH.
    set (d1 := exec (map (WriteByte p) bs) d) in *.
    destruct (lookup (files d1) p) as [g|] eqn:Eg; [|discriminate].
    simpl in IH. injection IH as IH.
    unfold read. simpl files.
    rewrite lookup_update_same. simpl. rewrite IH, string_of_snoc.
    now rewrite append_assoc.
Qed.

Lemma exec_mkdir_files (dir : string) (d : disk) :
  files (exec1 (Mkdir dir) d) = files d /\ clock (exec1 (Mkdir dir) d) = clock d.
Proof. simpl. destruct (existsb _ _); split; reflexivity. Qed.

Lemma firstn_map_write (p : path) (j : nat) (bs : list ascii) :
  firstn j (map (WriteByte p) bs) = map (WriteByte p) (firstn j bs).
Proof. apply firstn_map. Qed.

(** C3 (as stated).  The write is not atomic: stopping [save_checkpoint]
    after its third primitive step leaves one byte of a two-byte record at
    the very path [load_checkpoint] reads. *)
Lemma save_checkpoint_partial_file_counterexample :
  ~ (forall (dumps : Py.value -> string) (record : Py.value)
            (checkpoint_dir filename : string) (d : disk),
        atomic_save dumps record checkpoint_dir filename d).
Proof.
  intros H.
  specialize (H (fun _ => "PK"%string) Py.VNone "ckpt"%string
                "checkpoint_epoch_1.pth"%string (mkDisk [] [] 0) 3%nat).
  vm_compute in H. destruct H as [H | [H | H]]; discriminate.
Qed.

(** C3 (amended).  [save_checkpoint] streams the record straight into
    [checkpoint_dir/filename]: a save that runs to the end leaves the
    complete record there, which is what [load_checkpoint] then reads, and
    it returns that path; a save stopped after [j] bytes leaves exactly the
    first [j] bytes of the record at that same path. *)
Theorem save_checkpoint_writes_in_place
    (dumps : Py.value -> string) (loads : string -> result Py.value)
    (record : Py.value) (checkpoint_dir filename : string) (d : disk) (j : nat) :
  (j <= String.length (dumps record))%nat ->
  let p := (checkpoint_dir, filename) in
  let bytes := list_ascii_of_string (dumps record) in
  read (save_interrupted dumps (2 + j) record checkpoint_dir filename d) p =
    Some (string_of_list_ascii (firstn j bytes)) /\
  save_checkpoint dumps record checkpoint_dir filename false d =
    (save_interrupted dumps (2 + List.length bytes) record checkpoint_dir filename d, p) /\
  read (fst (save_checkpoint dumps record checkpoint_dir filename false d)) p =
    Some (dumps record) /\
  load_checkpoint loads p
    (fst (save_checkpoint dumps record checkpoint_dir filename false d)) =
    loads (dumps record).
Proof.
  intros Hj p bytes.
  assert (Hpre : forall i : nat,
             read (save_interrupted dumps (2 + i) record checkpoint_dir filename d) p =
             Some (string_of_list_ascii (firstn i bytes))).
  { intros i. unfold save_interrupted, save_steps, torch_save. fold p. fold bytes.
    simpl firstn. rewrite firstn_map_write.
    change (Mkdir checkpoint_dir :: OpenWrite p :: map (WriteByte p) (firstn i bytes))
      with ([Mkdir checkpoint_dir; OpenWrite p] ++ map (WriteByte p) (firstn i bytes)).
    rewrite exec_app.
    rewrite (exec_write_bytes p (firstn i bytes) _ (mkFile "" (clock d))).
    - reflexivity.
    - unfold exec. cbn [fold_left].
      destruct (exec_mkdir_files checkpoint_dir d) as [_ Hc].
      set (d0 := exec1 (Mkdir checkpoint_dir) d) in *.
      cbn [exec1 files]. rewrite lookup_update_same, Hc. reflexivity. }
  assert (Hfull : save_checkpoint dumps record checkpoint_dir filename false d =
                  (save_interrupted dumps (2 + List.length bytes) record
                     checkpoint_dir filename d, p)).
  { unfold save_checkpoint, save_interrupted. f_equal. f_equal.
    symmetry. apply firstn_all2. unfold save_steps, torch_save. fold bytes.
    simpl. rewrite length_map. lia. }
  split; [apply Hpre|]. split; [exact Hfull|].
  assert (Hread : read (fst (save_checkpoint dumps record checkpoint_dir filename false d)) p =
                  Some (dumps record)).
  { rewrite Hfull. cbn [fst]. rewrite Hpre, firstn_all.
    unfold bytes. now rewrite string_of_list_ascii_of_string. }
  split; [exact Hread|].
  unfold load_checkpoint. now rewrite Hread.
Qed.

Lemma save_checkpoint_writes_in_place_witness :
  let dumps := fun v : Py.value =>
                 match v with Py.VInt 3 => "PK-epoch-3" | _ => "PK" end%string in
  let d := Checkpoint.save_interrupted dumps 6 (Py.VInt 3) "ckpt" "best.pth"
             (mkDisk [] [] 0) in
  read d ("ckpt", "best.pth")%string = Some "PK-e"%string.
Proof.
  intros dumps d.
  pose proof (save_checkpoint_writes_in_place dumps (fun _ => Ok Py.VNone)
                (Py.VInt 3) "ckpt" "best.pth" (mkDisk [] [] 0) 4
                ltac:(vm_compute; lia)) as H.
  cbv zeta in H. destruct H as (H & _). exact H.
Defined.

End CheckpointFacts.

(** ** Rerun planner *)

Section RerunFacts.
Import Rerun.

Variable experiment_dir : string.
Variable root : node.

Lemma checked_inv_nil : (checked_inv experiment_dir root) [].
Proof. intros pre e post H. destruct pre; discriminate. Qed.

Lemma checked_inv_snoc (acc : list entry) (x : entry) :
  (checked_inv experiment_dir root) acc ->
  covered experiment_dir root acc (fst x) = false \/ unchecked root (fst x) ->
  (checked_inv experiment_dir root) (acc ++ [x]).
Proof.
  intros Hacc Hx pre e post E Hc.
  destruct post as [|y post' _] using rev_ind.
  - apply app_inj_tail in E. destruct E as [-> ->].
    destruct Hx as [Hx | Hx]; [congruence | exact Hx].
  - rewrite app_comm_cons, app_assoc in E.
    apply app_inj_tail in E. destruct E as [E _].
    exact (Hacc pre e post' E Hc).
Qed.

Lemma checked_inv_add_all (ps : list segs) :
  (forall p, In p ps -> unchecked root p) ->
  forall acc, (checked_inv experiment_dir root) acc -> (checked_inv experiment_dir root) (add_all ps acc).
Proof.
  unfold add_all. induction ps as [|p ps IH]; intros Hps acc Hacc; simpl.
  - exact Hacc.
  - apply IH.
    + intros q Hq. apply Hps. now right.
    + apply checked_inv_snoc; [exact Hacc | right; apply Hps; now left].
Qed.

Lemma checked_inv_add_unless_covered (ps : list segs) :
  forall acc, (checked_inv experiment_dir root) acc ->
              (checked_inv experiment_dir root) (add_unless_covered experiment_dir root ps acc).
Proof.
  unfold add_unless_covered. induction ps as [|p ps IH]; intros acc Hacc; simpl.
  - exact Hacc.
  - apply IH. destruct (covered experiment_dir root acc p) eqn:E.
    + exact Hacc.
    + apply checked_inv_snoc; [exact Hacc | left; exact E].
Qed.

Lemma checked_inv_model_section (models : list string) :
  forall acc, (checked_inv experiment_dir root) acc ->
              (checked_inv experiment_dir root) (model_section experiment_dir root models acc).
Proof.
  unfold model_section. induction models as [|m ms IH]; intros acc Hacc; simpl.
  - exact Hacc.
  - apply IH. apply checked_inv_add_unless_covered.
    apply checked_inv_add_all; [|exact Hacc].
    intros p Hp. left. exact Hp.
Qed.

Lemma checked_inv_cv_section (models : list string) (acc : list entry) :
  (checked_inv experiment_dir root) acc -> (checked_inv experiment_dir root) (cv_section experiment_dir root models acc).
Proof.
  intros Hacc. unfold cv_section.
  assert (H1 : (checked_inv experiment_dir root)
                 (if exists_ root cv_dir
                  then if nonempty models
                       then fold_left
                              (fun acc0 model =>
                                 add_unless_covered experiment_dir root
                                   (glob_json root cv_dir model)
                                   (add_unless_covered experiment_dir root
                                      (glob_named root cv_dir model) acc0))
                              models acc
                       else acc ++ [(cv_dir, "cross_validation"%string)]
                  else acc)).
  { destruct (exists_ root cv_dir); [|exact Hacc].
    destruct (nonempty models).
    - revert acc Hacc. induction models as [|m ms IH]; intros acc Hacc; simpl.
      + exact Hacc.
      + apply IH. now do 2 apply checked_inv_add_unless_covered.
    - apply checked_inv_snoc; [exact Hacc | right; right; left; reflexivity]. }
  destruct (exists_ root cv_report_path); [|exact H1].
  apply checked_inv_snoc; [exact H1 | right; right; right; left; reflexivity].
Qed.

Lemma checked_inv_hyperopt_section (models : list string) (acc : list entry) :
  (checked_inv experiment_dir root) acc ->
  (checked_inv experiment_dir root) (hyperopt_section experiment_dir root models acc).
Proof.
  intros Hacc. unfold hyperopt_section.
  destruct (exists_ root hyperopt_dir); [|exact Hacc].
  destruct (nonempty models).
  - revert acc Hacc. induction models as [|m ms IH]; intros acc Hacc; simpl.
    + exact Hacc.
    + apply IH. now apply checked_inv_add_unless_covered.
  - apply checked_inv_snoc; [exact Hacc | right; right; right; right; reflexivity].
Qed.

Lemma checked_inv_plan (models : list string) (cv hy : bool) :
  (checked_inv experiment_dir root) (plan experiment_dir root models cv hy).
Proof.
  unfold plan.
  pose proof (checked_inv_model_section models [] checked_inv_nil) as H1.
  assert (H2 : (checked_inv experiment_dir root)
                 (if cv
                  then cv_section experiment_dir root models
                         (model_section experiment_dir root models [])
                  else model_section experiment_dir root models [])).
  { destruct cv; [now apply checked_inv_cv_section | exact H1]. }
  destruct hy; [now apply checked_inv_hyperopt_section | exact H2].
Qed.

Lemma prefix_append (a b : string) : String.prefix a (a ++ b) = true.
Proof.
  induction a as [|x a IH]; simpl; [destruct b; reflexivity|].
  destruct (ascii_dec x x); [exact IH | congruence].
Qed.

Lemma rel_app (p rest : segs) :
  exists tail, rel (p ++ rest) = (rel p ++ tail)%string.
Proof.
  unfold rel. induction p as [|x p IH]; simpl.
  - exists (String.concat "/" rest). reflexivity.
  - destruct p as [|y p]; simpl in *.
    + destruct rest as [|r rest].
      * exists ""%string. now rewrite append_nil_r.
      * exists ("/" ++ String.concat "/" (r :: rest))%string. reflexivity.
    + destruct IH as [tail IH]. exists tail.
      rewrite IH. now rewrite !append_assoc.
Qed.

Lemma descendant_prefix (q p : segs) :
  descendant q p ->
  String.prefix (str experiment_dir p) (str experiment_dir q) = true.
Proof.
  intros (rest & _ & ->). unfold str.
  destruct (rel_app p rest) as [tail ->].
  rewrite <- !append_assoc. apply prefix_append.
Qed.

(** C5 (amended).  In every plan, an entry other than the ones appended
    without the check (the architecture directories found by the first
    search, the whole [cross_validation] and [hyperparameter_optimization]
    directories and the cross-validation report) has a path string that
    does not start with the path string of any directory selected before
    it; in particular it is not a descendant of a directory selected
    before it. *)
Theorem rerun_plan_checked_entries (models : list string) (cv hy : bool)
    (pre post : list entry) (e : entry) :
  plan experiment_dir root models cv hy = pre ++ e :: post ->
  ~ unchecked root (fst e) ->
  covered experiment_dir root pre (fst e) = false /\
  (forall e', In e' pre -> is_dir root (fst e') = true ->
              ~ descendant (fst e) (fst e')).
Proof.
  intros Hplan Hun.
  assert (Hc : covered experiment_dir root pre (fst e) = false).
  { destruct (covered experiment_dir root pre (fst e)) eqn:E; [|reflexivity].
    exfalso. apply Hun.
    exact (checked_inv_plan models cv hy pre e post Hplan E). }
  split; [exact Hc|].
  intros e' Hin Hdir Hdesc.
  apply descendant_prefix in Hdesc.
  unfold covered in Hc.
  assert (Ht : existsb
                 (fun e0 => is_dir root (fst e0) &&
                            String.prefix (str experiment_dir (fst e0))
                                          (str experiment_dir (fst e)))
                 pre = true).
  { apply existsb_exists. exists e'. split; [exact Hin|].
    now rewrite Hdir, Hdesc. }
  congruence.
Qed.

End RerunFacts.

(** C4, at a failing input.  The first search of the model section looks
    for the literal name "siamese" whatever architecture is requested:
    asked to rerun "cnn", the plan leaves the directory
    [enhanced_preprocessing/dataset1/cnn] out and selects
    [enhanced_preprocessing/dataset1/siamese] instead.  And asked to rerun
    "siamese", the plan leaves out [siamese_summary.json], which lies
    beside the selected directory, not inside it, because the check is a
    comparison of path strings. *)
Theorem rerun_plan_searches_literal_siamese :
  Rerun.is_dir Rerun.sweep_tree_cnn_and_siamese
    ["enhanced_preprocessing"; "dataset1"; "cnn"]%string = true /\
  Rerun.plan "outputs/exp" Rerun.sweep_tree_cnn_and_siamese ["cnn"%string] false false =
    [(["enhanced_preprocessing"; "dataset1"; "siamese"],
      "enhanced_preprocessing/dataset1/siamese")]%string /\
  Rerun.plan "outputs/exp" Rerun.sweep_tree_cnn_and_siamese ["siamese"%string] false false =
    [(["enhanced_preprocessing"; "dataset1"; "siamese"],
      "enhanced_preprocessing/dataset1/siamese")]%string.
Proof. repeat split; vm_compute; reflexivity. Qed.

(** C5 (as stated).  A result file whose name contains two requested
    architecture names is selected once for each, and a directory found
    by the first search inside another one it found is selected after
    it. *)
Lemma rerun_plan_overlap_counterexample :
  ~ Rerun.no_overlap
      (Rerun.plan "outputs/exp" Rerun.sweep_tree_comparison_file
                  ["cnn"; "baseline"]%string false false) /\
  ~ Rerun.no_overlap
      (Rerun.plan "outputs/exp" Rerun.sweep_tree_nested ["siamese"%string] false false).
Proof.
  split.
  - intros [Hnd _]. vm_compute in Hnd.
    inversion Hnd as [|x l Hn _]; subst. apply Hn. left. reflexivity.
  - intros [_ Hd]. vm_compute in Hd.
    refine (Hd [(["enhanced_preprocessing"; "siamese"],
                 "enhanced_preprocessing/siamese")]%string
               (["enhanced_preprocessing"; "siamese"; "dataset1"; "siamese"],
                "enhanced_preprocessing/siamese/dataset1/siamese")%string
               [] eq_refl _ (or_introl eq_refl) _).
    exists ["dataset1"; "siamese"]%string. split; [discriminate | reflexivity].
Qed.

Lemma rerun_plan_checked_entries_witness :
  Rerun.covered "outputs/exp" Rerun.sweep_tree_cnn_and_siamese
    [(["enhanced_preprocessing"; "dataset1"; "siamese"],
      "enhanced_preprocessing/dataset1/siamese")]%string
    ["enhanced_preprocessing"; "dataset1"; "cnn"; "results.json"]%string = false.
Proof.
  refine (proj1 (rerun_plan_checked_entries "outputs/exp"
                   Rerun.sweep_tree_cnn_and_siamese ["res"%string] false false
                   [(["enhanced_preprocessing"; "dataset1"; "siamese"],
                     "enhanced_preprocessing/dataset1/siamese")]%string
                   []
                   (["enhanced_preprocessing"; "dataset1"; "cnn"; "results.json"],
                    "enhanced_preprocessing/dataset1/cnn/results.json")%string
                   _ _)).
  - vm_compute. reflexivity.
  - intros [H | [H | [H | H]]].
    + vm_compute in H. destruct H as [H | H]; [discriminate | exact H].
    + discriminate.
    + discriminate.
    + discriminate.
Defined.

(** ** Cross-validation runner *)

Section CrossValidationFacts.
Import CrossValidation.

Lemma run_folds_successes (model_type : string) (fs : bool)
    (train : nat -> Z -> bool -> result Py.value) (seed : Z) (l : list nat) :
  String.eqb model_type "siamese" = false ->
  forall acc,
    fold_left (run_fold model_type (Some fs) train seed) l acc =
    acc ++ successes (map (fun i => train i (seed + Z.of_nat i) (negb fs)) l).
Proof.
  intros Hm. induction l as [|i l IH]; intros acc; simpl.
  - now rewrite app_nil_r.
  - rewrite IH. unfold run_fold. simpl.
    destruct (train i (seed + Z.of_nat i) (negb fs)) as [r | e].
    + rewrite Hm, <- app_assoc. reflexivity.
    + reflexivity.
Qed.

Lemma run_folds_unbound (model_type : string)
    (train : nat -> Z -> bool -> result Py.value) (seed : Z) (l : list nat) :
  forall acc, fold_left (run_fold model_type None train seed) l acc = acc.
Proof. induction l as [|i l IH]; intros acc; simpl; [reflexivity | apply IH]. Qed.

Lemma dict_get_numeric (ms : list (string * Py.value)) (m : string) (v : Py.value) :
  forallb (fun e => numeric (snd e)) ms = true ->
  Py.dict_get ms m = Some v -> numeric v = true.
Proof.
  induction ms as [|[k w] ms IH]; simpl; [discriminate|].
  intros H. apply andb_true_iff in H. destruct H as [Hw Hms].
  destruct (String.eqb k m); [|now apply IH].
  intros E. injection E as <-. exact Hw.
Qed.

Lemma contribution_dict (metric : string) (d ms : list (string * Py.value))
    (tl : list Py.value) :
  Py.dict_get d "test_metrics" = Some (Py.VList (Py.VDict ms :: tl)) ->
  forallb (fun e => numeric (snd e)) ms = true ->
  contribution metric (Py.VDict d) =
  match Py.dict_get ms metric with
  | Some (Py.VInt z) => inject_Z z
  | Some (Py.VFloat q) => q
  | Some (Py.VBool true) => 1%Q
  | _ => 0%Q
  end.
Proof.
  intros Et Ef. unfold contribution, summary_metrics. rewrite Et, Ef. reflexivity.
Qed.

(** What a well-formed summary contributes to the list of values of a
    metric. *)
Lemma collect_well_formed (metric : string) (rs : list Py.value) :
  Forall well_formed rs ->
  exists vs, collect metric rs = Ok vs /\
             numbers vs = Ok (map (contribution metric) rs).
Proof.
  induction 1 as [|r rs Hr _ IH].
  - exists []. split; reflexivity.
  - destruct IH as (vs & Hc & Hn).
    unfold well_formed in Hr.
    destruct (summary_metrics r) as [ms|] eqn:Es; [|congruence].
    unfold summary_metrics in Es.
    destruct r as [| | | | | |d]; try discriminate.
    destruct (Py.dict_get d "test_metrics") as [tm|] eqn:Et; [|discriminate].
    destruct tm as [| | | | |tl|]; try discriminate.
    destruct tl as [|first tl]; [discriminate|].
    destruct first as [| | | | | |ms']; try discriminate.
    destruct (forallb (fun e => numeric (snd e)) ms') eqn:Ef; [|discriminate].
    injection Es as <-.
    cbn [collect map]. rewrite (contribution_dict metric d ms' tl Et Ef).
    unfold Py.py_in, Py.dict_has, Py.getitem. rewrite Et.
    cbn [bind Py.truthy Py.getitem0 Py.get]. rewrite Hc.
    destruct (Py.dict_get ms' metric) as [v|] eqn:Ev; cbn [bind].
    + exists (v :: vs). split; [reflexivity|]. cbn [numbers].
      pose proof (dict_get_numeric ms' metric v Ef Ev) as Hv.
      destruct v as [|[|]| | | | |]; try discriminate;
        cbn [as_number bind]; rewrite Hn; reflexivity.
    + exists (Py.VInt 0 :: vs). split; [reflexivity|].
      cbn [numbers as_number bind]. rewrite Hn. reflexivity.
Qed.

Lemma aggregate_metrics_well_formed (ms : list string) (r : Py.value)
    (rs : list Py.value) :
  Forall well_formed (r :: rs) ->
  aggregate_metrics ms (r :: rs) =
  Ok (map (fun m => (m, (mean (map (contribution m) (r :: rs)),
                         std_squared (map (contribution m) (r :: rs))))) ms).
Proof.
  intros Hwf. induction ms as [|m ms IH]; [reflexivity|].
  cbn [aggregate_metrics map].
  destruct (collect_well_formed m (r :: rs) Hwf) as (vs & Hc & Hn).
  rewrite Hc. cbn [bind].
  destruct vs as [|v vs]; [simpl in Hn; discriminate|].
  rewrite Hn. cbn [bind]. rewrite IH. reflexivity.
Qed.

(** In the module as it is written [fresh_start] is unbound: every fold
    raises inside its [try] and the function returns [None]. *)
Lemma cross_validation_unbound_fresh_start (model_type : string)
    (train : nat -> Z -> bool -> result Py.value) (n : nat) (seed : Z) :
  run_cross_validation_for_model model_type true None train n seed = Ok None.
Proof.
  unfold run_cross_validation_for_model. cbn [negb].
  now rewrite run_folds_unbound.
Qed.


End CrossValidationFacts.



(** ** Configuration store: version strings *)

Section VersionFacts.
Import Config.

Lemma num_char_not_space (c : ascii) :
  is_num_char c = true -> is_space c = false /\ Ascii.eqb c "." = false /\
                          Ascii.eqb c "_" = false /\ Ascii.eqb c "+" = false.
Proof.
  destruct c as [[|] [|] [|] [|] [|] [|] [|] [|]];
    intros H; try discriminate H; repeat split; reflexivity.
Qed.

Lemma all_chars_impl (P Q : ascii -> bool) (s : string) :
  (forall c, P c = true -> Q c = true) ->
  all_chars P s = true -> all_chars Q s = true.
Proof.
  intros HPQ. induction s as [|c s IH]; simpl; [reflexivity|].
  intros H. apply andb_true_iff in H. destruct H as [Hc Hs].
  now rewrite (HPQ c Hc), IH.
Qed.

Lemma all_chars_app (P : ascii -> bool) (a b : string) :
  all_chars P (a ++ b) = all_chars P a && all_chars P b.
Proof.
  induction a as [|c a IH]; simpl; [reflexivity|].
  now rewrite IH, andb_assoc.
Qed.

Lemma rstrip_no_space (s : string) :
  all_chars (fun c => negb (is_space c)) s = true -> rstrip s = s.
Proof.
  induction s as [|c s IH]; simpl; [reflexivity|].
  intros H. apply andb_true_iff in H. destruct H as [Hc Hs].
  rewrite (IH Hs). destruct s; [|reflexivity].
  apply negb_true_iff in Hc. now rewrite Hc.
Qed.

Lemma lstrip_no_space (s : string) :
  all_chars (fun c => negb (is_space c)) s = true -> lstrip s = s.
Proof.
  destruct s as [|c s]; simpl; [reflexivity|].
  intros H. apply andb_true_iff in H. destruct H as [Hc _].
  apply negb_true_iff in Hc. now rewrite Hc.
Qed.

Lemma string_of_uint_num_chars (u : Decimal.uint) :
  all_chars is_num_char (DecimalString.NilEmpty.string_of_uint u) = true.
Proof. induction u; simpl; try reflexivity; exact IHu. Qed.

Lemma py_digits_string_of_uint (u : Decimal.uint) :
  forall b : bool,
    b = true \/ u <> Decimal.Nil ->
    py_digits b (DecimalString.NilEmpty.string_of_uint u) = Some u.
Proof.
  induction u; intros b Hb; simpl;
    try (rewrite IHu by (now left); reflexivity).
  destruct Hb as [-> | Hb]; [reflexivity | congruence].
Qed.

Lemma str_of_Z_num_chars (z : Z) : all_chars is_num_char (str_of_Z z) = true.
Proof.
  unfold str_of_Z. destruct z; simpl; try reflexivity;
    apply string_of_uint_num_chars.
Qed.

Lemma first_char_of_uint (u : Decimal.uint) :
  u <> Decimal.Nil ->
  exists c rest,
    DecimalString.NilEmpty.string_of_uint u = String c rest /\
    Ascii.eqb c "-" = false /\ Ascii.eqb c "+" = false.
Proof.
  destruct u; intros H; try congruence; simpl;
    eexists; eexists; repeat split; reflexivity.
Qed.

(** Reading back a printed integer. *)
Lemma py_int_str_of_Z (z : Z) : py_int (str_of_Z z) = Ok z.
Proof.
  unfold py_int.
  assert (Hns : all_chars (fun c => negb (is_space c)) (str_of_Z z) = true).
  { apply (all_chars_impl is_num_char); [|apply str_of_Z_num_chars].
    intros c Hc. destruct (num_char_not_space c Hc) as [-> _]. reflexivity. }
  rewrite (rstrip_no_space _ Hns), (lstrip_no_space _ Hns).
  unfold str_of_Z. destruct z as [|p|p]; [reflexivity | |].
  - cbn [Z.to_int DecimalString.NilEmpty.string_of_int].
    pose proof (DecimalPos.Unsigned.to_uint_nonnil p) as Hnn.
    destruct (first_char_of_uint _ Hnn) as (c & rest & E & Hm & Hp).
    rewrite E, Hm, Hp, <- E.
    rewrite py_digits_string_of_uint by (now right).
    f_equal. unfold Z.of_uint. rewrite DecimalPos.Unsigned.of_to. reflexivity.
  - cbn [Z.to_int DecimalString.NilEmpty.string_of_int].
    change (Ascii.eqb "-" "-") with true. cbn iota.
    pose proof (DecimalPos.Unsigned.to_uint_nonnil p) as Hnn.
    rewrite py_digits_string_of_uint by (now right).
    f_equal. unfold Z.of_uint. rewrite DecimalPos.Unsigned.of_to. reflexivity.
Qed.

Lemma split_no_sep (a : string) :
  all_chars (fun c => negb (Ascii.eqb c ".")) a = true ->
  split "." a = [a].
Proof.
  induction a as [|c a IH]; simpl; [reflexivity|].
  intros H. apply andb_true_iff in H. destruct H as [Hc Ha].
  apply negb_true_iff in Hc. rewrite Hc, (IH Ha). reflexivity.
Qed.

Lemma split_app_sep (a rest : string) :
  all_chars (fun c => negb (Ascii.eqb c ".")) a = true ->
  split "." (a ++ String "." rest) = a :: split "." rest.
Proof.
  induction a as [|c a IH]; simpl; [reflexivity|].
  intros H. apply andb_true_iff in H. destruct H as [Hc Ha].
  apply negb_true_iff in Hc. rewrite Hc, (IH Ha). reflexivity.
Qed.

Lemma str_of_Z_no_dot (z : Z) :
  all_chars (fun c => negb (Ascii.eqb c ".")) (str_of_Z z) = true.
Proof.
  apply (all_chars_impl is_num_char); [|apply str_of_Z_num_chars].
  intros c Hc. destruct (num_char_not_space c Hc) as (_ & -> & _). reflexivity.
Qed.

(** A formatted version reads back as its three numbers. *)
Lemma parse_format_version (major minor patch : Z) :
  parse_version (Py.VStr (format_version major minor patch)) =
  Ok (major, minor, patch).
Proof.
  unfold parse_version, format_version.
  change ("." ++ str_of_Z minor ++ "." ++ str_of_Z patch)%string
    with (String "." (str_of_Z minor ++ String "." (str_of_Z patch))).
  rewrite split_app_sep by apply str_of_Z_no_dot.
  rewrite split_app_sep by apply str_of_Z_no_dot.
  rewrite split_no_sep by apply str_of_Z_no_dot.
  cbn [firstn ints]. rewrite !py_int_str_of_Z. reflexivity.
Qed.

End VersionFacts.

(** ** Configuration store: versions and history *)

Section ConfigHistoryFacts.
Import Config.

(** The serialized state has one history item and one version item, which
    hold the attributes. *)
Lemma to_dict_pairs_items (E : env) (c : t) (d : list (string * Py.value)) :
  to_dict_pairs E c = Ok d ->
  Py.dict_get (Py.dict_pop d "config_history") "config_history" = None /\
  Py.dict_get d "config_history" = Some (config_history c) /\
  Py.dict_get (Py.dict_pop d "config_history") "config_version" =
    Some (config_version c) /\
  Py.dict_get (Py.dict_pop d "config_history") "created_at" =
    Some (created_at c).
Proof.
  intros H. destruct c. unfold to_dict_pairs in H. cbn [Config.dataset Config.model_architecture bind] in H.
  destruct (enum_value Dataset_value dataset0) as [dv|]; [|discriminate].
  cbn [bind] in H.
  destruct (model_architecture_to_value model_architecture0) as [mv|]; [|discriminate].
  cbn [bind] in H.
  destruct (Config.preprocessing_config _) as [pc|]; [destruct (pc_truthy E pc)|];
    injection H as <-; repeat split; reflexivity.
Qed.


End ConfigHistoryFacts.


(** ** Configuration store: serialization *)

Section ConfigRoundTripFacts.
Import Config.

Variable E : env.

Lemma init_dataset_value (e : Dataset) :
  init_dataset (Raw (Py.VStr (Dataset_value e))) = Ok (Enum e).
Proof. destruct e; reflexivity. Qed.

Lemma init_model_architecture_value (x : efield ModelArchitecture) (v : Py.value) :
  model_architecture_to_value x = Ok v ->
  init_model_architecture (Raw v) = Ok x.
Proof.
  destruct x as [e | w]; simpl.
  - intros [= <-]. destruct e; reflexivity.
  - destruct w; simpl; try discriminate. intros [= <-]. reflexivity.
Qed.

Lemma init_lr_scheduler_type_value (x : efield LRSchedulerType) :
  not_str x ->
  init_lr_scheduler_type (Raw (value_or_raw LRSchedulerType_value x)) = ret x.
Proof.
  destruct x as [e | w]; simpl.
  - intros _. destruct e; reflexivity.
  - destruct w; simpl; try reflexivity. contradiction.
Qed.

Lemma init_evaluation_mode_value (x : efield EvaluationMode) :
  not_str x ->
  init_evaluation_mode (Raw (value_or_raw EvaluationMode_value x)) = Ok x.
Proof.
  destruct x as [e | w]; simpl.
  - intros _. destruct e; reflexivity.
  - destruct w; simpl; try reflexivity. contradiction.
Qed.

Lemma init_tracker_type_value (x : efield TrackerType) :
  not_str x ->
  init_tracker_type (Raw (value_or_raw TrackerType_value x)) = ret x.
Proof.
  destruct x as [e | w]; simpl.
  - intros _. destruct e; reflexivity.
  - destruct w; simpl; try reflexivity. contradiction.
Qed.

Lemma init_results_dir_path (id : Py.value) (p : Path) :
  path_str p <> EmptyString ->
  normpath E (path_str p) = path_str p ->
  init_results_dir E id (Py.VStr (path_str p)) = Ok p.
Proof.
  intros Hne Hn. unfold init_results_dir. simpl.
  destruct (String.eqb_spec (path_str p) ""); [contradiction|].
  simpl. rewrite Hn. destruct p; reflexivity.
Qed.

Lemma or_else_truthy (x y : Py.value) : Py.truthy x = true -> or_else x y = x.
Proof. unfold or_else. now intros ->. Qed.

Lemma or_else_empty_dict (x : Py.value) :
  truthy_or_empty_dict x -> or_else x (Py.VDict []) = x.
Proof. intros [H | ->]; [now apply or_else_truthy | reflexivity]. Qed.

(** [__init__] when none of its conversions raises: the object it leaves
    and the warnings it logs. *)
Lemma init_ok (a : args) (ds : efield Dataset) (ma : efield ModelArchitecture)
    (rd : Path) (lr : efield LRSchedulerType) (ev : efield EvaluationMode)
    (tr : efield TrackerType) (wl wt : list string) :
  init_dataset (arg_dataset a) = Ok ds ->
  init_model_architecture (arg_model_architecture a) = Ok ma ->
  init_results_dir E (or_else (arg_experiment_id a) (Py.VStr (uuid8 E)))
                   (arg_results_dir a) = Ok rd ->
  init_lr_scheduler_type (arg_lr_scheduler_type a) = (wl, Ok lr) ->
  init_evaluation_mode (arg_evaluation_mode a) = Ok ev ->
  init_tracker_type (arg_tracker_type a) = (wt, Ok tr) ->
  init E a =
  (wl ++ wt,
   Ok (build E a (or_else (arg_experiment_id a) (Py.VStr (uuid8 E)))
             ds ma rd lr ev tr)).
Proof.
  intros Hds Hma Hrd Hlr Hev Htr. unfold init.
  rewrite Hds, Hma, Hrd, Hlr, Hev, Htr.
  unfold lift, ret. cbn [lbind app].
  rewrite !app_nil_r. reflexivity.
Qed.

(** [from_dict] on a dict, once the preprocessing item (if any) is read
    and [__init__] has returned. *)
Lemma from_dict_dict (d : list (string * Py.value))
    (pc : option PreprocessingConfig) (config : t) (w : list string) :
  match Py.dict_get d "preprocessing_config" with
  | Some v => exists p, pc_from_dict E v = Ok p /\ pc = Some p
  | None => pc = None
  end ->
  init E (from_dict_args d pc) = (w, Ok config) ->
  from_dict E (Py.VDict d) =
  (w, Ok (let config1 :=
            if Py.dict_has d "created_at"
            then set_created_at config (dget d "created_at" Py.VNone)
            else config in
          if Py.dict_has d "config_history"
          then set_config_history config1 (dget d "config_history" Py.VNone)
          else config1)).
Proof.
  intros Hpc Hinit. unfold from_dict, Py.py_in, Py.getitem.
  unfold Py.dict_has at 1.
  destruct (Py.dict_get d "preprocessing_config") as [v|].
  - destruct Hpc as (p & Hp & ->).
    unfold lift, ret. cbn [lbind bind]. rewrite Hp. cbn [lbind bind].
    rewrite Hinit. cbn [lbind app]. rewrite ?app_nil_r. reflexivity.
  - subst pc. unfold lift, ret. cbn [lbind bind]. rewrite Hinit.
    cbn [lbind app]. rewrite ?app_nil_r. reflexivity.
Qed.

Lemma from_dict_to_dict (c : t) :
  valid E c ->
  exists d, to_dict E c = Ok d /\ from_dict E d = ([], Ok c).
Proof.
  intros (Hid & [e He] & Harch & Hlr & Hev & Htr & Hrd & Hnorm & Hpar & Htags & Hpc).
  destruct c.
  cbn [Config.experiment_id Config.dataset Config.model_architecture
       Config.lr_scheduler_type Config.evaluation_mode Config.tracker_type
       Config.results_dir Config.lr_scheduler_params Config.tracking_tags
       Config.preprocessing_config] in *.
  subst dataset0.
  unfold to_dict, to_dict_pairs.
  cbn [Config.dataset Config.model_architecture enum_value bind].
  destruct (model_architecture_to_value model_architecture0) as [mv|] eqn:Emv;
    [|destruct model_architecture0 as [?|[]]; simpl in *; try discriminate; contradiction].
  cbn [bind].
  pose proof (init_model_architecture_value _ _ Emv) as Hma.
  pose proof (init_lr_scheduler_type_value _ Hlr) as Hlr'.
  pose proof (init_evaluation_mode_value _ Hev) as Hev'.
  pose proof (init_tracker_type_value _ Htr) as Htr'.
  pose proof (init_results_dir_path experiment_id0 _ Hrd Hnorm) as Hrd'.
  pose proof (or_else_truthy experiment_id0 (Py.VStr (uuid8 E)) Hid) as Hid'.
  pose proof (or_else_empty_dict _ Hpar) as Hpar'.
  pose proof (or_else_empty_dict _ Htags) as Htags'.
  pose proof (init_dataset_value e) as Hds.
  destruct preprocessing_config0 as [pc|].
  - destruct Hpc as [Hpt Hpr]. cbn [Config.preprocessing_config]. rewrite Hpt.
    eexists. split; [reflexivity|].
    match goal with
    | |- from_dict E (Py.VDict ?d) = _ =>
        rewrite (from_dict_dict d (Some pc) _ []
                   ltac:(exists pc; split; [exact Hpr | reflexivity])
                   (init_ok (from_dict_args d (Some pc)) _ _ _ _ _ _ [] []
                      Hds Hma
                      ltac:(cbv -[or_else init_results_dir uuid8 path_str];
                            rewrite Hid'; exact Hrd')
                      Hlr' Hev' Htr'))
    end.
    f_equal. f_equal.
    cbv -[or_else uuid8 now_iso]. rewrite Hid', Hpar', Htags'. reflexivity.
  - cbn [Config.preprocessing_config].
    eexists. split; [reflexivity|].
    match goal with
    | |- from_dict E (Py.VDict ?d) = _ =>
        rewrite (from_dict_dict d None _ [] eq_refl
                   (init_ok (from_dict_args d None) _ _ _ _ _ _ [] []
                      Hds Hma
                      ltac:(cbv -[or_else init_results_dir uuid8 path_str];
                            rewrite Hid'; exact Hrd')
                      Hlr' Hev' Htr'))
    end.
    f_equal. f_equal.
    cbv -[or_else uuid8 now_iso]. rewrite Hid', Hpar', Htags'. reflexivity.
Qed.


End ConfigRoundTripFacts.


(** ** Configuration store: enum-valued fields *)

Section ConfigEnumFacts.
Import Config.

Variable E : env.

(** [__init__] by the outcome of its conversions, in the order they are
    made. *)
Lemma init_cases (a : args) :
  init E a =
  match init_dataset (arg_dataset a) with
  | Raise e => ([], Raise e)
  | Ok ds =>
      match init_model_architecture (arg_model_architecture a) with
      | Raise e => ([], Raise e)
      | Ok ma =>
          match init_results_dir E
                  (or_else (arg_experiment_id a) (Py.VStr (uuid8 E)))
                  (arg_results_dir a) with
          | Raise e => ([], Raise e)
          | Ok rd =>
              match init_lr_scheduler_type (arg_lr_scheduler_type a) with
              | (wl, Raise e) => (wl, Raise e)
              | (wl, Ok lr) =>
                  match init_evaluation_mode (arg_evaluation_mode a) with
                  | Raise e => (wl, Raise e)
                  | Ok ev =>
                      match init_tracker_type (arg_tracker_type a) with
                      | (wt, Raise e) => (wl ++ wt, Raise e)
                      | (wt, Ok tr) =>
                          (wl ++ wt,
                           Ok (build E a
                                 (or_else (arg_experiment_id a) (Py.VStr (uuid8 E)))
                                 ds ma rd lr ev tr))
                      end
                  end
              end
          end
      end
  end.
Proof.
  unfold init, lift, ret.
  destruct (init_dataset (arg_dataset a)); [|reflexivity]. cbn [lbind app].
  destruct (init_model_architecture (arg_model_architecture a)); [|reflexivity].
  cbn [lbind app].
  destruct (init_results_dir E _ (arg_results_dir a)); [|reflexivity].
  cbn [lbind app].
  destruct (init_lr_scheduler_type (arg_lr_scheduler_type a)) as [wl [lr|e]];
    [|reflexivity].
  cbn [lbind app].
  destruct (init_evaluation_mode (arg_evaluation_mode a));
    [|cbn [lbind app]; now rewrite app_nil_r].
  cbn [lbind app].
  destruct (init_tracker_type (arg_tracker_type a)) as [wt [tr|e]];
    cbn [lbind app]; rewrite ?app_nil_r; reflexivity.
Qed.

(** The two conversions that fall back never raise. *)
Lemma init_lr_scheduler_type_total (a : efield LRSchedulerType) :
  exists w lr,
    init_lr_scheduler_type a = (w, Ok lr) /\
    forall s, a = Raw (Py.VStr s) -> LRSchedulerType_of s = None ->
              lr = Enum SCHED_NONE /\
              w = [("Invalid scheduler type: " ++ s ++ ". Using NONE.")%string].
Proof.
  destruct a as [e | v].
  - exists [], (Enum e). split; [reflexivity | discriminate].
  - destruct v; try (eexists; eexists; split; [reflexivity | discriminate]).
    simpl. destruct (LRSchedulerType_of s) as [e|] eqn:Es.
    + eexists; eexists; split; [reflexivity|]. intros s' [= <-]. congruence.
    + eexists; eexists; split; [reflexivity|]. intros s' [= <-] _.
      split; reflexivity.
Qed.

Lemma init_tracker_type_total (a : efield TrackerType) :
  exists w tr,
    init_tracker_type a = (w, Ok tr) /\
    forall s, a = Raw (Py.VStr s) -> TrackerType_of s = None ->
              tr = Enum TRACK_NONE /\
              w = [("Invalid tracker type: " ++ s ++ ". Using NONE.")%string].
Proof.
  destruct a as [e | v].
  - exists [], (Enum e). split; [reflexivity | discriminate].
  - destruct v; try (eexists; eexists; split; [reflexivity | discriminate]).
    simpl. destruct (TrackerType_of s) as [e|] eqn:Es.
    + eexists; eexists; split; [reflexivity|]. intros s' [= <-]. congruence.
    + eexists; eexists; split; [reflexivity|]. intros s' [= <-] _.
      split; reflexivity.
Qed.

(** [from_dict] on a dict whose preprocessing item loads is [__init__] on
    the arguments read from the dict, followed by the two restorations. *)
Lemma from_dict_init (d : list (string * Py.value)) :
  pc_loads E d ->
  exists pc,
    from_dict E (Py.VDict d) =
    match init E (from_dict_args d pc) with
    | (w, Raise e) => (w, Raise e)
    | (w, Ok config) =>
        (w, Ok (let config1 :=
                  if Py.dict_has d "created_at"
                  then set_created_at config (dget d "created_at" Py.VNone)
                  else config in
                if Py.dict_has d "config_history"
                then set_config_history config1 (dget d "config_history" Py.VNone)
                else config1))
    end.
Proof.
  unfold pc_loads. intros Hpc.
  unfold from_dict, Py.py_in, Py.getitem. unfold Py.dict_has at 1.
  destruct (Py.dict_get d "preprocessing_config") as [v|].
  - destruct Hpc as [p Hp]. exists (Some p).
    unfold lift, ret. cbn [lbind bind]. rewrite Hp. cbn [lbind bind].
    destruct (init E (from_dict_args d (Some p))) as [w [config|e]];
      cbn [lbind app]; rewrite ?app_nil_r; reflexivity.
  - exists None. unfold lift, ret. cbn [lbind bind].
    destruct (init E (from_dict_args d None)) as [w [config|e]];
      cbn [lbind app]; rewrite ?app_nil_r; reflexivity.
Qed.

(** Every configuration [__init__] returns for annotated arguments is
    valid. *)
Lemma init_valid (a : args) (w : list string) (c : t) :
  env_ok E -> annotated E a -> init E a = (w, Ok c) -> valid E c.
Proof.
  intros (Huuid & Hnorm & Hauto) (Hds & Hma & Hpc) Hinit.
  rewrite init_cases in Hinit.
  destruct (init_dataset (arg_dataset a)) as [ds|] eqn:Eds; [|discriminate].
  destruct (init_model_architecture (arg_model_architecture a)) as [ma|] eqn:Ema;
    [|discriminate].
  destruct (init_results_dir E _ (arg_results_dir a)) as [rd|] eqn:Erd;
    [|discriminate].
  destruct (init_lr_scheduler_type (arg_lr_scheduler_type a)) as [wl [lr|]] eqn:Elr;
    [|discriminate].
  destruct (init_evaluation_mode (arg_evaluation_mode a)) as [ev|] eqn:Eev;
    [|discriminate].
  destruct (init_tracker_type (arg_tracker_type a)) as [wt [tr|]] eqn:Etr;
    [|discriminate].
  injection Hinit as _ <-.
  unfold valid. cbn [build experiment_id dataset model_architecture
                     lr_scheduler_type evaluation_mode tracker_type results_dir
                     lr_scheduler_params tracking_tags preprocessing_config].
  repeat match goal with |- _ /\ _ => split end.
  - unfold or_else. destruct (Py.truthy (arg_experiment_id a)) eqn:Et; [exact Et|].
    simpl. destruct (String.eqb_spec (uuid8 E) ""); [contradiction | reflexivity].
  - unfold init_dataset in Eds.
    destruct (arg_dataset a) as [e | v]; [injection Eds as <-; now exists e|].
    destruct v; try contradiction.
    destruct (Dataset_of s) as [e|]; [|discriminate].
    injection Eds as <-. now exists e.
  - unfold init_model_architecture in Ema.
    destruct (arg_model_architecture a) as [e | v]; [injection Ema as <-; exact I|].
    destruct v; try contradiction.
    + destruct (ModelArchitecture_of s) as [e|]; [|discriminate].
      injection Ema as <-. exact I.
    + injection Ema as <-. exact I.
  - unfold init_lr_scheduler_type in Elr.
    destruct (arg_lr_scheduler_type a) as [e | v]; [injection Elr as _ <-; exact I|].
    destruct v; try (injection Elr as _ <-; exact I).
    destruct (LRSchedulerType_of s); injection Elr as _ <-; exact I.
  - unfold init_evaluation_mode in Eev.
    destruct (arg_evaluation_mode a) as [e | v]; [injection Eev as <-; exact I|].
    destruct v; try (injection Eev as <-; exact I).
    destruct (EvaluationMode_of s); [injection Eev as <-; exact I | discriminate].
  - unfold init_tracker_type in Etr.
    destruct (arg_tracker_type a) as [e | v]; [injection Etr as _ <-; exact I|].
    destruct v; try (injection Etr as _ <-; exact I).
    destruct (TrackerType_of s); injection Etr as _ <-; exact I.
  - unfold init_results_dir in Erd.
    destruct (Py.truthy (arg_results_dir a)).
    + destruct (arg_results_dir a); try discriminate.
      injection Erd as <-. apply Hnorm.
    + injection Erd as <-. apply Hauto.
  - unfold init_results_dir in Erd.
    destruct (Py.truthy (arg_results_dir a)).
    + destruct (arg_results_dir a); try discriminate.
      injection Erd as <-. apply Hnorm.
    + injection Erd as <-. apply Hauto.
  - unfold truthy_or_empty_dict, or_else.
    destruct (Py.truthy (arg_lr_scheduler_params a)) eqn:Et; [now left | now right].
  - unfold truthy_or_empty_dict, or_else.
    destruct (Py.truthy (arg_tracking_tags a)) eqn:Et; [now left | now right].
  - exact Hpc.
Qed.


End ConfigEnumFacts.



(** ** Hyperparameter search adapter *)

Section HyperoptFacts.
Import Hyperopt.

Variable E : Config.env.
Variable run_experiment : Config.t -> result Py.value.

Lemma extract_score_best (r b : list (string * Py.value)) (a : Py.value) :
  Py.dict_get r "best_validation_metrics" = Some (Py.VDict b) ->
  Py.dict_get b "accuracy" = Some a ->
  extract_score (Py.VDict r) = Ok a.
Proof.
  intros Hb Ha. unfold extract_score, Py.py_in, Py.getitem, Py.dict_has.
  rewrite Hb. cbn [bind]. rewrite Ha. reflexivity.
Qed.

Lemma extract_score_no_best (r : list (string * Py.value)) :
  no_best_accuracy r ->
  extract_score (Py.VDict r) =
  (has_test <- Py.py_in "test_metrics" (Py.VDict r) ;;
   nonempty <- (if has_test : bool then
                  tm <- Py.getitem (Py.VDict r) "test_metrics" ;; Ok (Py.truthy tm)
                else Ok false) ;;
   has_test_acc <- (if nonempty : bool then
                      tm <- Py.getitem (Py.VDict r) "test_metrics" ;;
                      first <- Py.getitem0 tm ;;
                      Py.py_in "accuracy" first
                    else Ok false) ;;
   if has_test_acc : bool then
     tm <- Py.getitem (Py.VDict r) "test_metrics" ;;
     first <- Py.getitem0 tm ;;
     Py.getitem first "accuracy"
   else Ok (Py.VFloat 0))%exn.
Proof.
  intros [Hb | (b & Hb & Ha)]; unfold extract_score.
  - unfold Py.py_in at 1. unfold Py.dict_has at 1. rewrite Hb. reflexivity.
  - unfold Py.py_in at 1. unfold Py.dict_has at 1. rewrite Hb. cbn [bind].
    unfold Py.getitem at 1. rewrite Hb. cbn [bind].
    unfold Py.py_in at 1. unfold Py.dict_has at 1. rewrite Ha. reflexivity.
Qed.

Lemma extract_score_test (r t : list (string * Py.value)) (rest : list Py.value)
    (a : Py.value) :
  no_best_accuracy r ->
  Py.dict_get r "test_metrics" = Some (Py.VList (Py.VDict t :: rest)) ->
  Py.dict_get t "accuracy" = Some a ->
  extract_score (Py.VDict r) = Ok a.
Proof.
  intros Hnb Ht Ha. rewrite (extract_score_no_best r Hnb).
  unfold Py.py_in, Py.getitem, Py.dict_has. rewrite Ht.
  cbn [bind Py.truthy Py.getitem0]. rewrite Ha. reflexivity.
Qed.

Lemma extract_score_none (r : list (string * Py.value)) :
  no_best_accuracy r -> no_test_accuracy r ->
  extract_score (Py.VDict r) = Ok (Py.VFloat 0).
Proof.
  intros Hnb Hnt. rewrite (extract_score_no_best r Hnb).
  unfold Py.py_in, Py.getitem, Py.dict_has.
  destruct Hnt as [Ht | [Ht | (t & rest & Ht & Ha)]]; rewrite Ht;
    cbn [bind Py.truthy Py.getitem0]; [reflexivity | reflexivity |].
  rewrite Ha. reflexivity.
Qed.

(** C7 (amended).  An exception raised while the configuration of the
    trial is built (a data set or architecture name that is not a member
    of its enum) is raised by the objective; once the configuration is
    built the objective always returns a score: 0.0 when running the
    training unit, or reading its summary, raises; the best validation
    accuracy when the summary has one; otherwise the test accuracy of the
    first test entry when there is one; otherwise 0.0. *)
Theorem objective_scores (self : HyperparameterExperiment) (tr : trial)
    (results_dir : string) :
  (forall w e,
      Config.init E (trial_args E self tr results_dir) = (w, Raise e) ->
      _objective E run_experiment self tr results_dir = (w, Raise e)) /\
  (forall w config,
      Config.init E (trial_args E self tr results_dir) = (w, Ok config) ->
      exists score,
        snd (_objective E run_experiment self tr results_dir) = Ok score /\
        (forall e, run_experiment config = Raise e -> score = Py.VFloat 0) /\
        (forall r e, run_experiment config = Ok r ->
                     extract_score r = Raise e -> score = Py.VFloat 0) /\
        (forall r b a,
            run_experiment config = Ok (Py.VDict r) ->
            Py.dict_get r "best_validation_metrics" = Some (Py.VDict b) ->
            Py.dict_get b "accuracy" = Some a ->
            score = a) /\
        (forall r t rest a,
            run_experiment config = Ok (Py.VDict r) ->
            no_best_accuracy r ->
            Py.dict_get r "test_metrics" = Some (Py.VList (Py.VDict t :: rest)) ->
            Py.dict_get t "accuracy" = Some a ->
            score = a) /\
        (forall r,
            run_experiment config = Ok (Py.VDict r) ->
            no_best_accuracy r -> no_test_accuracy r ->
            score = Py.VFloat 0)).
Proof.
  split.
  - intros w e Hinit. unfold _objective. rewrite Hinit. reflexivity.
  - intros w config Hinit. unfold _objective. rewrite Hinit. cbn [lbind].
    destruct (run_experiment config) as [r|e0] eqn:Er; cbn [bind].
    + destruct (extract_score r) as [score|e1] eqn:Es.
      * exists score. unfold ret. cbn [fst snd app].
        split; [reflexivity|]. repeat split.
        -- discriminate.
        -- intros r' e' [= <-] He. congruence.
        -- intros r' b a [= ->] Hb Ha.
           rewrite (extract_score_best r' b a Hb Ha) in Es. congruence.
        -- intros r' t rest a [= ->] Hnb Ht Ha.
           rewrite (extract_score_test r' t rest a Hnb Ht Ha) in Es. congruence.
        -- intros r' [= ->] Hnb Hnt.
           rewrite (extract_score_none r' Hnb Hnt) in Es. congruence.
      * exists (Py.VFloat 0). unfold warn, ret. cbn [lbind fst snd app].
        split; [reflexivity|]. repeat split; try reflexivity.
        -- intros r' b a [= ->] Hb Ha.
           rewrite (extract_score_best r' b a Hb Ha) in Es. discriminate.
        -- intros r' t rest a [= ->] Hnb Ht Ha.
           rewrite (extract_score_test r' t rest a Hnb Ht Ha) in Es. discriminate.
    + exists (Py.VFloat 0). unfold warn, ret. cbn [lbind fst snd app].
      split; [reflexivity|]. repeat split; try reflexivity; discriminate.
Qed.

End HyperoptFacts.

(** C7 (as stated).  With a data set name that is not a member of the
    enum the configuration of the trial cannot be built, and the
    [ValueError] leaves the objective: the construction is outside the
    [try]. *)
Lemma objective_raises_counterexample :
  ~ Hyperopt.never_raises Config.example_base_env
      (fun _ => Ok (Py.VDict []))
      (Hyperopt.mkExperiment "cnn" "imagenet" None)
      (Hyperopt.mkTrial 0 (Py.VInt 10) (Py.VInt 16) (Py.VFloat (1 # 1000)))
      "outputs/hyperopt_cnn".
Proof. unfold Hyperopt.never_raises. vm_compute. discriminate. Qed.

Lemma objective_scores_witness :
  let run := fun _ : Config.t =>
               Ok (Py.VDict [("test_metrics",
                              Py.VList [Py.VDict [("accuracy", Py.VFloat (9 # 10))]])]%string) in
  snd (Hyperopt._objective Config.example_base_env run
         (Hyperopt.mkExperiment "cnn" "dataset1" None)
         (Hyperopt.mkTrial 3 (Py.VInt 10) (Py.VInt 16) (Py.VFloat (1 # 1000)))
         "outputs/hyperopt_cnn") = Ok (Py.VFloat (9 # 10)).
Proof.
  intros run.
  pose proof (objective_scores Config.example_base_env run
                (Hyperopt.mkExperiment "cnn" "dataset1" None)
                (Hyperopt.mkTrial 3 (Py.VInt 10) (Py.VInt 16) (Py.VFloat (1 # 1000)))
                "outputs/hyperopt_cnn") as [_ H].
  destruct (Config.init Config.example_base_env
              (Hyperopt.trial_args Config.example_base_env
                 (Hyperopt.mkExperiment "cnn" "dataset1" None)
                 (Hyperopt.mkTrial 3 (Py.VInt 10) (Py.VInt 16) (Py.VFloat (1 # 1000)))
                 "outputs/hyperopt_cnn")) as [w [config|e]] eqn:Ei;
    [|vm_compute in Ei; discriminate Ei].
  destruct (H w config eq_refl) as (score & Hs & _ & _ & _ & Ht & _).
  rewrite Hs. f_equal.
  apply (Ht _ _ [] (Py.VFloat (9 # 10)) eq_refl (or_introl eq_refl) eq_refl eq_refl).
Defined.

(** ** Checkpoint store: pruning and restoring *)

Section CheckpointPruneFacts.
Import Checkpoint.

Lemma path_eqb_eq (p q : path) : path_eqb p q = true <-> p = q.
Proof.
  unfold path_eqb. destruct p as [a b], q as [c e]. simpl.
  rewrite andb_true_iff, !String.eqb_eq. split.
  - intros [-> ->]. reflexivity.
  - intros H. injection H as -> ->. split; reflexivity.
Qed.

Lemma files_exec_remove (ps : list path) :
  forall d,
    files (exec (map Remove ps) d) =
    filter (fun e => negb (existsb (path_eqb (fst e)) ps)) (files d) /\
    dirs (exec (map Remove ps) d) = dirs d /\
    clock (exec (map Remove ps) d) = clock d.
Proof.
  induction ps as [|p ps IH]; intros d.
  - simpl. split; [|split; reflexivity].
    induction (files d) as [|e l IHl]; simpl; [reflexivity | now rewrite <- IHl].
  - change (exec (map Remove (p :: ps)) d)
      with (exec (map Remove ps) (exec1 (Remove p) d)).
    destruct (IH (exec1 (Remove p) d)) as (Hf & Hd & Hc).
    rewrite Hf, Hd, Hc. cbn [exec1 files dirs clock].
    split; [|split; reflexivity].
    induction (files d) as [|e l IHl]; simpl; [reflexivity|].
    destruct (path_eqb (fst e) p); simpl; [exact IHl|].
    destruct (existsb (path_eqb (fst e)) ps); simpl; [exact IHl | now rewrite IHl].
Qed.

Lemma insert_newest_perm (e : path * file) (l : list (path * file)) :
  Permutation (e :: l) (insert_newest e l).
Proof.
  induction l as [|x l IH]; simpl; [apply Permutation_refl|].
  destruct (mtime (snd e) <? mtime (snd x))%nat.
  - eapply Permutation_trans; [apply perm_swap|]. now apply perm_skip.
  - apply Permutation_refl.
Qed.

Lemma sort_newest_first_perm (l : list (path * file)) :
  Permutation l (sort_newest_first l).
Proof.
  induction l as [|e l IH]; simpl; [apply perm_nil|].
  eapply Permutation_trans; [apply perm_skip, IH | apply insert_newest_perm].
Qed.

Lemma insert_newest_sorted (e : path * file) (l : list (path * file)) :
  StronglySorted newer_eq l -> StronglySorted newer_eq (insert_newest e l).
Proof.
  induction l as [|x l IH]; intros Hs; simpl.
  - constructor; [constructor | constructor].
  - inversion Hs as [|? ? Hl Hx]; subst.
    destruct (mtime (snd e) <? mtime (snd x))%nat eqn:E.
    + apply Nat.ltb_lt in E. constructor; [now apply IH|].
      rewrite Forall_forall in *. intros y Hy.
      apply (Permutation_in _ (Permutation_sym (insert_newest_perm e l))) in Hy.
      destruct Hy as [<- | Hy]; [unfold newer_eq; lia | now apply Hx].
    + apply Nat.ltb_ge in E. constructor; [exact Hs|].
      constructor; [exact E|].
      rewrite Forall_forall in *. intros y Hy. specialize (Hx y Hy).
      unfold newer_eq in *. lia.
Qed.

Lemma sort_newest_first_sorted (l : list (path * file)) :
  StronglySorted newer_eq (sort_newest_first l).
Proof.
  induction l as [|e l IH]; simpl; [constructor | now apply insert_newest_sorted].
Qed.

Lemma sorted_firstn_skipn (k : nat) (l : list (path * file)) :
  StronglySorted newer_eq l ->
  forall a b, In a (firstn k l) -> In b (skipn k l) -> newer_eq a b.
Proof.
  revert l. induction k as [|k IH]; intros l Hs a b Ha Hb; [contradiction|].
  destruct l as [|x l]; [contradiction|].
  inversion Hs as [|? ? Hl Hx]; subst. simpl in Ha, Hb.
  destruct Ha as [<- | Ha].
  - rewrite Forall_forall in Hx. apply Hx.
    rewrite <- (firstn_skipn k l). apply in_or_app. now right.
  - now apply (IH l).
Qed.

Lemma filter_perm {A : Type} (f : A -> bool) (l l' : list A) :
  Permutation l l' -> Permutation (filter f l) (filter f l').
Proof.
  induction 1 as [|x l l' _ IH|x y l|l l' l'' _ IH1 _ IH2]; simpl.
  - apply perm_nil.
  - destruct (f x); [now apply perm_skip | exact IH].
  - destruct (f x), (f y); try apply Permutation_refl. apply perm_swap.
  - eapply Permutation_trans; eauto.
Qed.

Lemma filter_comm {A : Type} (f g : A -> bool) (l : list A) :
  filter f (filter g l) = filter g (filter f l).
Proof.
  induction l as [|x l IH]; simpl; [reflexivity|].
  destruct (f x) eqn:Ef, (g x) eqn:Eg; simpl; rewrite ?Ef, ?Eg, IH; reflexivity.
Qed.

Lemma filter_all {A : Type} (f : A -> bool) (l : list A) :
  (forall x, In x l -> f x = true) -> filter f l = l.
Proof.
  induction l as [|x l IH]; intros H; simpl; [reflexivity|].
  rewrite (H x (or_introl eq_refl)), IH; [reflexivity|].
  intros y Hy. apply H. now right.
Qed.

Lemma filter_none {A : Type} (f : A -> bool) (l : list A) :
  (forall x, In x l -> f x = false) -> filter f l = [].
Proof.
  induction l as [|x l IH]; intros H; simpl; [reflexivity|].
  rewrite (H x (or_introl eq_refl)). apply IH.
  intros y Hy. apply H. now right.
Qed.

Lemma existsb_path (p : path) (ps : list path) :
  existsb (path_eqb p) ps = true <-> In p ps.
Proof.
  rewrite existsb_exists. split.
  - intros (q & Hq & E). apply path_eqb_eq in E. now subst.
  - intros H. exists p. split; [exact H | now apply path_eqb_eq].
Qed.

Lemma kept_app (l1 l2 : list (path * file)) :
  NoDup (map fst (l1 ++ l2)) ->
  filter (fun e => negb (existsb (path_eqb (fst e)) (map fst l2))) (l1 ++ l2) = l1.
Proof.
  intros Hnd.
  rewrite filter_app, filter_all, filter_none, app_nil_r; [reflexivity| |].
  - intros x Hx. apply negb_false_iff, existsb_path. now apply in_map.
  - intros x Hx. apply negb_true_iff.
    destruct (existsb _ _) eqn:E; [|reflexivity].
    apply existsb_path in E. exfalso. rewrite map_app in Hnd.
    induction l1 as [|y l1 IH]; [contradiction|].
    simpl in Hnd. inversion Hnd as [|? ? Hy Hnd']; subst.
    destruct Hx as [-> | Hx].
    + apply Hy. apply in_or_app. now right.
    + now apply IH.
Qed.

(** What [prune_checkpoints] keeps of the matching files, for a list
    sorted newest first whose paths are distinct. *)
Lemma kept_of_sorted (k : nat) (sorted : list (path * file)) :
  NoDup (map fst sorted) ->
  filter (fun e => negb (existsb (path_eqb (fst e)) (map fst (skipn k sorted))))
         sorted = firstn k sorted.
Proof.
  intros Hnd.
  pose proof (kept_app (firstn k sorted) (skipn k sorted)) as H.
  rewrite firstn_skipn in H. now apply H.
Qed.

Lemma checkpoints_prune (checkpoint_dir : string) (keep : nat) (d : disk) :
  unique_paths d ->
  Permutation
    (checkpoints checkpoint_dir (prune_checkpoints checkpoint_dir keep d))
    (firstn keep (sort_newest_first (checkpoints checkpoint_dir d))).
Proof.
  intros Hnd.
  pose (sorted := sort_newest_first (checkpoints checkpoint_dir d)).
  fold sorted. unfold checkpoints at 1.
  change (prune_checkpoints checkpoint_dir keep d)
    with (exec (map (fun e : path * file => Remove (fst e)) (skipn keep sorted)) d).
  replace (map (fun e : path * file => Remove (fst e)) (skipn keep sorted))
    with (map Remove (map fst (skipn keep sorted))) by apply map_map.
  destruct (files_exec_remove (map fst (skipn keep sorted)) d) as (-> & _ & _).
  rewrite filter_comm. fold (checkpoints checkpoint_dir d).
  assert (Hp : Permutation (checkpoints checkpoint_dir d) sorted)
    by apply sort_newest_first_perm.
  eapply Permutation_trans; [apply filter_perm, Hp|].
  rewrite kept_of_sorted; [apply Permutation_refl|].
  apply (Permutation_NoDup (Permutation_map fst Hp)).
  unfold checkpoints. unfold unique_paths in Hnd.
  induction (files d) as [|e l IH]; simpl; [constructor|].
  inversion Hnd as [|? ? He Hl]; subst.
  destruct (is_checkpoint checkpoint_dir e); [|now apply IH].
  simpl. constructor; [|now apply IH].
  intros Hin. apply He. apply in_map_iff in Hin. destruct Hin as (x & Hx & Hin).
  apply filter_In in Hin. apply in_map_iff. exists x. tauto.
Qed.

Lemma prune_files (checkpoint_dir : string) (keep : nat) (d : disk) :
  let gone := map fst (skipn keep (sort_newest_first (checkpoints checkpoint_dir d))) in
  files (prune_checkpoints checkpoint_dir keep d) =
    filter (fun e => negb (existsb (path_eqb (fst e)) gone)) (files d) /\
  dirs (prune_checkpoints checkpoint_dir keep d) = dirs d /\
  clock (prune_checkpoints checkpoint_dir keep d) = clock d.
Proof.
  intros gone.
  pose (sorted := sort_newest_first (checkpoints checkpoint_dir d)).
  change (prune_checkpoints checkpoint_dir keep d)
    with (exec (map (fun e : path * file => Remove (fst e)) (skipn keep sorted)) d).
  replace (map (fun e : path * file => Remove (fst e)) (skipn keep sorted))
    with (map Remove gone) by apply map_map.
  apply files_exec_remove.
Qed.

Lemma prune_spares (checkpoint_dir : string) (keep : nat) (d : disk)
    (e : path * file) :
  In e (files d) -> is_checkpoint checkpoint_dir e = false ->
  In e (files (prune_checkpoints checkpoint_dir keep d)).
Proof.
  intros He Hn. destruct (prune_files checkpoint_dir keep d) as (-> & _ & _).
  apply filter_In. split; [exact He|].
  apply negb_true_iff. destruct (existsb _ _) eqn:E; [|reflexivity].
  apply existsb_path, in_map_iff in E. destruct E as (x & Hx & Hin).
  assert (Hb : In x (checkpoints checkpoint_dir d)).
  { apply (Permutation_in _ (Permutation_sym (sort_newest_first_perm _))).
    rewrite <- (firstn_skipn keep (sort_newest_first _)).
    apply in_or_app. now right. }
  apply filter_In in Hb. destruct Hb as [_ Hb].
  unfold is_checkpoint in *. rewrite <- Hx, Hb in Hn. discriminate.
Qed.


Lemma example_disk_unique_paths : unique_paths example_disk.
Proof.
  unfold unique_paths, example_disk. simpl.
  repeat constructor; simpl; intuition discriminate.
Qed.



Lemma update_spec (fs : list (path * file)) (p : path) (f : file) :
  NoDup (map fst fs) ->
  NoDup (map fst (update fs p f)) /\
  In (p, f) (update fs p f) /\
  (forall e, In e (update fs p f) -> e = (p, f) \/ (In e fs /\ fst e <> p)) /\
  (forall e, In e fs -> fst e <> p -> In e (update fs p f)).
Proof.
  induction fs as [|[q g] rest IH]; intros Hnd.
  - simpl. split; [repeat constructor; intros []|]. split; [now left|]. split.
    + intros e [<- | []]. now left.
    + intros e [].
  - simpl in Hnd. inversion Hnd as [|? ? Hq Hrest]; subst.
    destruct (IH Hrest) as (IH1 & IH2 & IH3 & IH4). simpl.
    destruct (path_eqb q p) eqn:E.
    + apply path_eqb_eq in E. subst q. simpl.
      split; [exact Hnd|]. split; [now left|]. split.
      * intros e [<- | He]; [now left|]. right. split; [now right|].
        intros <-. apply Hq. now apply in_map.
      * intros e [<- | He] Hne; [now elim Hne | now right].
    + assert (Hqp : q <> p) by (intros ->; rewrite path_eqb_refl in E; discriminate).
      simpl. split; [|split; [now right|split]].
      * constructor; [|exact IH1]. intros Hin. apply in_map_iff in Hin.
        destruct Hin as (x & Hx & Hin). destruct (IH3 x Hin) as [-> | [Hin' _]].
        -- simpl in Hx. congruence.
        -- apply Hq. rewrite <- Hx. now apply in_map.
      * intros e [<- | He]; [right; split; [now left | exact Hqp]|].
        destruct (IH3 e He) as [-> | [Hin Hne]]; [now left|].
        right. split; [now right | exact Hne].
      * intros e [<- | He] Hne; [now left | right; now apply IH4].
Qed.

Lemma update_update (fs : list (path * file)) (p : path) (f g : file) :
  update (update fs p f) p g = update fs p g.
Proof.
  induction fs as [|[q h] rest IH]; simpl.
  - now rewrite path_eqb_refl.
  - destruct (path_eqb q p) eqn:E; simpl; rewrite E; [reflexivity | now rewrite IH].
Qed.

(** What [torch.save] leaves on the disk: the file at [p] holds the bytes
    and is at least as new as the clock at the start. *)
Lemma torch_save_files (data : list ascii) (p : path) (d : disk) :
  exists g,
    files (exec (OpenWrite p :: map (WriteByte p) data) d) = update (files d) p g /\
    content g = string_of_list_ascii data /\
    (clock d <= mtime g)%nat /\
    (mtime g < clock (exec (OpenWrite p :: map (WriteByte p) data) d))%nat /\
    dirs (exec (OpenWrite p :: map (WriteByte p) data) d) = dirs d.
Proof.
  induction data as [|b bs IH] using rev_ind.
  - exists (mkFile "" (clock d)). simpl. repeat split; lia.
  - destruct IH as (g & Hf & Hc & Hm & Hk & Hd).
    rewrite map_app. change (OpenWrite p :: map (WriteByte p) bs ++ map (WriteByte p) [b])
      with ((OpenWrite p :: map (WriteByte p) bs) ++ [WriteByte p b]).
    rewrite exec_app.
    set (d1 := exec (OpenWrite p :: map (WriteByte p) bs) d) in *.
    unfold exec at 1 2 3. cbn [fold_left map exec1].
    assert (Hl : lookup (files d1) p = Some g)
      by (rewrite Hf; apply lookup_update_same).
    rewrite Hl. cbn [files clock dirs].
    exists (mkFile (content g ++ String b EmptyString) (clock d1)).
    rewrite Hf, update_update. cbn [content mtime].
    repeat split; try lia; try assumption.
    rewrite Hc, string_of_snoc. reflexivity.
Qed.

Lemma lookup_in (fs : list (path * file)) (p : path) (f : file) :
  NoDup (map fst fs) -> In (p, f) fs -> lookup fs p = Some f.
Proof.
  induction fs as [|[q g] rest IH]; intros Hnd Hin; [contradiction|].
  simpl in *. inversion Hnd as [|? ? Hq Hrest]; subst.
  destruct Hin as [E | Hin].
  - injection E as -> ->. now rewrite path_eqb_refl.
  - destruct (path_eqb q p) eqn:E; [|now apply IH].
    apply path_eqb_eq in E. subst q. exfalso. apply Hq.
    change p with (fst (p, f)). now apply in_map.
Qed.

Lemma filter_nodup_paths (g : path * file -> bool) (fs : list (path * file)) :
  NoDup (map fst fs) -> NoDup (map fst (filter g fs)).
Proof.
  induction fs as [|e l IH]; simpl; intros Hnd; [constructor|].
  inversion Hnd as [|? ? He Hl]; subst.
  destruct (g e); [|now apply IH].
  simpl. constructor; [|now apply IH].
  intros Hin. apply He. apply in_map_iff in Hin. destruct Hin as (x & Hx & Hin).
  apply filter_In in Hin. apply in_map_iff. exists x. tauto.
Qed.


Lemma example_disk_clock_ahead : clock_ahead example_disk.
Proof.
  intros e He. simpl in He.
  destruct He as [<- | [<- | [<- | [<- | []]]]]; simpl; lia.
Qed.


End CheckpointPruneFacts.

Section CheckpointRestoreFacts.
Import Checkpoint.

Lemma save_checkpoint_read (dumps : Py.value -> string) (record : Py.value)
    (checkpoint_dir filename : string) (d : disk) :
  read (fst (save_checkpoint dumps record checkpoint_dir filename false d))
       (checkpoint_dir, filename) = Some (dumps record).
Proof.
  unfold save_checkpoint, save_steps, torch_save. cbn [fst].
  set (p := (checkpoint_dir, filename)).
  set (bs := list_ascii_of_string (dumps record)).
  change (Mkdir checkpoint_dir :: OpenWrite p :: map (WriteByte p) bs)
    with ([Mkdir checkpoint_dir; OpenWrite p] ++ map (WriteByte p) bs).
  rewrite exec_app.
  rewrite (exec_write_bytes p bs _ (mkFile "" (clock (exec1 (Mkdir checkpoint_dir) d)))).
  - simpl. unfold bs. now rewrite string_of_list_ascii_of_string.
  - unfold exec. cbn [fold_left].
    set (d0 := exec1 (Mkdir checkpoint_dir) d).
    cbn [exec1 files]. apply lookup_update_same.
Qed.

(** X4.  What [save_checkpoint] stores, [load_checkpoint] restores, when
    the serializer reads back what it wrote and [load_state_dict] accepts
    the states: the model state always, the optimizer state when an
    optimizer is passed, the scheduler state when a scheduler is passed and
    the checkpoint was saved with one; a scheduler passed for a checkpoint
    saved without one is left as it is, without an error.  The checkpoint
    returned is the record that was saved. *)
Theorem save_then_load_restores
    (dumps : Py.value -> string) (loads : string -> result Py.value)
    (load_state_dict : target -> Py.value -> result unit)
    (model_state optimizer_state : Py.value) (scheduler : option (option Py.value))
    (epoch : Z) (validation_metrics : Py.value) (now : string) (metadata : Py.value)
    (checkpoint_dir filename : string) (d : disk) (optimizer with_scheduler : bool) :
  let record := checkpoint_record model_state optimizer_state scheduler epoch
                  validation_metrics now metadata in
  loads (dumps record) = Ok record ->
  (forall t st, load_state_dict t st = Ok tt) ->
  restore loads load_state_dict (checkpoint_dir, filename) optimizer with_scheduler
    (fst (save_checkpoint dumps record checkpoint_dir filename false d)) =
  ([(Model, model_state)] ++
   (if optimizer then [(Optimizer, optimizer_state)] else []) ++
   match scheduler with
   | Some (Some st) => if with_scheduler then [(Scheduler, st)] else []
   | _ => []
   end,
   Ok record).
Proof.
  intros record Hloads Hacc. unfold restore, load_checkpoint.
  rewrite save_checkpoint_read, Hloads.
  unfold restore_optional. subst record. unfold checkpoint_record.
  destruct scheduler as [[st|]|], (Py.truthy metadata), optimizer, with_scheduler;
    cbn; rewrite ?Hacc; cbn; rewrite ?Hacc; reflexivity.
Qed.

Lemma save_then_load_restores_witness :
  let dumps := fun _ : Py.value => "PK"%string in
  let record := checkpoint_record (Py.VInt 1) (Py.VInt 2) (Some (Some (Py.VInt 3)))
                  7 (Py.VDict []) "2025-01-01T00:00:00" Py.VNone in
  restore (fun _ => Ok record) (fun _ _ => Ok tt)
    ("ckpt", "best_model.pth")%string true true
    (fst (save_checkpoint dumps record "ckpt" "best_model.pth" false
            (mkDisk [] [] 0))) =
  ([(Model, Py.VInt 1); (Optimizer, Py.VInt 2); (Scheduler, Py.VInt 3)], Ok record).
Proof.
  intros dumps record.
  exact (save_then_load_restores dumps (fun _ => Ok record) (fun _ _ => Ok tt)
           (Py.VInt 1) (Py.VInt 2) (Some (Some (Py.VInt 3))) 7 (Py.VDict [])
           "2025-01-01T00:00:00" Py.VNone "ckpt" "best_model.pth" (mkDisk [] [] 0)
           true true eq_refl (fun _ _ => eq_refl)).
Defined.
End CheckpointRestoreFacts.

(** ** Early-stopping monitor: the flag and the best score *)

Section EarlyStoppingMoreFacts.
Import EarlyStopping.

Lemma call_early_stop (s : t) (x : Q) :
  early_stop s = true -> early_stop (fst (call s x)) = true.
Proof.
  intros H. unfold call. cbn [patience min_delta counter mode early_stop trace best_score].
  destruct (val_comp _ x); cbn [fst early_stop]; [exact H|].
  destruct (patience s <=? counter s + 1)%Z; [reflexivity | exact H].
Qed.

Lemma observe_early_stop (ys : list Q) :
  forall s, early_stop s = true -> early_stop (fst (observe s ys)) = true.
Proof.
  induction ys as [|y ys IH]; intros s H; simpl; [exact H|].
  pose proof (call_early_stop s y H) as Hc.
  destruct (call s y) as [s' r]. specialize (IH s' Hc).
  destruct (observe s' ys) as [f rs]. exact IH.
Qed.

(** X5.  The stop flag is latched: once [early_stop] is set, no later
    observation resets it, not even one that improves on the best score
    and resets [counter]. *)
Theorem early_stop_is_latched (s : t) (xs ys : list Q) :
  early_stop (fst (observe s xs)) = true ->
  early_stop (fst (observe s (xs ++ ys))) = true.
Proof.
  intros H. rewrite observe_app. cbn [fst]. now apply observe_early_stop.
Qed.

Lemma early_stop_is_latched_witness :
  early_stop (fst (observe (init_mode 2 0 Min)
                     ([1%Q; 2%Q; 3%Q] ++ [0%Q; (-1)%Q]))) = true.
Proof.
  apply (early_stop_is_latched (init_mode 2 0 Min) [1%Q; 2%Q; 3%Q] [0%Q; (-1)%Q]).
  reflexivity.
Defined.

Lemma call_tracks (m : mode_t) (delta : Q) (seen : list Q) (s : t) (x : Q) :
  (0 <= delta)%Q -> mode s = m -> min_delta s = delta ->
  tracks m delta seen (best_score s) ->
  let s' := fst (call s x) in
  mode s' = m /\ min_delta s' = delta /\ tracks m delta (seen ++ [x]) (best_score s').
Proof.
  intros Hd Hm Hdelta Ht s'. subst s'. unfold call, val_comp.
  cbn [patience min_delta counter mode early_stop trace best_score].
  rewrite Hm, Hdelta.
  assert (Hne : seen ++ [x] <> []) by (destruct seen; discriminate).
  assert (Hgoal : forall best',
             (exists b, best' = Fin b /\ In b (seen ++ [x]) /\
                forall y, In y (seen ++ [x]) ->
                  match m with Min => (b <= y + delta)%Q | Max => (y - delta <= b)%Q end) ->
             tracks m delta (seen ++ [x]) best').
  { intros best' H. unfold tracks. destruct (seen ++ [x]); [now elim Hne | exact H]. }
  destruct seen as [|z seen].
  - simpl in Ht. rewrite Ht.
    destruct m; cbn [xsub xadd xlt fst mode min_delta best_score];
      (split; [reflexivity|]; split; [reflexivity|]; apply Hgoal;
       exists x; split; [reflexivity|]; split; [now left|];
       intros y [<- | []]; lra).
  - destruct Ht as (b & Hb & Hin & Hall). rewrite Hb.
    destruct m; cbn [xsub xadd xlt].
    + destruct (Qltb x (b - delta)) eqn:E;
        cbn [fst mode min_delta best_score];
        (split; [reflexivity|]; split; [reflexivity|]; apply Hgoal).
      * apply Qltb_lt in E. exists x. split; [reflexivity|].
        split; [apply in_or_app; right; now left|].
        intros y Hy. apply in_app_or in Hy. destruct Hy as [Hy | [<- | []]]; [|lra].
        specialize (Hall y Hy). simpl in Hall. lra.
      * assert (Hge : ~ (x < b - delta)%Q)
          by (intros Hlt; apply Qltb_lt in Hlt; congruence).
        exists b. split; [reflexivity|]. split; [apply in_or_app; now left|].
        intros y Hy. apply in_app_or in Hy. destruct Hy as [Hy | [<- | []]].
        -- exact (Hall y Hy).
        -- lra.
    + destruct (Qltb (b + delta) x) eqn:E;
        cbn [fst mode min_delta best_score];
        (split; [reflexivity|]; split; [reflexivity|]; apply Hgoal).
      * apply Qltb_lt in E. exists x. split; [reflexivity|].
        split; [apply in_or_app; right; now left|].
        intros y Hy. apply in_app_or in Hy. destruct Hy as [Hy | [<- | []]]; [|lra].
        specialize (Hall y Hy). simpl in Hall. lra.
      * assert (Hge : ~ (b + delta < x)%Q)
          by (intros Hlt; apply Qltb_lt in Hlt; congruence).
        exists b. split; [reflexivity|]. split; [apply in_or_app; now left|].
        intros y Hy. apply in_app_or in Hy. destruct Hy as [Hy | [<- | []]].
        -- exact (Hall y Hy).
        -- lra.
Qed.

Lemma observe_tracks (m : mode_t) (patience : Z) (delta : Q) (scores : list Q) :
  (0 <= delta)%Q ->
  let s := fst (observe (init_mode patience delta m) scores) in
  mode s = m /\ min_delta s = delta /\ tracks m delta scores (best_score s).
Proof.
  intros Hd. induction scores as [|x scores IH] using rev_ind.
  - destruct m; simpl; repeat split; reflexivity.
  - destruct IH as (Hm & Hdelta & Ht). rewrite observe_snoc. cbn [fst].
    now apply call_tracks.
Qed.


End EarlyStoppingMoreFacts.

(** ** Sweep matrix: failures and stored results *)

Section SweepLoopFacts.
Import Sweep.

(** One iteration in closed form. *)
Lemma run_unit_cases (w : world) (prep exp_id : string) (g : Z) (d a : string)
    (s : state) :
  let ku := (probes s, (d, a)) in
  let s' := run_unit w prep exp_id g d a s in
  probes s' = S (probes s) /\
  failed_architectures s' =
    failed_architectures s ++
    (if unit_fails w prep g ku then [unit_label prep d a] else []) /\
  invoked s' =
    invoked s ++ (if probe_low w g ku then [] else [(prep, d, a)]).
Proof.
  intros ku s'. subst ku s'. unfold unit_fails, probe_low. cbn [fst snd].
  destruct (Z.ltb_spec (free_bytes w (probes s)) (g * bytes_per_gb)) as [H | H].
  - rewrite (run_unit_low _ _ _ _ _ _ _ H). cbn. now rewrite app_nil_r.
  - destruct (run_unit_enough w prep exp_id g d a s H) as [Hp Hi].
    split; [exact Hp|]. split; [|exact Hi].
    unfold run_unit.
    pose proof (check_disk_space_probes w g s) as Hs.
    pose proof (check_disk_space_bytes w g s) as Hb.
    destruct (check_disk_space w g s) as [ok s1]. simpl in Hs, Hb. subst s1.
    destruct ok; [|destruct Hb as [Hb _]; specialize (Hb eq_refl); lia].
    cbn [negb orb]. destruct (train w prep d a) as [r|e]; cbn [is_ok negb].
    + destruct (String.eqb a "siamese"); cbn; now rewrite app_nil_r.
    + reflexivity.
Qed.


Lemma store_result_no_siamese (res : list (string * list (string * Py.value)))
    (key arch : string) (r : Py.value) :
  String.eqb arch "siamese" = false ->
  no_siamese res -> no_siamese (store_result res key arch r).
Proof.
  intros Ha. induction res as [|[k inner] rest IH]; intros Hres key' inner' Hin.
  - simpl in Hin. destruct Hin as [E | []]. injection E as <- <-.
    simpl. now rewrite Ha.
  - simpl in Hin. destruct (String.eqb k key) eqn:Ek.
    + destruct Hin as [E | Hin].
      * injection E as <- <-.
        assert (Hi : Py.dict_get inner "siamese" = None)
          by (apply (Hres k); now left).
        clear - Ha Hi. induction inner as [|[k' v'] inner IH]; simpl in *.
        -- now rewrite Ha.
        -- destruct (String.eqb k' arch) eqn:E1.
           ++ apply String.eqb_eq in E1. subst k'. rewrite Ha in Hi.
              simpl. rewrite Ha. exact Hi.
           ++ simpl. destruct (String.eqb k' "siamese"); [exact Hi | now apply IH].
      * apply (Hres key'). now right.
    + destruct Hin as [E | Hin].
      * injection E as <- <-. apply (Hres k). now left.
      * apply IH with (key := key'); [|exact Hin].
        intros k2 i2 H2. apply (Hres k2). now right.
Qed.

Lemma run_unit_no_siamese (w : world) (prep exp_id : string) (g : Z)
    (d a : string) (s : state) :
  no_siamese (architecture_results s) ->
  no_siamese (architecture_results (run_unit w prep exp_id g d a s)).
Proof.
  intros H. unfold run_unit.
  pose proof (check_disk_space_probes w g s) as Hs.
  destruct (check_disk_space w g s) as [ok s1]. simpl in Hs. subst s1.
  destruct ok; cbn [negb]; [|exact H].
  destruct (train w prep d a) as [r|e]; [|exact H].
  destruct (String.eqb a "siamese") eqn:Ea; [exact H|].
  cbn [architecture_results]. now apply store_result_no_siamese.
Qed.

Lemma run_units_no_siamese (w : world) (prep exp_id : string) (g : Z)
    (us : list (string * string)) :
  forall s, no_siamese (architecture_results s) ->
            no_siamese (architecture_results (run_units w prep exp_id g us s)).
Proof.
  induction us as [|[d a] us IH]; intros s H; [exact H|].
  change (run_units w prep exp_id g ((d, a) :: us) s)
    with (run_units w prep exp_id g us (run_unit w prep exp_id g d a s)).
  apply IH. now apply run_unit_no_siamese.
Qed.



End SweepLoopFacts.

(** ** Configuration store: constructed objects, version sequences, documents *)

Section ConfigConstructedFacts.
Import Config.

(** X9.  Every configuration [__init__] builds from arguments of the
    annotated types survives the round trip: whatever warnings the
    constructor logged, [from_dict] of the [to_dict] of the object it
    returned is that object, attribute by attribute, and logs nothing. *)
Theorem constructed_config_round_trips (E : env) (a : args) (w : list string)
    (c : t) :
  env_ok E -> annotated E a -> init E a = (w, Ok c) ->
  exists d, to_dict E c = Ok d /\ from_dict E d = ([], Ok c).
Proof.
  intros HE Ha Hi. apply from_dict_to_dict. exact (init_valid E a w c HE Ha Hi).
Qed.

Lemma example_path_env_ok : env_ok example_path_env.
Proof.
  unfold env_ok, example_path_env. cbn. split; [discriminate|].
  split.
  - intros s. destruct (String.eqb s "") eqn:Es.
    + split; [discriminate | reflexivity].
    + split; [|now rewrite Es].
      intros ->. discriminate.
  - intros _. split; [discriminate | reflexivity].
Qed.

Lemma example_args_annotated : annotated example_path_env example_args.
Proof. unfold annotated. cbn. repeat split. Qed.

Lemma constructed_config_round_trips_witness :
  match init example_path_env example_args with
  | (_, Ok c) =>
      exists d, to_dict example_path_env c = Ok d /\
                from_dict example_path_env d = ([], Ok c)
  | _ => False
  end.
Proof.
  destruct (init example_path_env example_args) as [w [c|e]] eqn:Ei.
  - exact (constructed_config_round_trips example_path_env example_args w c
             example_path_env_ok example_args_annotated Ei).
  - vm_compute in Ei. discriminate Ei.
Defined.

End ConfigConstructedFacts.

Section ConfigVersionSequenceFacts.
Import Config.

Variable E : env.

Lemma to_dict_pairs_is_ok (c : t) :
  is_ok (to_dict_pairs E c) =
  is_ok (enum_value Dataset_value (dataset c)) &&
  is_ok (model_architecture_to_value (model_architecture c)).
Proof.
  unfold to_dict_pairs.
  destruct (enum_value Dataset_value (dataset c)) as [dv|]; [|reflexivity].
  cbn [bind is_ok andb].
  destruct (model_architecture_to_value (model_architecture c)) as [mv|];
    [|reflexivity].
  cbn [bind is_ok].
  destruct (preprocessing_config c) as [pc|]; [destruct (pc_truthy E pc)|];
    reflexivity.
Qed.

Lemma set_history_version_enums (c : t) (hv vv : Py.value) :
  dataset (set_config_version (set_config_history c hv) vv) = dataset c /\
  model_architecture (set_config_version (set_config_history c hv) vv) =
    model_architecture c.
Proof. destruct c. split; reflexivity. Qed.

Lemma to_dict_pairs_history_version (c : t) (d : list (string * Py.value))
    (hv vv : Py.value) :
  to_dict_pairs E c = Ok d ->
  exists d', to_dict_pairs E (set_config_version (set_config_history c hv) vv) = Ok d'.
Proof.
  intros H.
  pose proof (to_dict_pairs_is_ok (set_config_version (set_config_history c hv) vv)) as H1.
  destruct (set_history_version_enums c hv vv) as [-> ->] in H1.
  rewrite <- to_dict_pairs_is_ok, H in H1. cbn [is_ok] in H1.
  destruct (to_dict_pairs E (set_config_version (set_config_history c hv) vv))
    as [d'|]; [|discriminate].
  now exists d'.
Qed.

Lemma set_history_version (c : t) (hv : Py.value) :
  config_version (set_config_history c hv) = config_version c /\
  config_history (set_config_history c hv) = hv.
Proof. destruct c. split; reflexivity. Qed.

Lemma set_version_history (c : t) (vv : Py.value) :
  config_version (set_config_version c vv) = vv /\
  config_history (set_config_version c vv) = config_history c.
Proof. destruct c. split; reflexivity. Qed.

(** One call in closed form. *)
Lemma increment_version_ok (c : t) (level : string) (v : Z * Z * Z)
    (d : list (string * Py.value)) (h : list Py.value) :
  to_dict_pairs E c = Ok d ->
  config_history c = Py.VList h ->
  parse_version (config_version c) = Ok v ->
  let v' := bump level v in
  let version := format_version (fst (fst v')) (snd (fst v')) (snd v') in
  increment_version E c level =
    (set_config_version (set_config_history c (Py.VList (h ++ [history_entry E d])))
                        (Py.VStr version),
     Ok version).
Proof.
  intros Hd Hh Hv v' version.
  unfold increment_version, add_to_history. rewrite Hd. cbn [bind]. rewrite Hh.
  rewrite (proj1 (set_history_version c _)), Hv.
  subst version v'. destruct (bump level v) as [[M m] p]. reflexivity.
Qed.

Lemma bump_version_lt (level : string) (v : Z * Z * Z) : version_lt v (bump level v).
Proof.
  destruct v as [[M m] p]. unfold bump, version_lt.
  destruct (String.eqb level "major"); [lia|].
  destruct (String.eqb level "minor"); lia.
Qed.

Lemma version_lt_trans (a b c : Z * Z * Z) :
  version_lt a b -> version_lt b c -> version_lt a c.
Proof.
  destruct a as [[a1 a2] a3], b as [[b1 b2] b3], c as [[c1 c2] c3].
  unfold version_lt. lia.
Qed.

Lemma bumps_version_lt (levels : list string) :
  forall v, levels <> [] ->
            version_lt v (fold_left (fun v l => bump l v) levels v).
Proof.
  induction levels as [|l levels IH]; intros v Hne; [now elim Hne|].
  simpl. destruct levels as [|l' levels].
  - apply bump_version_lt.
  - eapply version_lt_trans; [apply bump_version_lt|].
    apply IH. discriminate.
Qed.

Lemma recorded_version_entry (c : t) (d : list (string * Py.value)) :
  to_dict_pairs E c = Ok d ->
  recorded_version (history_entry E d) = Some (config_version c).
Proof.
  intros Hd. destruct (to_dict_pairs_items E c d Hd) as (_ & _ & Hver & _).
  unfold recorded_version, history_entry. cbn. exact Hver.
Qed.

(** X10.  A sequence of [increment_version] calls on a configuration that
    serializes, whose history is a list and whose version reads as three
    numbers: no call raises; the history grows by one entry per call, and
    the entries record, in order, the version each call started from; the
    final version is the start version bumped level by level, and it is
    greater than the start version (by major, then minor, then patch) as
    soon as there is one call. *)
Theorem increment_versions_audit_trail (levels : list string) :
  forall (c : t) (d : list (string * Py.value)) (h : list Py.value)
         (v : Z * Z * Z),
    to_dict_pairs E c = Ok d ->
    config_history c = Py.VList h ->
    parse_version (config_version c) = Ok v ->
    exists c' h' versions,
      increment_versions E c levels = (c', Ok versions) /\
      config_history c' = Py.VList (h ++ h') /\
      List.length h' = List.length levels /\
      map recorded_version h' =
        map Some (firstn (List.length levels)
                         (config_version c :: map Py.VStr versions)) /\
      parse_version (config_version c') =
        Ok (fold_left (fun v l => bump l v) levels v) /\
      (levels <> [] ->
       version_lt v (fold_left (fun v l => bump l v) levels v)).
Proof.
  induction levels as [|level levels IH]; intros c d h v Hd Hh Hv.
  - exists c, [], []. cbn. rewrite app_nil_r. repeat split; try assumption.
    intros H. now elim H.
  - pose proof (increment_version_ok c level v d h Hd Hh Hv) as H1. cbv zeta in H1.
    set (v1 := bump level v) in *.
    set (version := format_version (fst (fst v1)) (snd (fst v1)) (snd v1)) in *.
    set (c1 := set_config_version _ _) in H1.
    destruct (to_dict_pairs_history_version c d
                (Py.VList (h ++ [history_entry E d])) (Py.VStr version) Hd)
      as (d1 & Hd1). fold c1 in Hd1.
    assert (Hh1 : config_history c1 = Py.VList (h ++ [history_entry E d])).
    { unfold c1. rewrite (proj2 (set_version_history _ _)).
      apply (proj2 (set_history_version _ _)). }
    assert (Hv1 : parse_version (config_version c1) = Ok v1).
    { unfold c1. rewrite (proj1 (set_version_history _ _)).
      unfold version. destruct v1 as [[M m] p]. apply parse_format_version. }
    destruct (IH c1 d1 _ v1 Hd1 Hh1 Hv1) as (c' & h' & vs & Hrun & Hh' & Hlen & Hrec & Hpv & _).
    exists c', (history_entry E d :: h'), (version :: vs).
    cbn [increment_versions]. rewrite H1, Hrun.
    split; [reflexivity|]. split; [now rewrite Hh', <- app_assoc|].
    split; [simpl; now rewrite Hlen|]. split.
    + cbn [List.length firstn map]. rewrite (recorded_version_entry c d Hd). f_equal.
      rewrite Hrec. unfold c1. now rewrite (proj1 (set_version_history _ _)).
    + split; [exact Hpv|]. intros _. apply bumps_version_lt. discriminate.
Qed.

Lemma py_int_raises (s : string) (e : exn) :
  py_int s = Raise e -> exists msg, e = ValueError msg.
Proof.
  unfold py_int. destruct (lstrip (rstrip s)) as [|c rest].
  - intros H. injection H as <-. eexists. reflexivity.
  - destruct (Ascii.eqb c "-"); [|destruct (Ascii.eqb c "+")];
      destruct (py_digits false _); intros H; try discriminate;
      injection H as <-; eexists; reflexivity.
Qed.

Lemma ints_cases (parts : list string) :
  (exists msg, ints parts = Raise (ValueError msg)) \/
  (exists zs, ints parts = Ok zs /\ List.length zs = List.length parts).
Proof.
  induction parts as [|p parts IH]; [right; exists []; split; reflexivity|].
  simpl. destruct (py_int p) as [z|e] eqn:Ep.
  - cbn [bind]. destruct IH as [(msg & ->) | (zs & -> & Hlen)].
    + left. exists msg. reflexivity.
    + right. exists (z :: zs). split; [reflexivity | simpl; now rewrite Hlen].
  - left. destruct (py_int_raises p e Ep) as (msg & ->). exists msg. reflexivity.
Qed.

Lemma parse_version_parts (s : string) :
  List.length (split "." s) <> 3%nat ->
  exists msg, parse_version (Py.VStr s) = Raise (ValueError msg).
Proof.
  intros Hn. unfold parse_version.
  destruct (ints_cases (firstn 4 (split "." s))) as [(msg & ->) | (zs & -> & Hlen)].
  - exists msg. reflexivity.
  - cbn [bind]. rewrite length_firstn in Hlen.
    destruct zs as [|a [|b [|c [|e zs]]]]; try (eexists; reflexivity).
    exfalso. cbn [List.length] in Hlen. lia.
Qed.

(** X11.  A version that does not have exactly three dot-separated parts
    makes [increment_version] raise [ValueError]; by then [add_to_history]
    has run, so the object is left with the snapshot appended to its
    history and with its version unchanged. *)
Theorem increment_version_malformed_version (c : t) (level : string)
    (d : list (string * Py.value)) (h : list Py.value) (s : string) :
  to_dict_pairs E c = Ok d ->
  config_history c = Py.VList h ->
  config_version c = Py.VStr s ->
  List.length (split "." s) <> 3%nat ->
  exists msg,
    increment_version E c level =
    (set_config_history c (Py.VList (h ++ [history_entry E d])),
     Raise (ValueError msg)).
Proof.
  intros Hd Hh Hs Hn.
  destruct (parse_version_parts s Hn) as (msg & Hp). exists msg.
  unfold increment_version, add_to_history. rewrite Hd. cbn [bind]. rewrite Hh.
  rewrite (proj1 (set_history_version c _)), Hs, Hp. reflexivity.
Qed.
End ConfigVersionSequenceFacts.

Lemma increment_versions_audit_trail_witness :
  match Config.example_config with
  | Some c =>
      exists c' versions,
        Config.increment_versions Config.example_base_env c ["minor"; "patch"]%string =
          (c', Ok versions) /\
        Config.parse_version (Config.config_version c') = Ok (1, 5, 1)
  | None => False
  end.
Proof.
  destruct Config.example_config as [c|] eqn:Ec; [|discriminate Ec].
  assert (Hc : Some c = Config.example_config) by (symmetry; exact Ec).
  vm_compute in Hc. injection Hc as ->. clear Ec.
  match goal with
  | |- exists c' versions, Config.increment_versions ?E ?c ?l = _ /\ _ =>
      destruct (Config.to_dict_pairs E c) as [d|] eqn:Ed;
        [|vm_compute in Ed; discriminate Ed];
      destruct (increment_versions_audit_trail E l c d [] (1, 4, 2)
                  Ed eq_refl eq_refl) as (c' & h' & vs & H1 & _ & _ & _ & H5 & _)
  end.
  exists c', vs. split; [exact H1 | exact H5].
Defined.

Lemma increment_version_malformed_version_witness :
  match Config.example_config with
  | Some c =>
      exists msg,
        snd (Config.increment_version Config.example_base_env
               (Config.set_config_version c (Py.VStr "1.4")) "patch") =
        Raise (ValueError msg)
  | None => False
  end.
Proof.
  destruct Config.example_config as [c|] eqn:Ec; [|discriminate Ec].
  assert (Hc : Some c = Config.example_config) by (symmetry; exact Ec).
  vm_compute in Hc. injection Hc as ->. clear Ec.
  match goal with
  | |- exists msg, snd (Config.increment_version ?E ?c ?l) = _ =>
      destruct (Config.to_dict_pairs E c) as [d|] eqn:Ed;
        [|vm_compute in Ed; discriminate Ed];
      destruct (increment_version_malformed_version E c l d [] "1.4"
                  Ed eq_refl eq_refl ltac:(vm_compute; lia)) as (msg & H)
  end.
  exists msg. rewrite H. reflexivity.
Defined.

Section ConfigKnownKeysFacts.
Import Config.

Variable E : env.

(** X12.  [from_dict] reads a document only through the keys of
    [known_keys]: two documents that agree on them load to the same
    configuration with the same warnings, or fail alike.  Hence unknown
    keys are ignored and the order of the keys does not matter. *)
Theorem from_dict_reads_known_keys (d d' : list (string * Py.value)) :
  (forall k, known_key k = true -> Py.dict_get d k = Py.dict_get d' k) ->
  from_dict E (Py.VDict d) = from_dict E (Py.VDict d').
Proof.
  intros H.
  assert (Hget : forall k default, known_key k = true -> dget d k default = dget d' k default).
  { intros k default Hk. unfold dget. now rewrite (H k Hk). }
  assert (Hhas : forall k, known_key k = true -> Py.dict_has d k = Py.dict_has d' k).
  { intros k Hk. unfold Py.dict_has. now rewrite (H k Hk). }
  unfold from_dict, Py.py_in, Py.getitem.
  rewrite (Hhas "preprocessing_config"%string eq_refl).
  rewrite (H "preprocessing_config"%string eq_refl).
  rewrite (Hhas "created_at"%string eq_refl).
  rewrite (Hhas "config_history"%string eq_refl).
  rewrite (Hget "created_at"%string _ eq_refl).
  rewrite (Hget "config_history"%string _ eq_refl).
  assert (Hargs : forall pc, from_dict_args d pc = from_dict_args d' pc).
  { intros pc. unfold from_dict_args.
    repeat match goal with
           | |- context [dget d ?k ?v] => rewrite (Hget k v eq_refl)
           end.
    reflexivity. }
  unfold lift, lbind.
  destruct (Py.dict_has d' "preprocessing_config"); [|now rewrite Hargs].
  destruct (Py.dict_get d' "preprocessing_config") as [v|]; cbn [bind].
  - destruct (pc_from_dict E v); cbn [bind]; [now rewrite Hargs | reflexivity].
  - reflexivity.
Qed.
End ConfigKnownKeysFacts.

Lemma from_dict_reads_known_keys_witness :
  Config.from_dict Config.example_base_env
    (Py.VDict [("epochs", Py.VInt 5)]%string) =
  Config.from_dict Config.example_base_env
    (Py.VDict [("note", Py.VStr "draft"); ("epochs", Py.VInt 5)]%string).
Proof.
  apply from_dict_reads_known_keys.
  intros k Hk. cbn [Py.dict_get].
  destruct (String.eqb "note" k) eqn:Ek; [|reflexivity].
  apply String.eqb_eq in Ek. subst k. vm_compute in Hk. discriminate Hk.
Defined.

(** ** Model registry *)

Section ModelRegistryFacts.
Import ModelRegistry.

Lemma append_inj_l (a b c : string) : (a ++ b)%string = (a ++ c)%string -> b = c.
Proof. induction a as [|x a IH]; simpl; intros H; [exact H | injection H as H; auto]. Qed.

Lemma str_of_Z_inj (x y : Z) : Config.str_of_Z x = Config.str_of_Z y -> x = y.
Proof.
  intros H. pose proof (py_int_str_of_Z x) as Hx. rewrite H, py_int_str_of_Z in Hx.
  now injection Hx.
Qed.

Lemma versioned_name_inj (base : string) (x y : Z) :
  versioned_name base x = versioned_name base y -> x = y.
Proof.
  unfold versioned_name. intros H.
  apply append_inj_l in H. apply (append_inj_l "_v") in H. now apply str_of_Z_inj.
Qed.

Lemma versioned_name_not_base (base : string) (x : Z) :
  versioned_name base x <> base.
Proof.
  unfold versioned_name. intros H.
  apply (f_equal String.length) in H. rewrite length_append in H.
  simpl in H. lia.
Qed.

Lemma dict_has_in (d : list (string * Py.value)) (k : string) :
  Py.dict_has d k = true -> In k (map fst d).
Proof.
  unfold Py.dict_has. induction d as [|[k' v] d IH]; simpl; [discriminate|].
  destruct (String.eqb k' k) eqn:E.
  - apply String.eqb_eq in E. now left.
  - intros H. right. now apply IH.
Qed.

Lemma candidates_nodup (base : string) (v : Z) (n : nat) :
  NoDup (candidates base v n).
Proof.
  unfold candidates. apply Finite.Injective_map_NoDup; [|apply seq_NoDup].
  intros i j H. apply versioned_name_inj in H. lia.
Qed.

Lemma candidates_S (base : string) (v : Z) (n : nat) :
  candidates base v (S n) = versioned_name base v :: candidates base (v + 1) n.
Proof.
  unfold candidates. cbn [seq map]. rewrite Z.add_0_r. f_equal.
  rewrite <- seq_shift, map_map. apply map_ext. intros i. f_equal. lia.
Qed.

(** The loop by its outcome. *)
Lemma free_name_cases (models : list (string * Py.value)) (base : string)
    (fuel : nat) :
  forall (name : string) (v : Z),
    match free_name models base name v fuel with
    | Some r =>
        Py.dict_has models r = false /\
        exists n, (n <= fuel)%nat /\
                  r = last (name :: candidates base v n) EmptyString /\
                  forall x, In x (removelast (name :: candidates base v n)) ->
                            Py.dict_has models x = true
    | None =>
        forall x, In x (name :: candidates base v fuel) ->
                  Py.dict_has models x = true
    end.
Proof.
  induction fuel as [|fuel IH]; intros name v; cbn [free_name].
  - destruct (Py.dict_has models name) eqn:Hn; cbn [negb].
    + intros x [<- | []]. exact Hn.
    + split; [exact Hn|]. exists 0%nat. split; [lia|]. split; [reflexivity|].
      intros x [].
  - destruct (Py.dict_has models name) eqn:Hn; cbn [negb].
    + specialize (IH (versioned_name base v) (v + 1)).
      destruct (free_name models base (versioned_name base v) (v + 1) fuel) as [r|].
      * destruct IH as (Hr & n & Hle & Hlast & Hall). split; [exact Hr|].
        exists (S n). split; [lia|]. rewrite candidates_S. split.
        -- rewrite Hlast. reflexivity.
        -- intros x Hx. cbn [removelast] in Hx.
           destruct Hx as [<- | Hx]; [exact Hn|]. apply Hall. exact Hx.
      * intros x Hx. rewrite candidates_S in Hx.
        destruct Hx as [<- | Hx]; [exact Hn | now apply IH].
    + split; [exact Hn|]. exists 0%nat. split; [lia|]. split; [reflexivity|].
      intros x [].
Qed.

(** The registry is always large enough as fuel. *)
Lemma free_name_terminates (models : list (string * Py.value)) (base : string)
    (fuel : nat) :
  (List.length models <= fuel)%nat ->
  free_name models base base 1 fuel <> None.
Proof.
  intros Hf Hnone. pose proof (free_name_cases models base fuel base 1) as H.
  rewrite Hnone in H.
  assert (Hnd : NoDup (base :: candidates base 1 fuel)).
  { constructor; [|apply candidates_nodup].
    unfold candidates. intros Hin. apply in_map_iff in Hin.
    destruct Hin as (i & Hi & _). exact (versioned_name_not_base base _ Hi). }
  assert (Hincl : incl (base :: candidates base 1 fuel) (map fst models)).
  { intros x Hx. apply dict_has_in. now apply H. }
  pose proof (NoDup_incl_length Hnd Hincl) as Hlen.
  cbn [List.length] in Hlen. unfold candidates in Hlen.
  rewrite !length_map, length_seq in Hlen. lia.
Qed.

Lemma dict_get_set_same (d : list (string * Py.value)) (k : string) (v : Py.value) :
  Py.dict_get (Py.dict_set d k v) k = Some v.
Proof.
  induction d as [|[k' v'] d IH]; simpl.
  - now rewrite String.eqb_refl.
  - destruct (String.eqb k' k) eqn:E; simpl.
    + now rewrite String.eqb_refl.
    + now rewrite E.
Qed.

Lemma dict_get_set_other (d : list (string * Py.value)) (k k' : string)
    (v : Py.value) :
  k' <> k -> Py.dict_get (Py.dict_set d k v) k' = Py.dict_get d k'.
Proof.
  intros Hne. induction d as [|[k0 v0] d IH]; simpl.
  - destruct (String.eqb k k') eqn:E; [|reflexivity].
    apply String.eqb_eq in E. congruence.
  - destruct (String.eqb k0 k) eqn:E; simpl.
    + apply String.eqb_eq in E. subst k0.
      destruct (String.eqb k k') eqn:E'; [|reflexivity].
      apply String.eqb_eq in E'. congruence.
    + destruct (String.eqb k0 k'); [reflexivity | exact IH].
Qed.

(** X13.  [register_model] never overwrites an entry.  Its loop ends
    within as many rounds as the registry has entries, and the name it
    returns is a free one: the requested name if that is free, otherwise
    the first free one of [name_v1], [name_v2], ... (every earlier one is
    taken).  The metadata is stored under that name and [get_model]
    returns it; [get_model] of any other name gives what it gave before.
    This holds whether or not writing the registry file raises. *)
Theorem register_model_never_overwrites
    (save : list (string * Py.value) -> result unit) (fuel : nat)
    (models : list (string * Py.value)) (model_name : string)
    (architecture dataset_name experiment_id parameters metrics : Py.value)
    (checkpoint_path : option string) (timestamp : string) :
  (List.length models <= fuel)%nat ->
  exists name n,
    let metadata := model_metadata name architecture dataset_name experiment_id
                      parameters metrics checkpoint_path timestamp in
    let models' := Py.dict_set models name metadata in
    register_model save fuel models model_name architecture dataset_name
      experiment_id parameters metrics checkpoint_path timestamp =
      Some (models',
            match save models' with Ok _ => Ok name | Raise e => Raise e end) /\
    Py.dict_has models name = false /\
    name = last (model_name :: candidates model_name 1 n) EmptyString /\
    (forall x, In x (removelast (model_name :: candidates model_name 1 n)) ->
               Py.dict_has models x = true) /\
    get_model models' name = Ok metadata /\
    (forall other, other <> name ->
                   get_model models' other = get_model models other).
Proof.
  intros Hf.
  pose proof (free_name_terminates models model_name fuel Hf) as Hterm.
  pose proof (free_name_cases models model_name fuel model_name 1) as Hcases.
  unfold register_model.
  destruct (free_name models model_name model_name 1 fuel) as [name|];
    [|now elim Hterm].
  destruct Hcases as (Hfree & n & _ & Hlast & Hall).
  exists name, n. cbv zeta.
  split; [reflexivity|]. split; [exact Hfree|]. split; [exact Hlast|].
  split; [exact Hall|]. split.
  - unfold get_model, Py.dict_has, Py.getitem.
    now rewrite dict_get_set_same.
  - intros other Hne. unfold get_model, Py.dict_has, Py.getitem.
    now rewrite (dict_get_set_other models name other _ Hne).
Qed.

Lemma register_model_never_overwrites_witness :
  let models := [("cnn_face", Py.VInt 0); ("cnn_face_v1", Py.VInt 1)]%string in
  exists name n,
    fst (match register_model (fun _ => Ok tt) 2 models "cnn_face"
                 (Py.VStr "cnn") (Py.VStr "dataset1") (Py.VStr "exp_1")
                 (Py.VDict []) Py.VNone None "20250501_100000" with
         | Some r => r
         | None => ([], Raise (RuntimeError ""))
         end) =
      Py.dict_set models name
        (model_metadata name (Py.VStr "cnn") (Py.VStr "dataset1") (Py.VStr "exp_1")
           (Py.VDict []) Py.VNone None "20250501_100000") /\
    name = last ("cnn_face"%string :: candidates "cnn_face" 1 n) EmptyString /\
    Py.dict_has models name = false.
Proof.
  intros models.
  destruct (register_model_never_overwrites (fun _ => Ok tt) 2 models "cnn_face"
              (Py.VStr "cnn") (Py.VStr "dataset1") (Py.VStr "exp_1")
              (Py.VDict []) Py.VNone None "20250501_100000" ltac:(simpl; lia))
    as (name & n & H1 & H2 & H3 & _).
  exists name, n. cbv zeta in H1. rewrite H1. cbn [fst].
  split; [reflexivity|]. split; [exact H3 | exact H2].
Defined.
End ModelRegistryFacts.

(** ** Ranking and the cross-validation phase *)

Section RankingFacts.
Import Phases.

Lemma strongly_sorted_firstn_skipn {A : Type} (R : A -> A -> Prop) (k : nat)
    (l : list A) :
  StronglySorted R l ->
  forall a b, In a (firstn k l) -> In b (skipn k l) -> R a b.
Proof.
  revert l. induction k as [|k IH]; intros l Hs a b Ha Hb; [contradiction|].
  destruct l as [|x l]; [contradiction|].
  inversion Hs as [|? ? Hl Hx]; subst. simpl in Ha, Hb.
  destruct Ha as [<- | Ha].
  - rewrite Forall_forall in Hx. apply Hx.
    rewrite <- (firstn_skipn k l). apply in_or_app. now right.
  - now apply (IH l).
Qed.

Lemma insert_best_perm (e : string * Q) (l : list (string * Q)) :
  Permutation (e :: l) (insert_best e l).
Proof.
  induction l as [|x l IH]; simpl; [apply Permutation_refl|].
  destruct (EarlyStopping.Qltb (snd e) (snd x)).
  - eapply Permutation_trans; [apply perm_swap|]. now apply perm_skip.
  - apply Permutation_refl.
Qed.

Lemma sort_best_first_perm (l : list (string * Q)) :
  Permutation l (sort_best_first l).
Proof.
  induction l as [|e l IH]; simpl; [apply perm_nil|].
  eapply Permutation_trans; [apply perm_skip, IH | apply insert_best_perm].
Qed.

Lemma insert_best_sorted (e : string * Q) (l : list (string * Q)) :
  StronglySorted better_eq l -> StronglySorted better_eq (insert_best e l).
Proof.
  induction l as [|x l IH]; intros Hs; simpl.
  - constructor; [constructor | constructor].
  - inversion Hs as [|? ? Hl Hx]; subst.
    destruct (EarlyStopping.Qltb (snd e) (snd x)) eqn:E.
    + apply Qltb_lt in E. constructor; [now apply IH|].
      rewrite Forall_forall in *. intros y Hy.
      apply (Permutation_in _ (Permutation_sym (insert_best_perm e l))) in Hy.
      destruct Hy as [<- | Hy]; [unfold better_eq; lra | now apply Hx].
    + assert (Hge : (snd x <= snd e)%Q).
      { destruct (Qlt_le_dec (snd e) (snd x)) as [Hlt | Hle]; [|exact Hle].
        apply Qltb_lt in Hlt. congruence. }
      constructor; [exact Hs|]. constructor; [exact Hge|].
      rewrite Forall_forall in *. intros y Hy. specialize (Hx y Hy).
      unfold better_eq in *. lra.
Qed.

Lemma sort_best_first_sorted (l : list (string * Q)) :
  StronglySorted better_eq (sort_best_first l).
Proof.
  induction l as [|e l IH]; simpl; [constructor | now apply insert_best_sorted].
Qed.

(** The names with scores are distinct. *)
Lemma add_score_names (arch_scores : list (string * list Py.value)) (arch : string)
    (accuracy : Py.value) :
  NoDup (map fst arch_scores) ->
  NoDup (map fst (add_score arch_scores arch accuracy)) /\
  (forall a, In a (map fst (add_score arch_scores arch accuracy)) ->
             a = arch \/ In a (map fst arch_scores)).
Proof.
  induction arch_scores as [|[a l] rest IH]; intros Hnd; simpl.
  - split; [repeat constructor; intros []|]. intros a [<- | []]. now left.
  - inversion Hnd as [|? ? Ha Hrest]; subst.
    destruct (String.eqb a arch) eqn:E; simpl.
    + split; [exact Hnd|]. intros b Hb. now right.
    + destruct (IH Hrest) as [IH1 IH2]. split.
      * constructor; [|exact IH1]. intros Hin.
        destruct (IH2 a Hin) as [-> | Hin']; [|now apply Ha].
        rewrite String.eqb_refl in E. discriminate.
      * intros b [<- | Hb]; [right; now left|].
        destruct (IH2 b Hb) as [-> | Hb']; [now left | right; now right].
Qed.

Lemma score_arch_names (its : list (string * Py.value)) :
  forall acc acc',
    NoDup (map fst acc) ->
    for_each score_arch its acc = Ok acc' ->
    NoDup (map fst acc') /\
    (forall a, In a (map fst acc') -> In a (map fst its) \/ In a (map fst acc)).
Proof.
  induction its as [|[arch r] its IH]; intros acc acc' Hnd H; cbn [for_each] in H.
  - injection H as <-. split; [exact Hnd | intros a Ha; now right].
  - destruct (score_arch acc (arch, r)) as [acc1|] eqn:E1; cbn [bind] in H;
      [|discriminate].
    assert (H1 : NoDup (map fst acc1) /\
                 forall a, In a (map fst acc1) -> a = arch \/ In a (map fst acc)).
    { unfold score_arch in E1.
      destruct (Py.py_in "test_metrics" r) as [has|]; cbn [bind] in E1;
        [|discriminate].
      destruct (if has then _ else _) as [keep|]; cbn [bind] in E1;
        [|discriminate].
      destruct keep.
      - destruct (Py.getitem r "test_metrics") as [tm|]; cbn [bind] in E1;
          [|discriminate].
        destruct (Py.getitem0 tm) as [first|]; cbn [bind] in E1; [|discriminate].
        destruct (Py.get first "accuracy" (Py.VInt 0)) as [acc0|];
          cbn [bind] in E1; [|discriminate].
        injection E1 as <-. now apply add_score_names.
      - injection E1 as <-. split; [exact Hnd | intros a Ha; now right]. }
    destruct H1 as [Hnd1 Hin1].
    destruct (IH acc1 acc' Hnd1 H) as [Hnd' Hin']. split; [exact Hnd'|].
    intros a Ha. destruct (Hin' a Ha) as [Hi | Hi]; [left; now right|].
    destruct (Hin1 a Hi) as [-> | Hacc]; [left; now left | now right].
Qed.

Lemma collect_scores_nodup (architecture_results : Py.value)
    (arch_scores : list (string * list Py.value)) :
  collect_scores architecture_results = Ok arch_scores ->
  NoDup (map fst arch_scores).
Proof.
  unfold collect_scores.
  destruct (items architecture_results) as [its|]; cbn [bind]; [|discriminate].
  assert (Hnil : NoDup (map fst (@nil (string * list Py.value))))
    by constructor.
  revert Hnil. generalize (@nil (string * list Py.value)). revert arch_scores.
  induction its as [|[t r] its IH]; intros res acc Hnd H; cbn [for_each] in H.
  - now injection H as <-.
  - destruct (score_type acc (t, r)) as [acc1|] eqn:E1; cbn [bind] in H;
      [|discriminate].
    apply (IH res acc1); [|exact H].
    unfold score_type in E1.
    destruct (Py.py_in "results" r) as [has|]; cbn [bind] in E1; [|discriminate].
    destruct has; [|now injection E1 as <-].
    destruct (Py.getitem r "results") as [inner|]; cbn [bind] in E1;
      [|discriminate].
    destruct (items inner) as [its'|]; cbn [bind] in E1; [|discriminate].
    exact (proj1 (score_arch_names its' acc acc1 Hnd E1)).
Qed.

Lemma average_scores_names (arch_scores : list (string * list Py.value)) :
  forall avgs,
    average_scores arch_scores = Ok avgs ->
    NoDup (map fst arch_scores) ->
    NoDup (map fst avgs) /\ incl (map fst avgs) (map fst arch_scores).
Proof.
  induction arch_scores as [|[a scores] rest IH]; intros avgs H Hnd;
    cbn [average_scores] in H.
  - injection H as <-. split; [constructor | intros x []].
  - inversion Hnd as [|? ? Ha Hrest]; subst.
    destruct scores as [|s0 scores].
    + destruct (IH avgs H Hrest) as [H1 H2]. split; [exact H1|].
      intros x Hx. right. now apply H2.
    + destruct (CrossValidation.numbers (s0 :: scores)) as [qs|];
        cbn [bind] in H; [|discriminate].
      destruct (average_scores rest) as [more|]; cbn [bind] in H; [|discriminate].
      injection H as <-.
      destruct (IH more eq_refl Hrest) as [H1 H2]. simpl. split.
      * constructor; [|exact H1]. intros Hin. apply Ha. now apply H2.
      * intros x [<- | Hx]; [now left | right; now apply H2].
Qed.

Lemma nodup_fst_unique {B : Type} (l : list (string * B)) (a : string) (x y : B) :
  NoDup (map fst l) -> In (a, x) l -> In (a, y) l -> x = y.
Proof.
  induction l as [|[k v] l IH]; intros Hnd Hx Hy; [contradiction|].
  simpl in Hnd. inversion Hnd as [|? ? Hk Hl]; subst.
  destruct Hx as [Ex | Hx], Hy as [Ey | Hy].
  - congruence.
  - injection Ex as -> ->. exfalso. apply Hk.
    change a with (fst (a, y)). now apply in_map.
  - injection Ey as -> ->. exfalso. apply Hk.
    change a with (fst (a, x)). now apply in_map.
  - now apply IH.
Qed.

(** X14.  [identify_top_architectures] returns [min(n_top, k)] distinct
    names of the [k] architectures that have an average accuracy, and they
    are the best ones: every architecture it returns has an average at
    least as high as every scored architecture it leaves out. *)
Theorem top_architectures_are_best (architecture_results : Py.value)
    (n_top : nat) (top : list string) :
  identify_top_architectures architecture_results n_top = Ok top ->
  exists avg_scores,
    averages architecture_results = Ok avg_scores /\
    List.length top = Nat.min n_top (List.length avg_scores) /\
    NoDup top /\
    (forall a, In a top -> exists q, In (a, q) avg_scores) /\
    (forall a qa b qb,
        In (a, qa) avg_scores -> In (b, qb) avg_scores ->
        In a top -> ~ In b top -> (qb <= qa)%Q).
Proof.
  unfold identify_top_architectures, averages. intros H.
  destruct (collect_scores architecture_results) as [arch_scores|] eqn:Ec;
    cbn [bind] in *; [|discriminate].
  destruct (average_scores arch_scores) as [avgs|] eqn:Ea; cbn [bind] in H;
    [|discriminate].
  injection H as <-.
  exists avgs. split; [reflexivity|].
  destruct (average_scores_names arch_scores avgs Ea
              (collect_scores_nodup _ _ Ec)) as [Hnd _].
  pose proof (sort_best_first_perm avgs) as Hp.
  pose proof (sort_best_first_sorted avgs) as Hs.
  set (sorted := sort_best_first avgs) in *.
  assert (Hnds : NoDup (map fst sorted))
    by exact (Permutation_NoDup (Permutation_map fst Hp) Hnd).
  split; [|split; [|split]].
  - rewrite length_map, length_firstn. now rewrite (Permutation_length Hp).
  - rewrite <- (firstn_skipn n_top sorted), map_app in Hnds.
    exact (NoDup_app_remove_r _ _ Hnds).
  - intros a Ha. apply in_map_iff in Ha. destruct Ha as ([a' q] & <- & Hin).
    exists q. apply (Permutation_in _ (Permutation_sym Hp)).
    rewrite <- (firstn_skipn n_top sorted). apply in_or_app. now left.
  - intros a qa b qb Ha Hb Hta Htb.
    apply in_map_iff in Hta. destruct Hta as ([a' qa'] & Ea' & Hina).
    simpl in Ea'. subst a'.
    assert (qa' = qa).
    { apply (nodup_fst_unique sorted a); [exact Hnds| |].
      - rewrite <- (firstn_skipn n_top sorted). apply in_or_app. now left.
      - exact (Permutation_in _ Hp Ha). }
    subst qa'.
    apply (Permutation_in _ Hp) in Hb.
    rewrite <- (firstn_skipn n_top sorted) in Hb. apply in_app_or in Hb.
    destruct Hb as [Hb | Hb].
    + exfalso. apply Htb. apply in_map_iff. exists (b, qb). split; [reflexivity | exact Hb].
    + exact (strongly_sorted_firstn_skipn better_eq n_top sorted Hs _ _ Hina Hb).
Qed.

Lemma top_architectures_are_best_witness :
  exists avg_scores,
    averages example_results = Ok avg_scores /\
    List.length ["cnn"; "attention"]%string = Nat.min 2 (List.length avg_scores) /\
    NoDup ["cnn"; "attention"]%string.
Proof.
  destruct (top_architectures_are_best example_results 2 ["cnn"; "attention"]%string)
    as (avgs & H1 & H2 & H3 & _).
  - vm_compute. reflexivity.
  - exists avgs. split; [exact H1|]. split; [exact H2 | exact H3].
Defined.
End RankingFacts.

Section CvPhaseFacts.
Import Phases.

Variable w : Sweep.world.
Variable cv : string -> string -> result (option CrossValidation.aggregate).

(** The loop over the units that are not skipped. *)
Lemma cv_loop_units (models_to_rerun : option (list string))
    (top_architectures dataset_names : list string) :
  forall st,
    cv_loop w cv models_to_rerun top_architectures dataset_names st =
    fold_left (fun acc u => cv_unit w cv (fst u) (snd u) acc)
              (cv_units models_to_rerun top_architectures dataset_names) st.
Proof.
  unfold cv_loop, cv_units.
  induction top_architectures as [|arch archs IH]; intros st; [reflexivity|].
  cbn [fold_left filter flat_map].
  destruct (not_to_rerun models_to_rerun arch); cbn [negb]; [apply IH|].
  cbn [flat_map]. rewrite fold_left_app, IH. f_equal.
  generalize st. clear.
  induction dataset_names as [|d ds IH]; intros st; [reflexivity|].
  cbn [fold_left map fst snd]. apply IH.
Qed.

Lemma assoc_set_inner_same (inner : list (string * CrossValidation.aggregate))
    (d : string) (r : CrossValidation.aggregate) :
  assoc (set_inner inner d r) d = Some r.
Proof.
  induction inner as [|[k v] inner IH]; simpl.
  - now rewrite String.eqb_refl.
  - destruct (String.eqb k d) eqn:E; simpl; rewrite E; [reflexivity | exact IH].
Qed.

Lemma assoc_set_inner_other (inner : list (string * CrossValidation.aggregate))
    (d d' : string) (r : CrossValidation.aggregate) :
  d' <> d -> assoc (set_inner inner d r) d' = assoc inner d'.
Proof.
  intros Hne. induction inner as [|[k v] inner IH]; simpl.
  - destruct (String.eqb d d') eqn:E; [|reflexivity].
    apply String.eqb_eq in E. congruence.
  - destruct (String.eqb k d) eqn:E; simpl.
    + apply String.eqb_eq in E. subst k.
      destruct (String.eqb d d') eqn:E'; [|reflexivity].
      apply String.eqb_eq in E'. congruence.
    + destruct (String.eqb k d'); [reflexivity | exact IH].
Qed.

Lemma lookup_store_cv_same
    (res : list (string * list (string * CrossValidation.aggregate)))
    (arch d : string) (r : CrossValidation.aggregate) :
  lookup_cv (store_cv res arch d r) arch d = Some r.
Proof.
  unfold lookup_cv. induction res as [|[k inner] res IH]; simpl.
  - rewrite String.eqb_refl. simpl. now rewrite String.eqb_refl.
  - destruct (String.eqb k arch) eqn:E; simpl; rewrite E.
    + apply assoc_set_inner_same.
    + exact IH.
Qed.

Lemma lookup_store_cv_other
    (res : list (string * list (string * CrossValidation.aggregate)))
    (arch d arch' d' : string) (r : CrossValidation.aggregate) :
  (arch', d') <> (arch, d) ->
  lookup_cv (store_cv res arch d r) arch' d' = lookup_cv res arch' d'.
Proof.
  intros Hne. unfold lookup_cv. induction res as [|[k inner] res IH]; simpl.
  - destruct (String.eqb arch arch') eqn:E; [|reflexivity].
    apply String.eqb_eq in E. subst arch'. simpl.
    destruct (String.eqb d d') eqn:E'; [|reflexivity].
    apply String.eqb_eq in E'. congruence.
  - destruct (String.eqb k arch) eqn:E; simpl.
    + apply String.eqb_eq in E. subst k.
      destruct (String.eqb arch arch') eqn:E'; [|reflexivity].
      apply String.eqb_eq in E'. subst arch'.
      apply assoc_set_inner_other. congruence.
    + destruct (String.eqb k arch'); [reflexivity | exact IH].
Qed.

Lemma cv_unit_cases (arch dataset_name : string) (st : cv_state) :
  let ku := (Sweep.probes (sweep st), (arch, dataset_name)) in
  let st' := cv_unit w cv arch dataset_name st in
  Sweep.probes (sweep st') = S (Sweep.probes (sweep st)) /\
  cv_failed st' =
    cv_failed st ++
    (if cv_fails w cv ku then [(arch ++ "_" ++ dataset_name)%string] else []) /\
  (cv_fails w cv ku = true -> cv_results st' = cv_results st) /\
  (cv_fails w cv ku = false ->
   exists r, cv arch dataset_name = Ok (Some r) /\
             cv_results st' = store_cv (cv_results st) arch dataset_name r).
Proof.
  intros ku st'. subst ku st'. unfold cv_unit, cv_fails, Sweep.probe_low.
  cbn [fst snd].
  pose proof (check_disk_space_probes w 2 (sweep st)) as Hs.
  pose proof (check_disk_space_bytes w 2 (sweep st)) as Hb.
  destruct (Sweep.check_disk_space w 2 (sweep st)) as [ok s1].
  cbn [fst snd] in Hs, Hb. subst s1.
  destruct (Z.ltb_spec (Sweep.free_bytes w (Sweep.probes (sweep st)))
                       (2 * Sweep.bytes_per_gb)) as [H | H].
  - apply Hb in H. subst ok. cbn. repeat split; try reflexivity.
    intros Hd. discriminate Hd.
  - destruct ok; [|destruct Hb as [Hb _]; specialize (Hb eq_refl); lia].
    cbn [negb orb].
    destruct (cv arch dataset_name) as [[r|]|e]; cbn; rewrite ?app_nil_r;
      repeat split; try reflexivity; try discriminate.
    intros _. exists r. split; reflexivity.
Qed.

(** The loop over a list of units, in closed form. *)
Lemma cv_units_closed_form (us : list (string * string)) :
  forall st,
    let ran := Sweep.numbered (Sweep.probes (sweep st)) us in
    let st' := fold_left (fun acc u => cv_unit w cv (fst u) (snd u) acc) us st in
    Sweep.probes (sweep st') = (Sweep.probes (sweep st) + List.length us)%nat /\
    cv_failed st' =
      cv_failed st ++
      map (fun ku => (fst (snd ku) ++ "_" ++ snd (snd ku))%string)
          (filter (cv_fails w cv) ran) /\
    ((forall ku, In ku ran -> cv_fails w cv ku = true) ->
     cv_results st' = cv_results st) /\
    (forall ku, In ku ran -> cv_fails w cv ku = false ->
                exists r, cv (fst (snd ku)) (snd (snd ku)) = Ok (Some r) /\
                          lookup_cv (cv_results st') (fst (snd ku)) (snd (snd ku)) =
                            Some r).
Proof.
  induction us as [|[arch d] us IH]; intros st.
  - cbn. rewrite app_nil_r. repeat split; [lia | intros ku []].
  - cbv zeta. cbn [fold_left fst snd].
    destruct (cv_unit_cases arch d st) as (Hp & Hf & Hr & Hok).
    specialize (IH (cv_unit w cv arch d st)). cbv zeta in IH.
    destruct IH as (IHp & IHf & IHr & IHok).
    rewrite IHp, IHf, Hp, Hf.
    unfold Sweep.numbered. cbn [List.length seq combine filter map fst snd].
    split; [lia|]. split; [|split].
    + destruct (cv_fails w cv (Sweep.probes (sweep st), (arch, d)));
        cbn [map fst snd]; rewrite <- app_assoc; reflexivity.
    + intros Hall. rewrite IHr.
      * apply Hr. apply Hall. now left.
      * intros ku Hku. apply Hall. right. rewrite Hp in Hku. exact Hku.
    + intros ku [<- | Hku] Hnf.
      * cbn [fst snd]. destruct (Hok Hnf) as (r & Hcv & Hres).
        exists r. split; [exact Hcv|].
        (* later units leave this entry, or store the same result again *)
        clear IHp IHf IHr IHok Hp Hf Hr Hok Hnf.
        assert (Hl : lookup_cv (cv_results (cv_unit w cv arch d st)) arch d = Some r)
          by (rewrite Hres; apply lookup_store_cv_same).
        clear Hres. revert Hl. generalize (cv_unit w cv arch d st). clear st.
        induction us as [|[a' d'] us IHus]; intros st Hl; [exact Hl|].
        cbn [fold_left fst snd]. apply IHus.
        destruct (cv_unit_cases a' d' st) as (_ & _ & Hr' & Hok').
        destruct (cv_fails w cv (Sweep.probes (sweep st), (a', d'))) eqn:Ef.
        -- now rewrite (Hr' eq_refl).
        -- destruct (Hok' eq_refl) as (r' & Hcv' & Hres'). rewrite Hres'.
           destruct (string_dec a' arch) as [-> | Ha].
           ++ destruct (string_dec d' d) as [-> | Hd].
              ** rewrite Hcv in Hcv'. injection Hcv' as <-.
                 apply lookup_store_cv_same.
              ** rewrite lookup_store_cv_other; [exact Hl | congruence].
           ++ rewrite lookup_store_cv_other; [exact Hl | congruence].
      * apply IHok; [|exact Hnf]. rewrite Hp. exact Hku.
Qed.

End CvPhaseFacts.

Section CvAsWrittenFacts.
Import Phases.

Lemma cv_as_written_none (data_dir_exists : string -> string -> bool)
    (train : string -> string -> nat -> Z -> bool -> result Py.value)
    (n_folds : string -> nat) (random_seed : string -> Z) (arch d : string) :
  cv_as_written data_dir_exists train n_folds random_seed arch d = Ok None.
Proof.
  unfold cv_as_written. destruct (data_dir_exists arch d).
  - apply cross_validation_unbound_fresh_start.
  - reflexivity.
Qed.

Lemma numbered_units (k : nat) (us : list (string * string)) :
  map snd (Sweep.numbered k us) = us.
Proof.
  unfold Sweep.numbered. revert k.
  induction us as [|u us IH]; intros k; [reflexivity|].
  cbn [List.length seq combine map snd]. now rewrite IH.
Qed.

End CvAsWrittenFacts.

Section RankingAfterSweepFacts.
Import Phases.

Lemma dict_get_none_keys (d : list (string * Py.value)) (k : string) :
  Py.dict_get d k = None -> ~ In k (map fst d).
Proof.
  induction d as [|[k' v] d IH]; simpl; [intros _ []|].
  destruct (String.eqb k' k) eqn:E; [discriminate|].
  intros H [Hk | Hin]; [|now apply IH].
  subst k'. rewrite String.eqb_refl in E. discriminate.
Qed.

(** The architectures with scores are among the architectures with
    results. *)
Lemma collect_scores_sweep (res : list (string * list (string * Py.value))) :
  forall acc acc',
    NoDup (map fst acc) ->
    for_each score_type
      (map (fun e => (fst e, Py.VDict [("results"%string, Py.VDict (snd e))])) res)
      acc = Ok acc' ->
    forall a, In a (map fst acc') ->
              In a (map fst acc) \/ exists key inner, In (key, inner) res /\ In a (map fst inner).
Proof.
  induction res as [|[key inner] res IH]; intros acc acc' Hnd H a Ha;
    cbn [map for_each fst snd] in H.
  - injection H as <-. now left.
  - destruct (score_type acc _) as [acc1|] eqn:E1; cbn [bind] in H; [|discriminate].
    unfold score_type in E1. cbn in E1.
    destruct (score_arch_names inner acc acc1 Hnd E1) as [Hnd1 Hin1].
    destruct (IH acc1 acc' Hnd1 H a Ha) as [Hacc1 | (k & i & Hki & Hai)].
    + destruct (Hin1 a Hacc1) as [Hi | Hacc]; [|now left].
      right. exists key, inner. split; [now left | exact Hi].
    + right. exists k, i. split; [now right | exact Hai].
Qed.



End RankingAfterSweepFacts.

(** ** Rerun planner: existing paths and the deletion loop *)

Section RerunTreeFacts.
Import Rerun.

Lemma wf_dir (cs : list (string * node)) :
  wf (Dir cs) <-> NoDup (map fst cs) /\ Forall (fun e => wf (snd e)) cs.
Proof.
  cbn [wf]. split; intros [Hnd H]; (split; [exact Hnd|]).
  - induction cs as [|e cs IH]; [constructor|].
    destruct H as [He H]. constructor; [exact He|].
    apply IH; [|exact H]. now inversion Hnd.
  - induction cs as [|e cs IH]; [exact I|].
    inversion H as [|? ? He Hcs]; subst. split; [exact He|].
    apply IH; [now inversion Hnd | exact Hcs].
Qed.

Lemma child_in (cs : list (string * node)) (x : string) (c : node) :
  NoDup (map fst cs) -> In (x, c) cs -> child cs x = Some c.
Proof.
  induction cs as [|[y n] cs IH]; intros Hnd Hin; [contradiction|].
  simpl in *. inversion Hnd as [|? ? Hy Hcs]; subst.
  destruct Hin as [E | Hin].
  - injection E as -> ->. now rewrite String.eqb_refl.
  - destruct (String.eqb y x) eqn:E; [|now apply IH].
    apply String.eqb_eq in E. subst y. exfalso. apply Hy.
    change x with (fst (x, c)). now apply in_map.
Qed.

Lemma child_some (cs : list (string * node)) (x : string) (c : node) :
  child cs x = Some c -> In (x, c) cs.
Proof.
  induction cs as [|[y n] cs IH]; simpl; [discriminate|].
  destruct (String.eqb y x) eqn:E.
  - apply String.eqb_eq in E. subst y. intros H. injection H as ->. now left.
  - intros H. right. now apply IH.
Qed.

Lemma walk_app (p q : segs) :
  forall n, walk n (p ++ q) =
            match walk n p with Some m => walk m q | None => None end.
Proof.
  induction p as [|x p IH]; intros n; [reflexivity|].
  simpl. destruct n as [|cs]; [reflexivity|].
  destruct (child cs x) as [c|]; [apply IH | reflexivity].
Qed.

Lemma wf_walk (p : segs) :
  forall n m, wf n -> walk n p = Some m -> wf m.
Proof.
  induction p as [|x p IH]; intros n m Hwf H; simpl in H.
  - now injection H as <-.
  - destruct n as [|cs]; [discriminate|].
    destruct (child cs x) as [c|] eqn:Ec; [|discriminate].
    apply (IH c m); [|exact H].
    apply wf_dir in Hwf. destruct Hwf as [_ Hall].
    rewrite Forall_forall in Hall. exact (Hall _ (child_some _ _ _ Ec)).
Qed.

Lemma rlistdir_walk (dironly : bool) (n : node) :
  wf n ->
  forall p, In p (rlistdir dironly n) ->
            p <> [] /\
            exists c, walk n p = Some c /\
                      (dironly = true -> isdir_node c = true).
Proof.
  induction n as [|cs IH] using node_induction; intros Hwf p Hin; [contradiction|].
  apply wf_dir in Hwf. destruct Hwf as [Hnd Hall].
  cbn [rlistdir] in Hin. apply in_flat_map in Hin.
  destruct Hin as ([x c] & Hxc & Hin). cbn [fst snd] in Hin.
  destruct (ishidden x); [contradiction|].
  destruct (dironly && negb (isdir_node c)) eqn:Ed; [contradiction|].
  pose proof (child_in cs x c Hnd Hxc) as Hchild.
  destruct Hin as [<- | Hin].
  - split; [discriminate|]. exists c. cbn [walk]. rewrite Hchild.
    split; [reflexivity|]. intros ->. cbn [andb] in Ed.
    now apply negb_false_iff in Ed.
  - apply in_map_iff in Hin. destruct Hin as (p' & <- & Hin').
    split; [discriminate|].
    rewrite Forall_forall in IH, Hall.
    destruct (IH (x, c) Hxc (Hall (x, c) Hxc) p' Hin') as (_ & m & Hm & Hd).
    exists m. cbn [walk]. rewrite Hchild. split; [exact Hm | exact Hd].
Qed.

Lemma glob1_exists (root : node) (d : segs) (pat : string -> bool)
    (dironly : bool) (p : segs) :
  wf root -> In p (glob1 root d pat dironly) ->
  exists_ root p = true /\ p <> [].
Proof.
  intros Hwf Hin. unfold glob1 in Hin. apply in_map_iff in Hin.
  destruct Hin as (name & <- & Hin).
  apply filter_In in Hin. destruct Hin as [Hin _].
  apply filter_In in Hin. destruct Hin as [Hin _].
  unfold listdir in Hin.
  destruct (walk root d) as [[|cs]|] eqn:Ed; try contradiction.
  apply in_map_iff in Hin. destruct Hin as ([x c] & Hx & Hin). simpl in Hx. subst x.
  apply filter_In in Hin. destruct Hin as [Hin _].
  pose proof (wf_walk d root _ Hwf Ed) as Hwfd. apply wf_dir in Hwfd.
  split; [|destruct d; discriminate].
  unfold exists_. rewrite walk_app, Ed. cbn [walk].
  now rewrite (child_in cs name c (proj1 Hwfd) Hin).
Qed.

Lemma glob0_exists (root : node) (d : segs) (name : string) (p : segs) :
  In p (glob0 root d name) -> exists_ root p = true /\ p <> [].
Proof.
  unfold glob0. destruct (exists_ root (d ++ [name])) eqn:E; [|contradiction].
  intros [<- | []]. split; [exact E | destruct d; discriminate].
Qed.

(** Every path a search of the planner returns exists. *)
Lemma globs_exist (root : node) :
  wf root ->
  (forall p, In p (glob_model_dirs root) -> exists_ root p = true /\ p <> []) /\
  (forall base model p, In p (glob_json root base model) ->
                        exists_ root p = true /\ p <> []) /\
  (forall base model p, In p (glob_named root base model) ->
                        exists_ root p = true /\ p <> []) /\
  (forall base model p, In p (glob_containing root base model) ->
                        exists_ root p = true /\ p <> []).
Proof.
  intros Hwf. repeat split.
  - unfold glob_model_dirs in H. apply in_flat_map in H.
    destruct H as (d & _ & H). exact (proj1 (glob0_exists root d _ p H)).
  - unfold glob_model_dirs in H. apply in_flat_map in H.
    destruct H as (d & _ & H). exact (proj2 (glob0_exists root d _ p H)).
  - unfold glob_json in H. apply in_flat_map in H.
    destruct H as (d & _ & H). exact (proj1 (glob1_exists root d _ _ p Hwf H)).
  - unfold glob_json in H. apply in_flat_map in H.
    destruct H as (d & _ & H). exact (proj2 (glob1_exists root d _ _ p Hwf H)).
  - unfold glob_named in H. apply in_flat_map in H.
    destruct H as (d & _ & H). exact (proj1 (glob0_exists root d _ p H)).
  - unfold glob_named in H. apply in_flat_map in H.
    destruct H as (d & _ & H). exact (proj2 (glob0_exists root d _ p H)).
  - unfold glob_containing in H. apply in_flat_map in H.
    destruct H as (d & _ & H). exact (proj1 (glob1_exists root d _ _ p Hwf H)).
  - unfold glob_containing in H. apply in_flat_map in H.
    destruct H as (d & _ & H). exact (proj2 (glob1_exists root d _ _ p Hwf H)).
Qed.

Lemma sound_add_all (root : node) (ps : list segs) :
  (forall p, In p ps -> exists_ root p = true /\ p <> []) ->
  forall acc, Forall (sound_entry root) acc ->
              Forall (sound_entry root) (add_all ps acc).
Proof.
  unfold add_all. induction ps as [|p ps IH]; intros Hps acc Hacc; [exact Hacc|].
  cbn [fold_left]. apply IH; [intros q Hq; apply Hps; now right|].
  apply Forall_app. split; [exact Hacc|]. constructor; [|constructor].
  destruct (Hps p (or_introl eq_refl)) as [H1 H2].
  unfold sound_entry, mk_entry. cbn [fst snd]. repeat split; assumption.
Qed.

Lemma sound_add_unless_covered (experiment_dir : string) (root : node)
    (ps : list segs) :
  (forall p, In p ps -> exists_ root p = true /\ p <> []) ->
  forall acc, Forall (sound_entry root) acc ->
              Forall (sound_entry root)
                     (add_unless_covered experiment_dir root ps acc).
Proof.
  unfold add_unless_covered.
  induction ps as [|p ps IH]; intros Hps acc Hacc; [exact Hacc|].
  cbn [fold_left]. apply IH; [intros q Hq; apply Hps; now right|].
  destruct (covered experiment_dir root acc p); [exact Hacc|].
  apply Forall_app. split; [exact Hacc|]. constructor; [|constructor].
  destruct (Hps p (or_introl eq_refl)) as [H1 H2].
  unfold sound_entry, mk_entry. cbn [fst snd]. repeat split; assumption.
Qed.

Lemma sound_fold (root : node) (f : list entry -> string -> list entry)
    (models : list string) :
  (forall acc m, Forall (sound_entry root) acc -> Forall (sound_entry root) (f acc m)) ->
  forall acc, Forall (sound_entry root) acc ->
              Forall (sound_entry root) (fold_left f models acc).
Proof.
  intros Hf. induction models as [|m ms IH]; intros acc Hacc; [exact Hacc|].
  cbn [fold_left]. apply IH. now apply Hf.
Qed.

Lemma plan_sound (experiment_dir : string) (root : node)
    (rerun_models : list string) (rerun_cv rerun_hyperopt : bool) :
  wf root ->
  Forall (sound_entry root)
         (plan experiment_dir root rerun_models rerun_cv rerun_hyperopt).
Proof.
  intros Hwf.
  destruct (globs_exist root Hwf) as (G1 & G2 & G3 & G4).
  assert (H1 : Forall (sound_entry root)
                 (model_section experiment_dir root rerun_models [])).
  { unfold model_section. apply sound_fold; [|constructor].
    intros acc m Hacc. apply sound_add_unless_covered; [apply G2|].
    apply sound_add_all; [exact G1 | exact Hacc]. }
  assert (H2 : forall t, Forall (sound_entry root) t ->
                         Forall (sound_entry root)
                                (cv_section experiment_dir root rerun_models t)).
  { intros t Ht. unfold cv_section.
    assert (Hin : Forall (sound_entry root)
              (if exists_ root cv_dir
               then if nonempty rerun_models
                    then fold_left
                           (fun acc model =>
                              add_unless_covered experiment_dir root
                                (glob_json root cv_dir model)
                                (add_unless_covered experiment_dir root
                                   (glob_named root cv_dir model) acc))
                           rerun_models t
                    else t ++ [(cv_dir, "cross_validation"%string)]
               else t)).
    { destruct (exists_ root cv_dir) eqn:Ecv; [|exact Ht].
      destruct (nonempty rerun_models).
      - apply sound_fold; [|exact Ht]. intros acc m Hacc.
        apply sound_add_unless_covered; [apply G2|].
        apply sound_add_unless_covered; [apply G3 | exact Hacc].
      - apply Forall_app. split; [exact Ht|]. constructor; [|constructor].
        unfold sound_entry. cbn [fst snd]. repeat split; [exact Ecv | discriminate]. }
    destruct (exists_ root cv_report_path) eqn:Er; [|exact Hin].
    apply Forall_app. split; [exact Hin|]. constructor; [|constructor].
    unfold sound_entry. cbn [fst snd]. repeat split; [exact Er | discriminate]. }
  assert (H3 : forall t, Forall (sound_entry root) t ->
                         Forall (sound_entry root)
                                (hyperopt_section experiment_dir root rerun_models t)).
  { intros t Ht. unfold hyperopt_section.
    destruct (exists_ root hyperopt_dir) eqn:Eh; [|exact Ht].
    destruct (nonempty rerun_models).
    - apply sound_fold; [|exact Ht]. intros acc m Hacc.
      apply sound_add_unless_covered; [apply G4 | exact Hacc].
    - apply Forall_app. split; [exact Ht|]. constructor; [|constructor].
      unfold sound_entry. cbn [fst snd]. repeat split; [exact Eh | discriminate]. }
  unfold plan. destruct rerun_cv, rerun_hyperopt; auto.
Qed.

Lemma sweep_tree_wf : wf sweep_tree_cnn_and_siamese.
Proof.
  cbn. repeat split; repeat constructor; cbn; intuition discriminate.
Qed.


End RerunTreeFacts.

Section RerunDeletionFacts.
Import Rerun.

Lemma child_filter_other (cs : list (string * node)) (name y : string) :
  String.eqb y name = false ->
  child (filter (fun e => negb (String.eqb (fst e) name)) cs) y = child cs y.
Proof.
  intros Hne. induction cs as [|[x c] cs IH]; [reflexivity|].
  cbn [filter fst]. destruct (String.eqb x name) eqn:E; cbn [negb child].
  - apply String.eqb_eq in E. subst x.
    rewrite String.eqb_sym in Hne. rewrite Hne. exact IH.
  - destruct (String.eqb x y); [reflexivity | exact IH].
Qed.

Lemma child_filter_same (cs : list (string * node)) (name : string) :
  child (filter (fun e => negb (String.eqb (fst e) name)) cs) name = None.
Proof.
  induction cs as [|[x c] cs IH]; [reflexivity|].
  cbn [filter fst]. destruct (String.eqb x name) eqn:E; cbn [negb child];
    [exact IH | now rewrite E].
Qed.

Lemma child_map (cs : list (string * node)) (name y : string)
    (f : node -> node) :
  child (map (fun e => if String.eqb (fst e) name then (fst e, f (snd e)) else e) cs) y =
  if String.eqb y name then option_map f (child cs y) else child cs y.
Proof.
  induction cs as [|[x c] cs IH]; cbn [map child fst snd].
  - now destruct (String.eqb y name).
  - destruct (String.eqb x name) eqn:E; cbn [child].
    + apply String.eqb_eq in E. subst x.
      destruct (String.eqb name y) eqn:E'.
      * apply String.eqb_eq in E'. subst y. now rewrite String.eqb_refl.
      * exact IH.
    + destruct (String.eqb x y) eqn:E'.
      * apply String.eqb_eq in E'. subst y. now rewrite E.
      * exact IH.
Qed.

(** [remove], one level down. *)
Lemma remove_dir (cs : list (string * node)) (name : string) (rest : segs) :
  remove (Dir cs) (name :: rest) =
  match rest with
  | [] => Dir (filter (fun e => negb (String.eqb (fst e) name)) cs)
  | _ => Dir (map (fun e => if String.eqb (fst e) name
                            then (fst e, remove (snd e) rest) else e) cs)
  end.
Proof. reflexivity. Qed.

Lemma remove_gone (p : segs) :
  p <> [] -> forall n, walk (remove n p) p = None.
Proof.
  induction p as [|name rest IH]; intros Hne n; [now elim Hne|].
  destruct n as [|cs]; [reflexivity|]. rewrite remove_dir.
  destruct rest as [|r rest].
  - cbn [walk]. now rewrite child_filter_same.
  - cbn [walk]. rewrite (child_map cs name name (fun c => remove c (r :: rest))).
    rewrite String.eqb_refl.
    destruct (child cs name) as [c|]; [|reflexivity].
    cbn [option_map]. apply IH. discriminate.
Qed.

Lemma remove_elsewhere (p : segs) :
  forall n q, ~ is_prefix p q -> kind (remove n p) q = kind n q.
Proof.
  induction p as [|name rest IH]; intros n q Hnp; [reflexivity|].
  destruct n as [|cs]; [reflexivity|]. rewrite remove_dir.
  destruct q as [|y q].
  - destruct rest; reflexivity.
  - unfold kind. destruct (String.eqb y name) eqn:E.
    + apply String.eqb_eq in E. subst y.
      destruct rest as [|r rest].
      * exfalso. apply Hnp. exists q. reflexivity.
      * cbn [walk]. rewrite (child_map cs name name (fun c => remove c (r :: rest))).
        rewrite String.eqb_refl.
        destruct (child cs name) as [c|]; [|reflexivity].
        cbn [option_map]. apply (IH c q). intros [t Ht]. apply Hnp.
        exists t. cbn [app]. now rewrite Ht.
    + destruct rest as [|r rest]; cbn [walk].
      * now rewrite (child_filter_other cs name y E).
      * now rewrite (child_map cs name y (fun c => remove c (r :: rest))), E.
Qed.

Lemma remove_creates_nothing (p : segs) :
  forall n q, walk n q = None -> walk (remove n p) q = None.
Proof.
  induction p as [|name rest IH]; intros n q H; [exact H|].
  destruct n as [|cs]; [exact H|]. rewrite remove_dir.
  destruct q as [|y q]; [discriminate|]. cbn [walk] in H.
  destruct (String.eqb y name) eqn:E.
  - apply String.eqb_eq in E. subst y. destruct rest as [|r rest]; cbn [walk].
    + now rewrite child_filter_same.
    + rewrite (child_map cs name name (fun c => remove c (r :: rest))).
      rewrite String.eqb_refl.
      destruct (child cs name) as [c|]; [|reflexivity].
      cbn [option_map]. now apply IH.
  - destruct rest as [|r rest]; cbn [walk].
    + now rewrite (child_filter_other cs name y E).
    + now rewrite (child_map cs name y (fun c => remove c (r :: rest))), E.
Qed.

(** The deletion loop over any list of paths below the experiment
    directory. *)
Lemma delete_all_spec (to_remove : list entry) :
  forall root,
    (forall e, In e to_remove -> fst e <> []) ->
    (forall e, In e to_remove -> walk (delete_all to_remove root) (fst e) = None) /\
    (forall q, (forall e, In e to_remove -> ~ is_prefix (fst e) q) ->
               kind (delete_all to_remove root) q = kind root q) /\
    (forall q, walk root q = None -> walk (delete_all to_remove root) q = None).
Proof.
  unfold delete_all.
  induction to_remove as [|e pl IH]; intros root Hne.
  - repeat split; [intros e [] | intros q H; exact H].
  - cbn [fold_left].
    set (t := if exists_ root (fst e) then remove root (fst e) else root).
    assert (Hgone : walk t (fst e) = None).
    { unfold t, exists_. destruct (walk root (fst e)) eqn:Ew; [|exact Ew].
      apply remove_gone. apply Hne. now left. }
    assert (Hcreate : forall q, walk root q = None -> walk t q = None).
    { intros q Hq. unfold t. destruct (exists_ root (fst e)); [|exact Hq].
      now apply remove_creates_nothing. }
    destruct (IH t (fun e' He' => Hne e' (or_intror He'))) as (IH1 & IH2 & IH3).
    split; [|split].
    + intros e' [<- | He']; [now apply IH3 | now apply IH1].
    + intros q Hq. rewrite IH2 by (intros e' He'; apply Hq; now right).
      unfold t. destruct (exists_ root (fst e)); [|reflexivity].
      apply remove_elsewhere. apply Hq. now left.
    + intros q Hq. apply IH3. now apply Hcreate.
Qed.


End RerunDeletionFacts.

(** ** Configuration store: comparing configurations *)

Section PythonEqualityFacts.

Lemma wf_list (l : list Py.value) : Py.wf (Py.VList l) <-> Forall Py.wf l.
Proof.
  cbn [Py.wf]. induction l as [|x l IH]; split; intros H.
  - constructor.
  - exact I.
  - destruct H as [Hx Hl]. constructor; [exact Hx | now apply IH].
  - inversion H as [|? ? Hx Hl]; subst. split; [exact Hx | now apply IH].
Qed.

Lemma wf_dict (d : list (string * Py.value)) :
  Py.wf (Py.VDict d) <-> NoDup (map fst d) /\ Forall (fun kv => Py.wf (snd kv)) d.
Proof.
  cbn [Py.wf]. split; intros [Hnd H]; (split; [exact Hnd|]); clear Hnd.
  - induction d as [|kv d IH]; [constructor|].
    destruct H as [Hx Hl]. constructor; [exact Hx | now apply IH].
  - induction d as [|kv d IH]; [exact I|].
    inversion H as [|? ? Hx Hl]; subst. split; [exact Hx | now apply IH].
Qed.

Lemma dict_get_in (d : list (string * Py.value)) (k : string) (v : Py.value) :
  NoDup (map fst d) -> In (k, v) d -> Py.dict_get d k = Some v.
Proof.
  induction d as [|[k' v'] d IH]; intros Hnd Hin; [contradiction|].
  simpl in *. inversion Hnd as [|? ? Hk Hd]; subst.
  destruct Hin as [E | Hin].
  - injection E as -> ->. now rewrite String.eqb_refl.
  - destruct (String.eqb k' k) eqn:E; [|now apply IH].
    apply String.eqb_eq in E. subst k'. exfalso. apply Hk.
    change k with (fst (k, v)). now apply in_map.
Qed.

Lemma eq_refl_wf (v : Py.value) : Py.wf v -> Py.eq v v = true.
Proof.
  induction v as [| b | z | q | s | l IH | d IH] using Py.value_induction;
    intros Hwf.
  - reflexivity.
  - cbn. destruct b; reflexivity.
  - cbn. apply Qeq_bool_iff. reflexivity.
  - cbn. apply Qeq_bool_iff. reflexivity.
  - cbn. apply String.eqb_refl.
  - apply wf_list in Hwf. cbn [Py.eq].
    induction l as [|x l IHl]; [reflexivity|].
    inversion IH as [|? ? Hx Hl]; subst. inversion Hwf as [|? ? Wx Wl]; subst.
    rewrite (Hx Wx). cbn [andb]. now apply IHl.
  - apply wf_dict in Hwf. destruct Hwf as [Hnd Hall]. cbn [Py.eq].
    rewrite Nat.eqb_refl. cbn [andb].
    assert (Hsub : forall d', incl d' d ->
              (fix sub (d0 : list (string * Py.value)) : bool :=
                 match d0 with
                 | [] => true
                 | kv :: d'0 =>
                     match Py.dict_get d (fst kv) with
                     | Some w => Py.eq (snd kv) w
                     | None => false
                     end && sub d'0
                 end) d' = true).
    { induction d' as [|[k v] d' IHd']; intros Hincl; [reflexivity|].
      assert (Hin : In (k, v) d) by (apply Hincl; now left).
      cbn [fst snd]. rewrite (dict_get_in d k v Hnd Hin).
      rewrite Forall_forall in IH, Hall.
      pose proof (IH (k, v) Hin (Hall (k, v) Hin)) as Hv. cbn [snd] in Hv.
      rewrite Hv. cbn [andb].
      apply IHd'. intros x Hx. apply Hincl. now right. }
    apply Hsub. apply incl_refl.
Qed.
End PythonEqualityFacts.

Section CompareFacts.
Import Config.

Lemma dict_get_keys (d : list (string * Py.value)) (k : string) :
  In k (map fst d) <-> Py.dict_get d k <> None.
Proof.
  induction d as [|[k' v] d IH]; simpl.
  - split; [intros [] | intros H; now elim H].
  - destruct (String.eqb k' k) eqn:E.
    + apply String.eqb_eq in E. split; [discriminate | intros _; now left].
    + rewrite <- IH. split; [intros [H | H]; [|exact H] | intros H; now right].
      subst k'. rewrite String.eqb_refl in E. discriminate.
Qed.

Lemma dict_get_pop (d : list (string * Py.value)) (k0 k : string) :
  NoDup (map fst d) ->
  Py.dict_get (Py.dict_pop d k0) k =
  if String.eqb k0 k then None else Py.dict_get d k.
Proof.
  induction d as [|[k' v] d IH]; intros Hnd; simpl.
  - now destruct (String.eqb k0 k).
  - inversion Hnd as [|? ? Hk Hd]; subst.
    destruct (String.eqb k' k0) eqn:E0.
    + apply String.eqb_eq in E0. subst k'.
      destruct (String.eqb k0 k) eqn:E; [|reflexivity].
      apply String.eqb_eq in E. subst k.
      destruct (Py.dict_get d k0) eqn:Eg; [|reflexivity].
      exfalso. apply Hk. apply dict_get_keys. congruence.
    + simpl. rewrite (IH Hd).
      destruct (String.eqb k' k) eqn:E; [|reflexivity].
      apply String.eqb_eq in E. subst k'. rewrite String.eqb_sym in E0.
      now rewrite E0.
Qed.

Lemma dict_pop_keys (d : list (string * Py.value)) (k0 : string) :
  NoDup (map fst d) -> NoDup (map fst (Py.dict_pop d k0)) /\
                       incl (map fst (Py.dict_pop d k0)) (map fst d).
Proof.
  induction d as [|[k' v] d IH]; intros Hnd; simpl.
  - split; [constructor | intros x []].
  - inversion Hnd as [|? ? Hk Hd]; subst.
    destruct (String.eqb k' k0).
    + split; [exact Hd | intros x Hx; now right].
    + destruct (IH Hd) as [H1 H2]. simpl. split.
      * constructor; [|exact H1]. intros Hin. apply Hk. now apply H2.
      * intros x [<- | Hx]; [now left | right; now apply H2].
Qed.

Lemma nodupb_sound (l : list string) : nodupb l = true -> NoDup l.
Proof.
  induction l as [|x l IH]; simpl; intros H; [constructor|].
  apply andb_true_iff in H. destruct H as [Hx Hl].
  constructor; [|now apply IH].
  intros Hin. apply negb_true_iff in Hx.
  assert (existsb (String.eqb x) l = true)
    by (apply existsb_exists; exists x; split; [exact Hin | apply String.eqb_refl]).
  congruence.
Qed.

(** A serialized configuration has each key once. *)
Lemma to_dict_pairs_keys (E : env) (c : t) (d : list (string * Py.value)) :
  to_dict_pairs E c = Ok d -> NoDup (map fst d).
Proof.
  intros H. unfold to_dict_pairs in H.
  destruct (enum_value Dataset_value (dataset c)) as [dv|]; cbn [bind] in H;
    [|discriminate].
  destruct (model_architecture_to_value (model_architecture c)) as [mv|];
    cbn [bind] in H; [|discriminate].
  destruct (preprocessing_config c) as [pc|]; [destruct (pc_truthy E pc)|];
    injection H as <-; apply nodupb_sound; vm_compute; reflexivity.
Qed.

Lemma functional_get (d : list (string * Py.value)) (k : string) :
  NoDup (map fst d) ->
  Py.dict_get (functional d) k =
  if String.eqb k "config_history" || String.eqb k "created_at" then None
  else Py.dict_get d k.
Proof.
  intros Hnd. unfold functional.
  rewrite dict_get_pop by apply (dict_pop_keys d _ Hnd).
  rewrite dict_get_pop by exact Hnd.
  rewrite (String.eqb_sym k "config_history"), (String.eqb_sym k "created_at").
  destruct (String.eqb "created_at" k), (String.eqb "config_history" k); reflexivity.
Qed.

Lemma dict_set_get (d : list (string * Py.value)) (k k' : string) (v : Py.value) :
  Py.dict_get (Py.dict_set d k v) k' =
  if String.eqb k k' then Some v else Py.dict_get d k'.
Proof.
  destruct (String.eqb k k') eqn:E.
  - apply String.eqb_eq in E. subst k'. apply dict_get_set_same.
  - apply dict_get_set_other. intros ->. rewrite String.eqb_refl in E. discriminate.
Qed.

(** One key. *)
Lemma compare_key_spec (this other acc : list (string * Py.value)) (key : string) :
  Py.dict_get this key <> None \/ Py.dict_get other key <> None ->
  exists acc',
    compare_key this other acc key = Ok acc' /\
    forall k, Py.dict_get acc' k =
              if String.eqb key k then
                match difference (Py.dict_get this key) (Py.dict_get other key) with
                | Some v => Some v
                | None => Py.dict_get acc key
                end
              else Py.dict_get acc k.
Proof.
  intros Hkey. unfold compare_key, Py.dict_has, Py.getitem, difference.
  destruct (Py.dict_get this key) as [a|] eqn:Ea,
           (Py.dict_get other key) as [b|] eqn:Eb; cbn [negb bind].
  - destruct (Py.eq a b); cbn [negb].
    + exists acc. split; [reflexivity|]. intros k.
      destruct (String.eqb key k) eqn:E; [|reflexivity].
      apply String.eqb_eq in E. now subst k.
    + eexists. split; [reflexivity|]. intros k. apply dict_set_get.
  - eexists. split; [reflexivity|]. intros k. apply dict_set_get.
  - eexists. split; [reflexivity|]. intros k. apply dict_set_get.
  - destruct Hkey as [H | H]; now elim H.
Qed.

Lemma compare_keys_spec (this other : list (string * Py.value)) (keys : list string) :
  (forall key, In key keys ->
               Py.dict_get this key <> None \/ Py.dict_get other key <> None) ->
  forall acc,
    exists acc',
      Phases.for_each (compare_key this other) keys acc = Ok acc' /\
      forall k, Py.dict_get acc' k =
                if existsb (String.eqb k) keys then
                  match difference (Py.dict_get this k) (Py.dict_get other k) with
                  | Some v => Some v
                  | None => Py.dict_get acc k
                  end
                else Py.dict_get acc k.
Proof.
  induction keys as [|key keys IH]; intros Hkeys acc.
  - exists acc. split; [reflexivity|]. intros k. reflexivity.
  - destruct (compare_key_spec this other acc key (Hkeys key (or_introl eq_refl)))
      as (acc1 & H1 & G1).
    destruct (IH (fun k Hk => Hkeys k (or_intror Hk)) acc1) as (acc' & H2 & G2).
    exists acc'. cbn [Phases.for_each]. rewrite H1. cbn [bind].
    split; [exact H2|]. intros k. rewrite G2, G1. cbn [existsb].
    rewrite (String.eqb_sym k key).
    destruct (String.eqb key k) eqn:E; cbn [orb].
    + apply String.eqb_eq in E. subst k.
      destruct (existsb (String.eqb key) keys);
        destruct (difference _ _); reflexivity.
    + reflexivity.
Qed.

Lemma compare_with_functional (E : env)
    (set_order : list string -> list string) (self other : t)
    (a b : list (string * Py.value)) :
  to_dict_pairs E self = Ok a ->
  to_dict_pairs E other = Ok b ->
  enumerates set_order ->
  exists differences,
    compare_with E set_order self other = Ok differences /\
    forall k,
      Py.dict_get differences k =
      difference (Py.dict_get (functional a) k) (Py.dict_get (functional b) k).
Proof.
  intros Ha Hb Horder. unfold compare_with. rewrite Ha, Hb. cbn [bind].
  set (keys := set_order (map fst (functional a) ++ map fst (functional b))).
  assert (Hkeys : forall key, In key keys <->
                    Py.dict_get (functional a) key <> None \/
                    Py.dict_get (functional b) key <> None).
  { intros key. unfold keys. rewrite (Horder _ key), in_app_iff, !dict_get_keys.
    reflexivity. }
  destruct (compare_keys_spec (functional a) (functional b) keys
              (fun k Hk => proj1 (Hkeys k) Hk) [])
    as (differences & Hrun & Hget).
  exists differences. split; [exact Hrun|]. intros k. rewrite Hget.
  cbn [Py.dict_get].
  destruct (existsb (String.eqb k) keys) eqn:Ex; [now destruct (difference _ _)|].
  assert (Hnin : ~ In k keys).
  { intros Hin. assert (existsb (String.eqb k) keys = true); [|congruence].
    apply existsb_exists. exists k. split; [exact Hin | apply String.eqb_refl]. }
  rewrite Hkeys in Hnin.
  destruct (Py.dict_get (functional a) k);
    [exfalso; apply Hnin; left; discriminate|].
  destruct (Py.dict_get (functional b) k);
    [exfalso; apply Hnin; right; discriminate|].
  reflexivity.
Qed.

(** X20.  [compare_with] key by key, for two configurations that
    serialize and whatever the iteration order of the key set: the result
    never has an item for "config_history" or "created_at"; for any other
    key it has an item exactly when the two serialized configurations
    differ there, with status "added" (key only in the other), "removed"
    (key only in this one) or "modified" (both have it and the values are
    not equal in Python's sense, so that 1, 1.0 and True do not count as a
    difference), carrying the values. *)
Theorem compare_with_reports_each_difference (E : env)
    (set_order : list string -> list string) (self other : t)
    (a b : list (string * Py.value)) :
  to_dict_pairs E self = Ok a ->
  to_dict_pairs E other = Ok b ->
  enumerates set_order ->
  exists differences,
    compare_with E set_order self other = Ok differences /\
    forall k,
      Py.dict_get differences k =
      if String.eqb k "config_history" || String.eqb k "created_at" then None
      else difference (Py.dict_get a k) (Py.dict_get b k).
Proof.
  intros Ha Hb Horder.
  destruct (compare_with_functional E set_order self other a b Ha Hb Horder)
    as (differences & Hrun & Hget).
  exists differences. split; [exact Hrun|]. intros k. rewrite Hget.
  rewrite (functional_get a k (to_dict_pairs_keys E self a Ha)).
  rewrite (functional_get b k (to_dict_pairs_keys E other b Hb)).
  now destruct (String.eqb k "config_history" || String.eqb k "created_at").
Qed.

Lemma functional_set (E : env) (c : t) (h ts : Py.value)
    (a : list (string * Py.value)) :
  to_dict_pairs E c = Ok a ->
  exists b,
    to_dict_pairs E (set_created_at (set_config_history c h) ts) = Ok b /\
    functional b = functional a.
Proof.
  intros Ha. destruct c.
  cbv -[enum_value model_architecture_to_value value_or_raw pc_truthy pc_to_dict
        path_str Dataset_value LRSchedulerType_value EvaluationMode_value
        TrackerType_value] in *.
  destruct (enum_value Dataset_value dataset0) as [dv|]; [|discriminate].
  destruct (model_architecture_to_value model_architecture0) as [mv|]; [|discriminate].
  destruct preprocessing_config0 as [pc|]; [destruct (pc_truthy E pc)|];
    injection Ha as <-; eexists; split; reflexivity.
Qed.

Lemma dict_get_some_in (d : list (string * Py.value)) (k : string) (v : Py.value) :
  Py.dict_get d k = Some v -> In (k, v) d.
Proof.
  induction d as [|[k' v'] d IH]; simpl; [discriminate|].
  destruct (String.eqb k' k) eqn:E.
  - apply String.eqb_eq in E. subst k'. intros H. injection H as ->. now left.
  - intros H. right. now apply IH.
Qed.

Lemma dict_pop_incl (d : list (string * Py.value)) (k : string) :
  incl (Py.dict_pop d k) d.
Proof.
  induction d as [|[k' v'] d IH]; simpl; [intros x []|].
  destruct (String.eqb k' k).
  - intros x Hx. now right.
  - intros x [<- | Hx]; [now left | right; now apply IH].
Qed.

(** X21.  [compare_with] reports nothing ([{}]) between a configuration
    and one that differs from it only in its history and its creation
    time, whatever these are (the values of the serialized configuration
    being proper Python values: dicts with each key once).  In particular
    a configuration compared with itself gives [{}]. *)
Theorem compare_with_ignores_history_and_creation_time (E : env)
    (set_order : list string -> list string) (c : t) (h ts : Py.value)
    (a : list (string * Py.value)) :
  to_dict_pairs E c = Ok a ->
  Forall (fun kv => Py.wf (snd kv)) a ->
  enumerates set_order ->
  compare_with E set_order c (set_created_at (set_config_history c h) ts) = Ok [].
Proof.
  intros Ha Hwf Horder.
  destruct (functional_set E c h ts a Ha) as (b & Hb & Hf).
  destruct (compare_with_functional E set_order c _ a b Ha Hb Horder)
    as (differences & Hrun & Hget).
  rewrite Hrun. f_equal.
  destruct differences as [|[k v] rest]; [reflexivity|].
  specialize (Hget k). cbn [Py.dict_get] in Hget.
  rewrite String.eqb_refl, Hf in Hget. exfalso.
  destruct (Py.dict_get (functional a) k) as [x|] eqn:Ex; cbn [difference] in Hget;
    [|discriminate].
  assert (Hx : Py.wf x).
  { rewrite Forall_forall in Hwf.
    apply (Hwf (k, x)). apply (dict_pop_incl _ "config_history").
    apply (dict_pop_incl _ "created_at"). apply dict_get_some_in. exact Ex. }
  rewrite (eq_refl_wf x Hx) in Hget. discriminate.
Qed.
End CompareFacts.

Lemma enumerates_id : Config.enumerates (fun l => l).
Proof. intros l k. reflexivity. Qed.

Lemma compare_with_reports_each_difference_witness :
  match Config.example_config with
  | Some c =>
      exists differences,
        Config.compare_with Config.example_base_env (fun l => l) c
          (Config.set_config_version c (Py.VStr "2.0.0")) = Ok differences /\
        Py.dict_get differences "config_version" =
          Some (Config.modified (Py.VStr "1.4.2") (Py.VStr "2.0.0")) /\
        Py.dict_get differences "epochs" = None
  | None => False
  end.
Proof.
  destruct Config.example_config as [c|] eqn:Ec; [|discriminate Ec].
  assert (Hc : Some c = Config.example_config) by (symmetry; exact Ec).
  vm_compute in Hc. injection Hc as ->. clear Ec.
  match goal with
  | |- exists differences, Config.compare_with ?E ?o ?c ?c' = _ /\ _ =>
      destruct (Config.to_dict_pairs E c) as [a|] eqn:Ea;
        [|vm_compute in Ea; discriminate Ea];
      destruct (Config.to_dict_pairs E c') as [b|] eqn:Eb;
        [|vm_compute in Eb; discriminate Eb];
      destruct (compare_with_reports_each_difference E o c c' a b Ea Eb
                  enumerates_id) as (differences & Hrun & Hget)
  end.
  exists differences. split; [exact Hrun|].
  vm_compute in Ea. injection Ea as <-. vm_compute in Eb. injection Eb as <-.
  split; rewrite Hget; reflexivity.
Defined.

Lemma compare_with_ignores_history_and_creation_time_witness :
  match Config.example_config with
  | Some c =>
      Config.compare_with Config.example_base_env (fun l => l) c
        (Config.set_created_at
           (Config.set_config_history c (Py.VList [Py.VStr "earlier"]))
           (Py.VStr "2025-06-01T00:00:00")) = Ok []
  | None => False
  end.
Proof.
  destruct Config.example_config as [c|] eqn:Ec; [|discriminate Ec].
  assert (Hc : Some c = Config.example_config) by (symmetry; exact Ec).
  vm_compute in Hc. injection Hc as ->. clear Ec.
  match goal with
  | |- Config.compare_with ?E ?o ?c (Config.set_created_at (Config.set_config_history _ ?h) ?ts) = _ =>
      destruct (Config.to_dict_pairs E c) as [a|] eqn:Ea;
        [|vm_compute in Ea; discriminate Ea];
      apply (compare_with_ignores_history_and_creation_time E o c h ts a Ea);
        [|exact enumerates_id]
  end.
  vm_compute in Ea. injection Ea as <-.
  repeat constructor; cbn; intuition discriminate.
Defined.

(** ** Experiment runner *)

Section TrainerFacts.
Import Trainer.

(** X22.  [run_experiment] never chooses the single-model runner.  The
    test that guards it, [len(config.model_architecture.value) == 1],
    measures the length of the architecture's name, and no architecture
    has a name of one character: a configuration with an architecture
    member goes to the architecture comparison (or to the cross-dataset
    runner), as does one with a list of architectures. *)
Theorem run_experiment_never_runs_single_model (config : Config.t) :
  dispatch config <> Ok SingleModel.
Proof.
  unfold dispatch.
  destruct (_ && _); [discriminate|].
  destruct (Config.model_architecture config) as [e | v].
  - destruct e; cbn; discriminate.
  - destruct v; discriminate.
Qed.

Lemma split_nonempty (sep : ascii) (s : string) : Config.split sep s <> [].
Proof.
  destruct s as [|c s]; cbn; [discriminate|].
  destruct (Ascii.eqb c sep); [discriminate|].
  destruct (Config.split sep s); discriminate.
Qed.

Lemma split_sep_none (sep : ascii) (a : string) :
  Config.all_chars (fun c => negb (Ascii.eqb c sep)) a = true ->
  Config.split sep a = [a].
Proof.
  induction a as [|c a IH]; simpl; [reflexivity|].
  intros H. apply andb_true_iff in H. destruct H as [Hc Ha].
  apply negb_true_iff in Hc. rewrite Hc, (IH Ha). reflexivity.
Qed.

(** The last part of a split string is the last part of what follows a
    separator. *)
Lemma split_last (sep : ascii) (a b : string) :
  exists p q qs,
    Config.split sep (a ++ String sep b) = p :: q :: qs /\
    last (q :: qs) EmptyString = last (Config.split sep b) EmptyString.
Proof.
  induction a as [|c a (p & q & qs & Hs & Hl)]; cbn [append Config.split].
  - rewrite Ascii.eqb_refl.
    destruct (Config.split sep b) as [|q qs] eqn:Eb;
      [now elim (split_nonempty sep b)|].
    exists EmptyString, q, qs. split; reflexivity.
  - rewrite Hs. destruct (Ascii.eqb c sep).
    + exists EmptyString, p, (q :: qs). split; [reflexivity|].
      rewrite <- Hl. reflexivity.
    + exists (String c p), q, qs. split; [reflexivity | exact Hl].
Qed.

Lemma num_char_not_underscore (c : ascii) :
  Config.is_num_char c = true -> negb (Ascii.eqb c "_") = true.
Proof.
  intros H. destruct (Ascii.eqb c "_") eqn:E; [|reflexivity].
  apply Ascii.eqb_eq in E. subst c. discriminate H.
Qed.

Lemma epoch_key_checkpoint_path (checkpoints_dir : string) (epoch : Z) :
  epoch_key (checkpoint_path checkpoints_dir epoch) = Ok epoch.
Proof.
  unfold epoch_key, checkpoint_path.
  replace (checkpoints_dir ++ "/" ++ "checkpoint_epoch_" ++ Config.str_of_Z epoch ++ ".pth")%string
    with ((checkpoints_dir ++ "/checkpoint_epoch") ++
          String "_" (Config.str_of_Z epoch ++ ".pth"))%string
    by (rewrite append_assoc; reflexivity).
  destruct (split_last "_" (checkpoints_dir ++ "/checkpoint_epoch")
              (Config.str_of_Z epoch ++ ".pth")) as (p & q & qs & -> & Hl).
  change (last (p :: q :: qs) EmptyString) with (last (q :: qs) EmptyString).
  rewrite Hl, (split_sep_none "_" (Config.str_of_Z epoch ++ ".pth")).
  - cbn [last].
    change (Config.str_of_Z epoch ++ ".pth")%string
      with (Config.str_of_Z epoch ++ String "." "pth")%string.
    rewrite split_app_sep by apply str_of_Z_no_dot.
    cbn [hd]. apply py_int_str_of_Z.
  - rewrite all_chars_app. apply andb_true_iff. split; [|reflexivity].
    apply (all_chars_impl Config.is_num_char); [|apply str_of_Z_num_chars].
    apply num_char_not_underscore.
Qed.

Lemma keys_checkpoint_paths (checkpoints_dir : string) (epochs : list Z) :
  keys (map (checkpoint_path checkpoints_dir) epochs) =
  Ok (map (fun e => (e, checkpoint_path checkpoints_dir e)) epochs).
Proof.
  induction epochs as [|e es IH]; [reflexivity|].
  cbn [map keys]. rewrite epoch_key_checkpoint_path, IH. reflexivity.
Qed.

Lemma insert_epoch_perm (e : Z * string) (l : list (Z * string)) :
  Permutation (e :: l) (insert_epoch e l).
Proof.
  induction l as [|x l IH]; simpl; [apply Permutation_refl|].
  destruct (fst x <=? fst e).
  - eapply Permutation_trans; [apply perm_swap|]. now apply perm_skip.
  - apply Permutation_refl.
Qed.

Lemma insert_epoch_sorted (e : Z * string) (l : list (Z * string)) :
  StronglySorted by_epoch l -> StronglySorted by_epoch (insert_epoch e l).
Proof.
  induction l as [|x l IH]; intros Hs; simpl.
  - constructor; [constructor | constructor].
  - inversion Hs as [|? ? Hl Hx]; subst.
    destruct (Z.leb_spec (fst x) (fst e)) as [H | H].
    + constructor; [now apply IH|].
      rewrite Forall_forall in *. intros y Hy.
      apply (Permutation_in _ (Permutation_sym (insert_epoch_perm e l))) in Hy.
      destruct Hy as [<- | Hy]; [exact H | now apply Hx].
    + constructor; [exact Hs|]. constructor; [unfold by_epoch; lia|].
      rewrite Forall_forall in *. intros y Hy. specialize (Hx y Hy).
      unfold by_epoch in *. lia.
Qed.

Lemma sort_by_epoch_spec (l : list (Z * string)) :
  Permutation l (sort_by_epoch l) /\ StronglySorted by_epoch (sort_by_epoch l).
Proof.
  unfold sort_by_epoch.
  assert (H : forall acc, StronglySorted by_epoch acc ->
            Permutation (acc ++ l) (fold_left (fun s e => insert_epoch e s) l acc) /\
            StronglySorted by_epoch (fold_left (fun s e => insert_epoch e s) l acc)).
  { induction l as [|e l IH]; intros acc Hacc; cbn [fold_left].
    - rewrite app_nil_r. split; [apply Permutation_refl | exact Hacc].
    - destruct (IH (insert_epoch e acc) (insert_epoch_sorted e acc Hacc)) as [Hp Hs].
      split; [|exact Hs].
      eapply Permutation_trans; [|exact Hp].
      apply Permutation_trans with (l' := (e :: acc) ++ l).
      + apply Permutation_sym. apply Permutation_middle.
      + apply Permutation_app_tail. apply insert_epoch_perm. }
  destruct (H [] (SSorted_nil _)) as [Hp Hs]. split; assumption.
Qed.

Lemma sorted_last (l : list (Z * string)) (d : Z * string) :
  StronglySorted by_epoch l -> l <> [] ->
  In (last l d) l /\ forall x, In x l -> by_epoch x (last l d).
Proof.
  induction l as [|a l IH]; intros Hs Hne; [now elim Hne|].
  inversion Hs as [|? ? Hl Ha]; subst.
  destruct l as [|b l].
  - cbn. split; [now left|]. intros x [<- | []]. unfold by_epoch. lia.
  - change (last (a :: b :: l) d) with (last (b :: l) d).
    destruct (IH Hl ltac:(discriminate)) as [Hin Hmax]. split; [now right|].
    intros x [<- | Hx]; [|now apply Hmax].
    rewrite Forall_forall in Ha. now apply Ha.
Qed.

Lemma last_map_some {A : Type} (l : list A) (d : A) :
  l <> [] -> last (map Some l) None = Some (last l d).
Proof.
  induction l as [|a l IH]; intros Hne; [now elim Hne|].
  destruct l as [|b l]; [reflexivity|].
  change (last (map Some (a :: b :: l)) None) with (last (map Some (b :: l)) None).
  change (last (a :: b :: l) d) with (last (b :: l) d).
  apply IH. discriminate.
Qed.

(** X23.  Resuming picks the checkpoint of the highest epoch.  For the
    files [save_model_checkpoint] writes for a non-empty list of epochs,
    in any order and in any directory, the epoch is read back from each
    file name, and the file chosen to resume from is the one of the
    greatest epoch (by number: epoch 10 after epoch 9). *)
Theorem resume_picks_highest_epoch (checkpoints_dir : string) (epochs : list Z) :
  epochs <> [] ->
  exists epoch,
    In epoch epochs /\
    (forall e, In e epochs -> e <= epoch) /\
    latest_checkpoint (map (checkpoint_path checkpoints_dir) epochs) =
      Ok (Some (checkpoint_path checkpoints_dir epoch)).
Proof.
  intros Hne. unfold latest_checkpoint.
  destruct (map (checkpoint_path checkpoints_dir) epochs) as [|x xs] eqn:Em;
    [destruct epochs; [now elim Hne | discriminate]|].
  rewrite <- Em, keys_checkpoint_paths. cbn [bind].
  set (ks := map (fun e => (e, checkpoint_path checkpoints_dir e)) epochs).
  destruct (sort_by_epoch_spec ks) as [Hp Hs].
  assert (Hks : ks <> []) by (unfold ks; destruct epochs; [now elim Hne | discriminate]).
  assert (Hsne : sort_by_epoch ks <> []).
  { intros E. rewrite E in Hp. apply Permutation_sym, Permutation_nil in Hp.
    contradiction. }
  rewrite (last_map_some _ (0, EmptyString) Hsne). cbn [option_map].
  destruct (sorted_last (sort_by_epoch ks) (0, EmptyString) Hs Hsne) as [Hin Hmax].
  set (best := last (sort_by_epoch ks) (0, EmptyString)) in *.
  apply (Permutation_in _ (Permutation_sym Hp)) in Hin.
  unfold ks in Hin. apply in_map_iff in Hin. destruct Hin as (epoch & Hb & Hin).
  exists epoch. split; [exact Hin|]. split.
  - intros e He.
    assert (Hx : In (e, checkpoint_path checkpoints_dir e) (sort_by_epoch ks)).
    { apply (Permutation_in _ Hp). unfold ks. apply in_map_iff. now exists e. }
    specialize (Hmax _ Hx). unfold by_epoch in Hmax. rewrite <- Hb in Hmax.
    exact Hmax.
  - now rewrite <- Hb.
Qed.

Lemma resume_picks_highest_epoch_witness :
  latest_checkpoint
    (map (checkpoint_path "outputs/exp/checkpoints") [2; 10; 9]) =
  Ok (Some "outputs/exp/checkpoints/checkpoint_epoch_10.pth"%string).
Proof.
  destruct (resume_picks_highest_epoch "outputs/exp/checkpoints" [2; 10; 9]
              ltac:(discriminate)) as (epoch & Hin & Hmax & H).
  rewrite H. f_equal. f_equal.
  assert (epoch = 10).
  { pose proof (Hmax 10 (or_intror (or_introl eq_refl))).
    destruct Hin as [<- | [<- | [<- | []]]]; lia. }
  subst epoch. reflexivity.
Defined.
End TrainerFacts.

(** ** Cleaning up old experiment outputs *)

Section HousekeepingFacts.
Import Housekeeping.

Lemma insert_newest_dirent_perm (e : dirent) (l : list dirent) :
  Permutation (e :: l) (insert_newest e l).
Proof.
  induction l as [|x l IH]; simpl; [apply Permutation_refl|].
  destruct (st_mtime e <? st_mtime x)%nat.
  - eapply Permutation_trans; [apply perm_swap|]. now apply perm_skip.
  - apply Permutation_refl.
Qed.

Lemma sort_dirents_perm (l : list dirent) : Permutation l (sort_newest_first l).
Proof.
  induction l as [|e l IH]; simpl; [apply perm_nil|].
  eapply Permutation_trans; [apply perm_skip, IH | apply insert_newest_dirent_perm].
Qed.

Lemma insert_newest_dirent_sorted (e : dirent) (l : list dirent) :
  StronglySorted newer_eq l -> StronglySorted newer_eq (insert_newest e l).
Proof.
  induction l as [|x l IH]; intros Hs; simpl.
  - constructor; [constructor | constructor].
  - inversion Hs as [|? ? Hl Hx]; subst.
    destruct (st_mtime e <? st_mtime x)%nat eqn:E.
    + apply Nat.ltb_lt in E. constructor; [now apply IH|].
      rewrite Forall_forall in *. intros y Hy.
      apply (Permutation_in _ (Permutation_sym (insert_newest_dirent_perm e l))) in Hy.
      destruct Hy as [<- | Hy]; [unfold newer_eq; lia | now apply Hx].
    + apply Nat.ltb_ge in E. constructor; [exact Hs|].
      constructor; [exact E|].
      rewrite Forall_forall in *. intros y Hy. specialize (Hx y Hy).
      unfold newer_eq in *. lia.
Qed.

Lemma sort_dirents_sorted (l : list dirent) :
  StronglySorted newer_eq (sort_newest_first l).
Proof.
  induction l as [|e l IH]; simpl; [constructor | now apply insert_newest_dirent_sorted].
Qed.

Lemma rmtree_all (old : list dirent) :
  forall entries e,
    In e (fold_left rmtree old entries) <->
    In e entries /\
    forall d, In d old -> is_dir d = true -> name e <> name d.
Proof.
  induction old as [|d old IH]; intros entries e; cbn [fold_left].
  - split; [intros H; split; [exact H | intros d []] | tauto].
  - rewrite IH. unfold rmtree at 1. split.
    + intros [Hin Hall]. destruct (is_dir d) eqn:Ed.
      * apply filter_In in Hin. destruct Hin as [Hin Hne]. split; [exact Hin|].
        intros d' [<- | Hd'] Hdir; [|now apply Hall].
        apply negb_true_iff in Hne. intros E. rewrite E, String.eqb_refl in Hne.
        discriminate.
      * split; [exact Hin|]. intros d' [<- | Hd'] Hdir; [congruence | now apply Hall].
    + intros [Hin Hall]. split; [|intros d' Hd'; apply Hall; now right].
      destruct (is_dir d) eqn:Ed; [|exact Hin].
      apply filter_In. split; [exact Hin|]. apply negb_true_iff.
      destruct (String.eqb (name e) (name d)) eqn:E; [|reflexivity].
      apply String.eqb_eq in E. exfalso. exact (Hall d (or_introl eq_refl) Ed E).
Qed.

Lemma same_name (entries : list dirent) (a b : dirent) :
  NoDup (map name entries) -> In a entries -> In b entries ->
  name a = name b -> a = b.
Proof.
  induction entries as [|x l IH]; intros Hnd Ha Hb E; [contradiction|].
  simpl in Hnd. inversion Hnd as [|? ? Hx Hl]; subst.
  destruct Ha as [<- | Ha], Hb as [<- | Hb].
  - reflexivity.
  - exfalso. apply Hx. rewrite E. now apply in_map.
  - exfalso. apply Hx. rewrite <- E. now apply in_map.
  - now apply IH.
Qed.

(** X24.  [cleanup_old_experiments] on an output directory whose entries
    have distinct names.  The entries it selects are the directories whose
    name starts with [experiment_] and all entries, directories or not,
    whose name starts with [comprehensive_experiment_]; sorted newest
    first, the first [keep_newest] of them are kept and none of the others
    is newer than a kept one.  Afterwards the output directory holds
    exactly the entries it held before except the directories among the
    others: nothing that is not a directory is ever removed (a regular
    file with such a name takes one of the [keep_newest] places and
    stays), and nothing is added. *)
Theorem cleanup_removes_old_experiment_directories (entries : list dirent)
    (keep_newest : nat) :
  NoDup (map name entries) ->
  let exp_dirs := sort_newest_first (filter selected entries) in
  exists after,
    cleanup_old_experiments (Some entries) keep_newest = Some after /\
    Permutation (filter selected entries) exp_dirs /\
    (forall kept old, In kept (firstn keep_newest exp_dirs) ->
                      In old (skipn keep_newest exp_dirs) ->
                      (st_mtime old <= st_mtime kept)%nat) /\
    (forall e, In e after <->
               In e entries /\
               (is_dir e = false \/ ~ In e (skipn keep_newest exp_dirs))).
Proof.
  intros Hnd exp_dirs.
  pose proof (sort_dirents_perm (filter selected entries)) as Hp. fold exp_dirs in Hp.
  pose proof (sort_dirents_sorted (filter selected entries)) as Hs. fold exp_dirs in Hs.
  assert (Hsub : forall d, In d (skipn keep_newest exp_dirs) -> In d entries).
  { intros d Hd.
    assert (Hin : In d exp_dirs)
      by (rewrite <- (firstn_skipn keep_newest exp_dirs); apply in_or_app; now right).
    apply (Permutation_in _ (Permutation_sym Hp)) in Hin.
    apply filter_In in Hin. tauto. }
  exists (fold_left rmtree (skipn keep_newest exp_dirs) entries).
  split; [|split; [exact Hp|split]].
  - unfold cleanup_old_experiments. fold exp_dirs.
    destruct (Nat.ltb_spec keep_newest (List.length exp_dirs)) as [H | H];
      [reflexivity|].
    rewrite skipn_all2 by exact H. reflexivity.
  - intros kept old Hk Ho.
    exact (strongly_sorted_firstn_skipn newer_eq keep_newest exp_dirs Hs _ _ Hk Ho).
  - intros e. rewrite rmtree_all. split.
    + intros [Hin Hall]. split; [exact Hin|].
      destruct (is_dir e) eqn:Ed; [right | now left].
      intros Hsk. exact (Hall e Hsk Ed eq_refl).
    + intros [Hin Hkeep]. split; [exact Hin|].
      intros d Hd Hdir E.
      assert (e = d) by (apply (same_name entries); auto).
      subst d. destruct Hkeep as [Hf | Hn]; [congruence | now apply Hn].
Qed.

Lemma example_out_dir_unique_names : NoDup (map name example_out_dir).
Proof.
  repeat constructor; simpl; intuition discriminate.
Qed.

Lemma cleanup_removes_old_experiment_directories_witness :
  exists after,
    cleanup_old_experiments (Some example_out_dir) 2 = Some after /\
    In (mkDirent "comprehensive_experiment_report.json" false 5) after /\
    ~ In (mkDirent "comprehensive_experiment_b" true 2) after.
Proof.
  destruct (cleanup_removes_old_experiment_directories example_out_dir 2
              example_out_dir_unique_names) as (after & Hrun & _ & _ & Hin).
  exists after. split; [exact Hrun|]. split.
  - apply Hin. split; [|now left]. simpl. tauto.
  - intros H. apply Hin in H. destruct H as [_ [H | H]]; [discriminate H|].
    apply H. vm_compute. tauto.
Defined.
End HousekeepingFacts.

(** ** Updating the metrics of a registered model *)

Section UpdateMetricsFacts.
Import ModelRegistry.

Lemma dict_update_get (other : list (string * Py.value)) :
  NoDup (map fst other) ->
  forall d k,
    Py.dict_get (dict_update d other) k =
    match Py.dict_get other k with
    | Some v => Some v
    | None => Py.dict_get d k
    end.
Proof.
  unfold dict_update.
  induction other as [|[k0 v0] rest IH]; intros Hnd d k; [reflexivity|].
  cbn [fold_left fst snd]. cbn [map fst] in Hnd.
  inversion Hnd as [|? ? Hk Hrest]; subst.
  rewrite (IH Hrest). cbn [Py.dict_get].
  destruct (String.eqb k0 k) eqn:E.
  - apply String.eqb_eq in E. subst k.
    destruct (Py.dict_get rest k0) eqn:G.
    + exfalso. apply Hk. apply dict_get_some_in in G.
      change k0 with (fst (k0, v)). now apply in_map.
    + apply dict_get_set_same.
  - destruct (Py.dict_get rest k); [reflexivity|].
    apply dict_get_set_other. intros ->. rewrite String.eqb_refl in E. discriminate.
Qed.

Lemma dict_set_keys_present (d : list (string * Py.value)) (k : string)
    (v : Py.value) :
  Py.dict_has d k = true -> map fst (Py.dict_set d k v) = map fst d.
Proof.
  unfold Py.dict_has. induction d as [|[k' v'] d IH]; simpl; [discriminate|].
  destruct (String.eqb k' k) eqn:E; simpl.
  - apply String.eqb_eq in E. now subst.
  - intros H. now rewrite IH.
Qed.

(** X25.  [update_metrics] for a registered model whose metadata has a
    dict of metrics, given metrics with distinct keys.  The outcome is that
    of [save] on the new registry, and the registry is changed whether or
    not [save] raises: it has the same model names in the same order, every
    other model's metadata is as before, and the metadata of the model has
    its metrics merged with the given ones (a given value replaces the old
    one, the other old metrics stay), [updated_at] set to the timestamp,
    and every other field unchanged. *)
Theorem update_metrics_merges_in_place
    (save : list (string * Py.value) -> result unit)
    (models : list (string * Py.value)) (model_name : string)
    (metadata old metrics : list (string * Py.value)) (timestamp : string) :
  Py.dict_get models model_name = Some (Py.VDict metadata) ->
  Py.dict_get metadata "metrics" = Some (Py.VDict old) ->
  NoDup (map fst metrics) ->
  exists metadata' merged,
    let models' := fst (update_metrics save models model_name metrics timestamp) in
    snd (update_metrics save models model_name metrics timestamp) = save models' /\
    map fst models' = map fst models /\
    (forall other, other <> model_name ->
                   Py.dict_get models' other = Py.dict_get models other) /\
    get_model models' model_name = Ok (Py.VDict metadata') /\
    Py.dict_get metadata' "metrics" = Some (Py.VDict merged) /\
    (forall k, Py.dict_get merged k =
               match Py.dict_get metrics k with
               | Some v => Some v
               | None => Py.dict_get old k
               end) /\
    Py.dict_get metadata' "updated_at" = Some (Py.VStr timestamp) /\
    (forall k, k <> "metrics"%string -> k <> "updated_at"%string ->
               Py.dict_get metadata' k = Py.dict_get metadata k).
Proof.
  intros Hm Ho Hnd.
  exists (Py.dict_set (Py.dict_set metadata "metrics"
                         (Py.VDict (dict_update old metrics)))
            "updated_at" (Py.VStr timestamp)),
         (dict_update old metrics).
  assert (Hrun : update_metrics save models model_name metrics timestamp =
                 (Py.dict_set models model_name
                    (Py.VDict (Py.dict_set (Py.dict_set metadata "metrics"
                         (Py.VDict (dict_update old metrics)))
                       "updated_at" (Py.VStr timestamp))),
                  save (Py.dict_set models model_name
                    (Py.VDict (Py.dict_set (Py.dict_set metadata "metrics"
                         (Py.VDict (dict_update old metrics)))
                       "updated_at" (Py.VStr timestamp)))))).
  { unfold update_metrics, Py.dict_has. rewrite Hm. cbn [negb Py.getitem].
    rewrite Hm. cbn [bind]. unfold updated_metadata. cbn [Py.getitem].
    rewrite Ho. cbn [bind py_update setitem]. reflexivity. }
  rewrite Hrun. cbn [fst snd]. repeat split.
  - apply dict_set_keys_present. unfold Py.dict_has. now rewrite Hm.
  - intros other Hne. now apply dict_get_set_other.
  - unfold get_model, Py.dict_has. rewrite dict_get_set_same. cbn [negb Py.getitem].
    now rewrite dict_get_set_same.
  - rewrite dict_get_set_other by discriminate. apply dict_get_set_same.
  - intros k. now apply dict_update_get.
  - apply dict_get_set_same.
  - intros k H1 H2. rewrite !dict_get_set_other by assumption. reflexivity.
Qed.

Lemma update_metrics_merges_in_place_witness :
  let metadata :=
    [("model_name", Py.VStr "cnn_face");
     ("metrics", Py.VDict [("accuracy", Py.VInt 1); ("loss", Py.VInt 2)])]%string in
  exists metadata' merged,
    get_model
      (fst (update_metrics (fun _ => Raise (RuntimeError "disk full"))
              [("cnn_face"%string, Py.VDict metadata)] "cnn_face"
              [("loss"%string, Py.VInt 3)] "20250501_100000"))
      "cnn_face" = Ok (Py.VDict metadata') /\
    Py.dict_get metadata' "metrics" = Some (Py.VDict merged) /\
    Py.dict_get merged "loss" = Some (Py.VInt 3) /\
    Py.dict_get merged "accuracy" = Some (Py.VInt 1).
Proof.
  intros metadata.
  destruct (update_metrics_merges_in_place
              (fun _ => Raise (RuntimeError "disk full"))
              [("cnn_face"%string, Py.VDict metadata)] "cnn_face" metadata
              [("accuracy", Py.VInt 1); ("loss", Py.VInt 2)]%string
              [("loss"%string, Py.VInt 3)] "20250501_100000"
              eq_refl eq_refl ltac:(repeat constructor; simpl; tauto))
    as (metadata' & merged & _ & _ & _ & Hg & Hm & Hk & _).
  exists metadata', merged. split; [exact Hg|]. split; [exact Hm|].
  split; rewrite Hk; reflexivity.
Defined.
End UpdateMetricsFacts.
